(** * Enrichment pipeline of the real-estate analysis system

    A shallow embedding of [matcher.py], [hpd_cache.py], [filters.py], of
    the records of [models.py] and [config.py] and of the text helpers
    [_parse_price] and [_extract_borough] of [scrapers/zillow_scraper.py]
    and [_parse_address] of [scrapers/compass_scraper.py],
    followed by the properties the specification states about them
    (address normalisation, the cache and its keys, matching with its
    similarity threshold and confidence labels, and filtering, scoring
    and ranking) and by further properties of the code: loading the
    cache file, the round trip of a row through the cache, runs of the
    matcher over several listings, and the reading of listing text.

    Conventions of the embedding.
    - A Python [str] is a list of characters ([str := list ascii]); the
      case mappings and the white-space class are the ASCII ones (the
      addresses handled are ASCII text).
    - A Python [int] is a [Z]; a Python [float] holding a price or a
      bathroom count is an exact rational ([Q]); the investment score, a
      float that only ever accumulates integers, is a [Z].
    - [Optional[T]] is [option T]; Python truthiness is written out
      ([None], the empty string, zero and the empty list are falsy).
    - A [dict] is an association list in insertion order.
    - Code that may raise returns an [Outcome]; a [try] block that mutates
      objects runs in the state-and-exception monad [M] below, in which
      the mutations made before a raise survive it.
    - What lies outside the repository is a parameter: [fuzz.ratio], the
      scraper's answers, the clock, and the built-ins [str()] and [int()]
      on spreadsheet cells. *)

From Stdlib Require Import Ascii String.
From Stdlib Require Import ZArith QArith List Bool Lia.
From Stdlib Require Import Sorting.Sorted Sorting.Permutation.
From Stdlib Require Import Numbers.DecimalString Numbers.DecimalZ.
Import ListNotations.

Set Implicit Arguments.

(* ================================================================== *)
(** ** Python strings                                                  *)
(* ================================================================== *)

Definition str := list ascii.

(** A string literal. *)
Definition lit (s : string) : str := list_ascii_of_string s.

Module PyStr.

Definition eqb (a b : str) : bool :=
  if list_eq_dec ascii_dec a b then true else false.

(** [c.upper()] and [c.lower()] on one ASCII character. *)
Definition upper_char (c : ascii) : ascii :=
  let n := nat_of_ascii c in
  if ((97 <=? n) && (n <=? 122))%nat then ascii_of_nat (n - 32) else c.

Definition lower_char (c : ascii) : ascii :=
  let n := nat_of_ascii c in
  if ((65 <=? n) && (n <=? 90))%nat then ascii_of_nat (n + 32) else c.

(** [c.isspace()]: tab, line feed, vertical tab, form feed, carriage
    return, the four separators 0x1c..0x1f and the space. *)
Definition is_space (c : ascii) : bool :=
  let n := nat_of_ascii c in
  (((9 <=? n) && (n <=? 13)) || ((28 <=? n) && (n <=? 32)))%nat.

Definition upper (s : str) : str := map upper_char s.
Definition lower (s : str) : str := map lower_char s.

(** [s.lstrip()], [s.rstrip()], [s.strip()]. *)
Fixpoint lstrip (s : str) : str :=
  match s with
  | [] => []
  | c :: s' => if is_space c then lstrip s' else s
  end.

Definition rstrip (s : str) : str := rev (lstrip (rev s)).

Definition strip (s : str) : str := rstrip (lstrip s).

(** [s.startswith(p)]. *)
Fixpoint startswith (p s : str) : bool :=
  match p, s with
  | [], _ => true
  | _ :: _, [] => false
  | a :: p', b :: s' => if ascii_dec a b then startswith p' s' else false
  end.

(** [p in s] for strings: [p] occurs in [s] as a substring. *)
Fixpoint contains (p s : str) : bool :=
  startswith p s ||
  match s with
  | [] => false
  | _ :: s' => contains p s'
  end.

(** [s.replace(old, new)] for a non-empty [old]: a single left-to-right
    scan that replaces every non-overlapping occurrence.  [skip] counts
    the characters of a matched occurrence still to be consumed. *)
Fixpoint replace_from (old new : str) (skip : nat) (s : str) : str :=
  match s with
  | [] => []
  | c :: s' =>
      match skip with
      | S k => replace_from old new k s'
      | O =>
          if startswith old s
          then new ++ replace_from old new (length old - 1) s'
          else c :: replace_from old new 0 s'
      end
  end.

Definition replace (old new s : str) : str := replace_from old new 0 s.

(** [s.split()]: the maximal runs of non-space characters.  [word] is the
    run being read. *)
Fixpoint split_from (word : str) (s : str) : list str :=
  match s with
  | [] => match word with [] => [] | _ => [word] end
  | c :: s' =>
      if is_space c
      then match word with
           | [] => split_from [] s'
           | _ => word :: split_from [] s'
           end
      else split_from (word ++ [c]) s'
  end.

Definition split (s : str) : list str := split_from [] s.

(** [sep.join(parts)]. *)
Fixpoint join (sep : str) (parts : list str) : str :=
  match parts with
  | [] => []
  | [p] => p
  | p :: rest => p ++ sep ++ join sep rest
  end.

(** [s.split(sep)] for a non-empty separator: the pieces between the
    non-overlapping occurrences of [sep], scanned left to right. *)
Fixpoint split_sep_from (sep : str) (piece : str) (skip : nat) (s : str)
  : list str :=
  match s with
  | [] => [piece]
  | c :: s' =>
      match skip with
      | S k => split_sep_from sep piece k s'
      | O =>
          if startswith sep s
          then piece :: split_sep_from sep [] (length sep - 1) s'
          else split_sep_from sep (piece ++ [c]) 0 s'
      end
  end.

Definition split_sep (sep s : str) : list str := split_sep_from sep [] 0 s.

(** Truthiness of a string and of an optional string. *)
Definition truthy (s : str) : bool :=
  match s with [] => false | _ => true end.

Definition opt_truthy (o : option str) : bool :=
  match o with Some s => truthy s | None => false end.

(** [o or default] for an optional string. *)
Definition or_default (o : option str) (d : str) : str :=
  match o with
  | Some s => if truthy s then s else d
  | None => d
  end.

End PyStr.

(* ================================================================== *)
(** ** Exceptions and mutable state                                    *)
(* ================================================================== *)

(** The result of running Python code: a value, or a raised exception. *)
Inductive Outcome (A : Type) : Type :=
| Ok (a : A)
| Raised.
Arguments Raised {A}.

Definition obind {A B : Type} (o : Outcome A) (k : A -> Outcome B) : Outcome B :=
  match o with
  | Ok a => k a
  | Raised => Raised
  end.

(** Code that mutates objects of type [S] and may raise: the state
    reached when the exception is raised is kept. *)
Definition M (S A : Type) : Type := S -> Outcome A * S.

Definition ret {S A : Type} (a : A) : M S A := fun s => (Ok a, s).

Definition bind {S A B : Type} (m : M S A) (k : A -> M S B) : M S B :=
  fun s =>
    match m s with
    | (Ok a, s') => k a s'
    | (Raised, s') => (Raised, s')
    end.

Definition modify {S : Type} (f : S -> S) : M S unit := fun s => (Ok tt, f s).

Declare Scope py_scope.
Delimit Scope py_scope with py.
Notation "x <- m ;; k" := (bind m (fun x => k))
  (at level 61, m at next level, right associativity) : py_scope.
Notation "m ;;; k" := (bind m (fun _ => k))
  (at level 61, right associativity) : py_scope.

(* ================================================================== *)
(** ** Python dictionaries with string keys                            *)
(* ================================================================== *)

(** A [dict] keeps its items in insertion order; assigning to a key that
    is present replaces the value in place, assigning to a new key
    appends an item. *)
Module PyDict.
Section Dict.
Variable V : Type.

Definition t := list (str * V).

Fixpoint get (d : t) (k : str) : option V :=
  match d with
  | [] => None
  | (k', v) :: d' => if PyStr.eqb k' k then Some v else get d' k
  end.

(** [k in d]. *)
Definition mem (d : t) (k : str) : bool :=
  match get d k with
  | Some _ => true
  | None => false
  end.

(** [d[k] = v]. *)
Fixpoint setitem (d : t) (k : str) (v : V) : t :=
  match d with
  | [] => [(k, v)]
  | (k', v') :: d' =>
      if PyStr.eqb k' k then (k', v) :: d' else (k', v') :: setitem d' k v
  end.

Definition keys (d : t) : list str := map fst d.
Definition values (d : t) : list V := map snd d.

End Dict.
End PyDict.

(* ================================================================== *)
(** ** models.py                                                       *)
(* ================================================================== *)

Module Address.
Record t := mk {
  street : str;
  city : str;
  state : str;
  zip_code : option str;
  borough : option str
}.
Definition with_street (a : t) (s : str) : t :=
  mk s (city a) (state a) (zip_code a) (borough a).
End Address.

(** [ZillowProperty]: the fields read by the matcher, the cache and the
    filter. *)
Module ZillowProperty.
Record t := mk {
  address : Address.t;
  price : option Q;
  bedrooms : option Z;
  bathrooms : option Q;
  property_type : option str;
  days_on_market : option Z;
  url : option str
}.
End ZillowProperty.

Module HPDBUnit.
Record t := mk {
  unit_number : option str;
  unit_type : option str;
  is_b_unit : bool
}.
End HPDBUnit.

Module HPDBuilding.
Record t := mk {
  building_id : option str;
  bin : option str;
  bbl : option str;
  address : Address.t;
  total_units : Z;
  residential_units : Z;
  b_units : list HPDBUnit.t;
  has_b_units : bool;
  building_class : option str
}.
End HPDBuilding.

Module EnrichedProperty.
Record t := mk {
  zillow_data : ZillowProperty.t;
  hpd_data : option HPDBuilding.t;
  hpd_match_found : bool;
  has_b_units : bool;
  b_unit_count : Z;
  total_units : Z;
  meets_criteria : bool;
  match_confidence : option str;
  notes : option str
}.

(** [EnrichedProperty(zillow_data=z, hpd_match_found=False)]: every other
    field takes its declared default. *)
Definition init (z : ZillowProperty.t) : t :=
  mk z None false false 0 0 false None None.

(** The assignments made on a successful match. *)
Definition set_match (e : t) (b : HPDBuilding.t) (confidence : str) : t :=
  mk (zillow_data e) (Some b) true
     (HPDBuilding.has_b_units b)
     (Z.of_nat (length (HPDBuilding.b_units b)))
     (HPDBuilding.total_units b)
     (meets_criteria e) (Some confidence) (notes e).

(** [e.meets_criteria = True; e.notes = note]. *)
Definition set_passed (e : t) (note : str) : t :=
  mk (zillow_data e) (hpd_data e) (hpd_match_found e) (has_b_units e)
     (b_unit_count e) (total_units e) true (match_confidence e) (Some note).
End EnrichedProperty.

(* ================================================================== *)
(** ** config.py                                                       *)
(* ================================================================== *)

Module FilterCriteria.
Record t := mk {
  min_price : Q;
  max_price : Q;
  min_bedrooms : Z;
  min_bathrooms : Q;
  min_units : Z;
  require_b_units : bool;
  boroughs : option (list str);
  property_types : option (list str)
}.

(** The field defaults of [FilterCriteria]. *)
Definition default : t :=
  mk 0 (2500000 # 1) 5 (4 # 1) 2 true
     (Some [lit "Manhattan"; lit "Brooklyn"; lit "Bronx"; lit "Queens"])
     (Some [lit "Multi Family"; lit "Multifamily"; lit "Duplex"]).
End FilterCriteria.

(** Decimal rendering of an integer, as [str(n)] and [f"{n}"] give it. *)
Definition format_int (n : Z) : str :=
  list_ascii_of_string (NilZero.string_of_int (Z.to_int n)).

(* ================================================================== *)
(** ** hpd_cache.py                                                    *)
(* ================================================================== *)

(** A value held in a cell of the cached table: what [pandas] hands back
    for a spreadsheet cell, or what [save_to_cache] stores in a row. *)
Inductive Cell : Type :=
| CInt (n : Z)
| CFloat (q : Q)
| CNaN
| CStr (s : str)
| CNone.

(** A row of the table: a [dict] from column name to cell. *)
Definition Row := PyDict.t Cell.

Module HPDCache.

(** [HPDCache._normalize_address]: the key ["STREET, BOROUGH"]. *)
Definition _normalize_address (address : Address.t) : str :=
  let street := PyStr.strip (PyStr.upper (Address.street address)) in
  let borough :=
    PyStr.strip
      (PyStr.upper (PyStr.or_default (Address.borough address) (lit "BROOKLYN"))) in
  street ++ lit ", " ++ borough.

(** Truthiness of a cell. *)
Definition cell_truthy (c : Cell) : bool :=
  match c with
  | CInt n => negb (n =? 0)%Z
  | CFloat q => negb (Qeq_bool q 0)
  | CNaN => true
  | CStr s => PyStr.truthy s
  | CNone => false
  end.

(** [c > 0]: a [TypeError] for a string or [None]. *)
Definition cell_gt_zero (c : Cell) : Outcome bool :=
  match c with
  | CInt n => Ok (0 <? n)%Z
  | CFloat q => Ok (negb (Qle_bool q 0))
  | CNaN => Ok false
  | CStr _ => Raised
  | CNone => Raised
  end.

(** [pd.notna(x)] for [x = row.get(column)]. *)
Definition notna (x : option Cell) : bool :=
  match x with
  | None | Some CNone | Some CNaN => false
  | Some _ => true
  end.

Section Builtins.

(** Python's [str(x)] on a cell value and [int(s)] on a string ([None]
    for the [ValueError] of a string that is not an integer literal). *)
Variable py_str : Cell -> str.
Variable py_int_of_str : str -> option Z.

(** [int(c)]: truncation for a float, [ValueError] for NaN, [TypeError]
    for [None]. *)
Definition cell_int (c : Cell) : Outcome Z :=
  match c with
  | CInt n => Ok n
  | CFloat q => Ok (Z.quot (Qnum q) (Zpos (Qden q)))
  | CNaN => Raised
  | CStr s => match py_int_of_str s with Some n => Ok n | None => Raised end
  | CNone => Raised
  end.

(** [HPDBUnit(unit_number=f"B{i+1}", unit_type='Basement', is_b_unit=True)]. *)
Definition placeholder_unit (i : nat) : HPDBUnit.t :=
  HPDBUnit.mk (Some (lit "B" ++ format_int (Z.of_nat i + 1)))
              (Some (lit "Basement")) true.

(** The [try] block of [get_cached_hpd_data]: rebuilding an [HPDBuilding]
    from a cached row. *)
Definition reconstruct (row : Row) (address : Address.t)
  : Outcome HPDBuilding.t :=
  let b_unit_count :=
    match PyDict.get row (lit "B Unit Count") with
    | Some c => c
    | None => CInt 0
    end in
  obind (if cell_truthy b_unit_count
         then obind (cell_gt_zero b_unit_count) (fun positive =>
              if positive
              then obind (cell_int b_unit_count) (fun n =>
                   Ok (map placeholder_unit (seq 0 (Z.to_nat n))))
              else Ok [])
         else Ok [])
  (fun b_units =>
  let get_str (column : str) : str :=
    match PyDict.get row column with
    | Some c => py_str c
    | None => []
    end in
  let total :=
    if notna (PyDict.get row (lit "Total Units"))
    then match PyDict.get row (lit "Total Units") with
         | Some c => cell_int c
         | None => cell_int (CInt 0)
         end
    else Ok 0%Z in
  obind total (fun total_units =>
  obind total (fun residential_units =>
  Ok (HPDBuilding.mk
        (Some (get_str (lit "Building ID")))
        (Some (get_str (lit "BIN")))
        (Some (get_str (lit "BBL")))
        address
        total_units
        residential_units
        b_units
        (0 <? length b_units)%nat
        (if notna (PyDict.get row (lit "Building Class"))
         then Some (get_str (lit "Building Class"))
         else None))))).

(** [HPDCache.get_cached_hpd_data]. *)
Definition get_cached_hpd_data (cache_data : PyDict.t Row) (address : Address.t)
  : option HPDBuilding.t :=
  let key := _normalize_address address in
  if negb (PyDict.mem cache_data key) then None
  else
    match PyDict.get cache_data key with
    | None => None
    | Some row =>
        match reconstruct row address with
        | Ok building => Some building
        | Raised => None
        end
    end.

End Builtins.

Section Save.

(** The clock: [scraped_date i] is the formatted time at which the row of
    the [i]-th property of the call is built. *)
Variable scraped_date : nat -> str.

(** [f"B{b.unit_number}"]. *)
Definition unit_label (b : HPDBUnit.t) : str :=
  lit "B" ++ match HPDBUnit.unit_number b with
             | Some s => s
             | None => lit "None"
             end.

Definition opt_cell {A : Type} (f : A -> Cell) (o : option A) : Cell :=
  match o with
  | Some a => f a
  | None => CNone
  end.

(** The row [save_to_cache] builds for one property. *)
Definition make_row (i : nat) (prop : EnrichedProperty.t)
  (building : HPDBuilding.t) : Row :=
  let zillow := EnrichedProperty.zillow_data prop in
  let address := ZillowProperty.address zillow in
  [ (lit "Street", CStr (Address.street address));
    (lit "Borough", CStr (PyStr.or_default (Address.borough address) (lit "Brooklyn")));
    (lit "Zillow Price", opt_cell CFloat (ZillowProperty.price zillow));
    (lit "Bedrooms", opt_cell CInt (ZillowProperty.bedrooms zillow));
    (lit "Bathrooms", opt_cell CFloat (ZillowProperty.bathrooms zillow));
    (lit "Zillow URL", CStr (PyStr.or_default (ZillowProperty.url zillow) (lit "N/A")));
    (lit "B Unit Count", CInt (Z.of_nat (length (HPDBuilding.b_units building))));
    (lit "Has B Units",
      CStr (if HPDBuilding.has_b_units building then lit "Yes" else lit "No"));
    (lit "B Unit Numbers",
      CStr (match HPDBuilding.b_units building with
            | [] => lit "N/A"
            | units => PyStr.join (lit ", ") (map unit_label units)
            end));
    (lit "Match Confidence",
      CStr (PyStr.or_default (EnrichedProperty.match_confidence prop) (lit "N/A")));
    (lit "Scraped Date", CStr (scraped_date i)) ].

(** One iteration of the loop [for prop in enriched_properties]: the
    state is the table [cache_data] and the list [new_data]. *)
Definition save_step (st : PyDict.t Row * list Row)
  (ip : nat * EnrichedProperty.t) : PyDict.t Row * list Row :=
  let '(cache_data, new_data) := st in
  let '(i, prop) := ip in
  match EnrichedProperty.hpd_match_found prop, EnrichedProperty.hpd_data prop with
  | true, Some building =>
      let key :=
        _normalize_address (ZillowProperty.address (EnrichedProperty.zillow_data prop)) in
      if PyDict.mem cache_data key then st
      else
        let row := make_row i prop building in
        (PyDict.setitem cache_data key row, new_data ++ [row])
  | _, _ => st
  end.

(** Pairs every element with its position. *)
Definition enumerate {A : Type} (l : list A) : list (nat * A) :=
  combine (seq 0 (length l)) l.

(** [HPDCache.save_to_cache]: the table after the call, and the rows
    handed to the spreadsheet writer ([None] when the call returns early
    and writes nothing). *)
Definition save_to_cache (cache_data : PyDict.t Row)
  (enriched_properties : list EnrichedProperty.t)
  : PyDict.t Row * option (list Row) :=
  match enriched_properties with
  | [] => (cache_data, None)
  | _ =>
      let new_data := PyDict.values cache_data in
      let '(cache_data', new_data') :=
        fold_left save_step (enumerate enriched_properties) (cache_data, new_data) in
      (cache_data', Some new_data')
  end.

End Save.
End HPDCache.

(* ================================================================== *)
(** ** matcher.py                                                      *)
(* ================================================================== *)

Module PropertyMatcher.

(** The mutable attributes of a [PropertyMatcher]: the cache table, the
    dictionary of freshly scraped buildings, and a log of the addresses
    passed to the scraper so far. *)
Record t := mk {
  cache_data : PyDict.t Row;
  new_hpd_data : PyDict.t HPDBuilding.t;
  scraper_calls : list Address.t
}.

Definition match_threshold : Z := 80.

(** The [replacements] dictionary of [_normalize_address], in insertion
    order (the order in which the loop applies them). *)
Definition replacements : list (str * str) :=
  [ (lit "STREET", lit "ST");
    (lit "AVENUE", lit "AVE");
    (lit "ROAD", lit "RD");
    (lit "BOULEVARD", lit "BLVD");
    (lit "DRIVE", lit "DR");
    (lit "LANE", lit "LN");
    (lit "PLACE", lit "PL");
    (lit "EAST", lit "E");
    (lit "WEST", lit "W");
    (lit "NORTH", lit "N");
    (lit "SOUTH", lit "S") ].

(** The loop [for old, new in replacements.items(): street = ...]. *)
Definition apply_replacements (table : list (str * str)) (street : str) : str :=
  fold_left (fun s on => PyStr.replace (fst on) (snd on) s) table street.

(** [PropertyMatcher._normalize_address]. *)
Definition _normalize_address (address : Address.t) : str :=
  let street := PyStr.strip (PyStr.upper (Address.street address)) in
  let street := apply_replacements replacements street in
  PyStr.join (lit " ") (PyStr.split street).

(** [f"{street}, {borough or 'Brooklyn'}, NY"]. *)
Definition address_str (address : Address.t) : str :=
  Address.street address ++ lit ", "
  ++ PyStr.or_default (Address.borough address) (lit "Brooklyn") ++ lit ", NY".

Section Collaborators.

(** [fuzz.ratio] of the fuzzy-matching library. *)
Variable ratio : str -> str -> Z.

(** [HPDScraper.search_by_address]: the answer may depend on the earlier
    calls, and the call may raise. *)
Variable search_by_address :
  list Address.t -> Address.t -> Outcome (option HPDBuilding.t).

Variable py_str : Cell -> str.
Variable py_int_of_str : str -> option Z.
Variable scraped_date : nat -> str.

(** [PropertyMatcher._calculate_address_similarity]. *)
Definition _calculate_address_similarity (addr1 addr2 : Address.t) : Z :=
  let norm1 := _normalize_address addr1 in
  let norm2 := _normalize_address addr2 in
  let similarity := ratio norm1 norm2 in
  let similarity :=
    match Address.borough addr1, Address.borough addr2 with
    | Some b1, Some b2 =>
        if PyStr.truthy b1 && PyStr.truthy b2
           && PyStr.eqb (PyStr.upper b1) (PyStr.upper b2)
        then Z.min 100 (similarity + 10)
        else similarity
    | _, _ => similarity
    end in
  let similarity :=
    match Address.zip_code addr1, Address.zip_code addr2 with
    | Some z1, Some z2 =>
        if PyStr.truthy z1 && PyStr.truthy z2 && PyStr.eqb z1 z2
        then Z.min 100 (similarity + 10)
        else similarity
    | _, _ => similarity
    end in
  similarity.

(** The confidence label of a score that cleared the threshold. *)
Definition confidence_of (similarity : Z) : str :=
  if (95 <=? similarity)%Z then lit "High"
  else if (85 <=? similarity)%Z then lit "Medium"
  else lit "Low".

(** The objects the [try] block of [match_property] mutates. *)
Record Frame := mkFrame {
  self : t;
  enriched : EnrichedProperty.t
}.

(** [self.hpd_scraper.search_by_address(address)]. *)
Definition call_scraper (address : Address.t) : M Frame (option HPDBuilding.t) :=
  fun fr =>
    let m := self fr in
    let log := scraper_calls m in
    (search_by_address log address,
     mkFrame (mk (cache_data m) (new_hpd_data m) (log ++ [address])) (enriched fr)).

(** [self.new_hpd_data[key] = building]. *)
Definition record_new (key : str) (building : HPDBuilding.t) : M Frame unit :=
  modify (fun fr =>
    let m := self fr in
    mkFrame (mk (cache_data m) (PyDict.setitem (new_hpd_data m) key building)
                (scraper_calls m))
            (enriched fr)).

(** The body of the [try] block of [match_property]. *)
Definition match_property_try (zillow_property : ZillowProperty.t)
  : M Frame unit :=
  (let address := ZillowProperty.address zillow_property in
   let key := address_str address in
   fun fr =>
   (hpd_building <-
      match HPDCache.get_cached_hpd_data py_str py_int_of_str
              (cache_data (self fr)) address with
      | Some cached_building => ret (Some cached_building)
      | None =>
          found <- call_scraper address ;;
          match found with
          | Some building => record_new key building ;;; ret (Some building)
          | None => ret None
          end
      end ;;
    match hpd_building with
    | Some building =>
        let similarity :=
          _calculate_address_similarity address (HPDBuilding.address building) in
        if (match_threshold <=? similarity)%Z
        then modify (fun fr' =>
               mkFrame (self fr')
                 (EnrichedProperty.set_match (enriched fr') building
                    (confidence_of similarity)))
        else ret tt
    | None => ret tt
    end) fr)%py.

(** [PropertyMatcher.match_property]: the [except Exception] clause only
    logs, so the record is returned as the [try] block left it. *)
Definition match_property (zillow_property : ZillowProperty.t) (m : t)
  : EnrichedProperty.t * t :=
  let fr := mkFrame m (EnrichedProperty.init zillow_property) in
  let '(_, fr') := match_property_try zillow_property fr in
  (enriched fr', self fr').

(** The tasks of one batch, run in order. *)
Fixpoint gather (batch : list ZillowProperty.t) (m : t)
  : list EnrichedProperty.t * t :=
  match batch with
  | [] => ([], m)
  | prop :: rest =>
      let '(e, m1) := match_property prop m in
      let '(es, m2) := gather rest m1 in
      (e :: es, m2)
  end.

(** [range(0, n, step)] for a positive [step]. *)
Fixpoint range_from (count start step : nat) : list nat :=
  match count with
  | O => []
  | S c => start :: range_from c (start + step) step
  end.

Definition batch_starts (n step : nat) : list nat :=
  range_from ((n + step - 1) / step) 0 step.

(** The loop [for i in range(0, len(zillow_properties), batch_size)]. *)
Definition run_batches (zillow_properties : list ZillowProperty.t)
  (batch_size : nat) (m : t) : list EnrichedProperty.t * t :=
  fold_left
    (fun (acc : list EnrichedProperty.t * t) (i : nat) =>
       let '(enriched_properties, m1) := acc in
       let batch := firstn batch_size (skipn i zillow_properties) in
       let '(results, m2) := gather batch m1 in
       (enriched_properties ++ results, m2))
    (batch_starts (length zillow_properties) batch_size)
    ([], m).

(** The comprehension that selects the records to cache. *)
Definition new_enriched (enriched_properties : list EnrichedProperty.t) (m : t)
  : list EnrichedProperty.t :=
  filter
    (fun p =>
       EnrichedProperty.hpd_match_found p
       && PyDict.mem (new_hpd_data m)
            (address_str (ZillowProperty.address (EnrichedProperty.zillow_data p))))
    enriched_properties.

(** [PropertyMatcher.match_properties_batch].  A zero [batch_size] makes
    [range] raise; a negative one makes the loop run no iteration. *)
Definition match_properties_batch (zillow_properties : list ZillowProperty.t)
  (batch_size : Z) (m : t) : Outcome (list EnrichedProperty.t) * t :=
  if (batch_size =? 0)%Z then (Raised, m)
  else
    let '(enriched_properties, m1) :=
      if (batch_size <? 0)%Z then ([], m)
      else run_batches zillow_properties (Z.to_nat batch_size) m in
    let to_save := new_enriched enriched_properties m1 in
    let m2 :=
      match to_save with
      | [] => m1
      | _ =>
          mk (fst (HPDCache.save_to_cache scraped_date (cache_data m1) to_save))
             (new_hpd_data m1) (scraper_calls m1)
      end in
    (Ok enriched_properties, m2).

End Collaborators.
End PropertyMatcher.

(* ================================================================== *)
(** ** filters.py                                                      *)
(* ================================================================== *)

(** [float(s)] on the decimal literals [[sign] digits [. digits]], white
    space around them ignored; every other string raises here.  (Python
    also reads exponents, infinities and NaN; the notes written by the
    filter contain none.) *)
Definition digits_value (s : str) : option N :=
  option_map N.of_uint (NilEmpty.uint_of_string (string_of_list_ascii s)).

Definition py_float (s : str) : Outcome Q :=
  let s := PyStr.strip s in
  let '(negative, body) :=
    match s with
    | "-"%char :: r => (true, r)
    | "+"%char :: r => (false, r)
    | _ => (false, s)
    end in
  let signed (q : Q) : Q := if negative then Qopp q else q in
  match PyStr.split_sep (lit ".") body with
  | [ip] =>
      match ip, digits_value ip with
      | _ :: _, Some i => Ok (signed (inject_Z (Z.of_N i)))
      | _, _ => Raised
      end
  | [ip; fp] =>
      match ip ++ fp, digits_value ip, digits_value fp with
      | _ :: _, Some i, Some f =>
          Ok (signed (inject_Z (Z.of_N i)
                      + inject_Z (Z.of_N f) / inject_Z (10 ^ Z.of_nat (length fp))))
      | _, _, _ => Raised
      end
  | _ => Raised
  end.

(** [f"{score:.1f}"] for a float with an integer value. *)
Definition format_1f (score : Z) : str := format_int score ++ lit ".0".

(** [list.sort(key=..., reverse=True)] on a list decorated with its keys.
    Python's sort is stable, also with [reverse=True]: elements with equal
    keys keep their original order.  A stable insertion sort gives the
    same list. *)
Section Sort.
Variable A : Type.

Fixpoint insert_desc (x : Q * A) (l : list (Q * A)) : list (Q * A) :=
  match l with
  | [] => [x]
  | y :: l' =>
      if Qle_bool (fst y) (fst x) then x :: y :: l' else y :: insert_desc x l'
  end.

Definition sort_desc (l : list (Q * A)) : list (Q * A) :=
  fold_right insert_desc [] l.

(** The keys are computed for every element before any comparison; an
    exception raised by the key function aborts the sort. *)
Fixpoint decorate (key : A -> Outcome Q) (l : list A) : Outcome (list (Q * A)) :=
  match l with
  | [] => Ok []
  | x :: l' =>
      obind (key x) (fun k =>
      obind (decorate key l') (fun kl => Ok ((k, x) :: kl)))
  end.

Definition py_sort_reverse (key : A -> Outcome Q) (l : list A) : Outcome (list A) :=
  obind (decorate key l) (fun kl => Ok (map snd (sort_desc kl))).

End Sort.

(** [l[i]], an [IndexError] when out of range. *)
Definition py_index {A : Type} (l : list A) (i : nat) : Outcome A :=
  match nth_error l i with
  | Some a => Ok a
  | None => Raised
  end.

Module PropertyFilter.
Section Criteria.

(** [self.criteria]. *)
Variable criteria : FilterCriteria.t.

Definition meets_price_criteria (property : EnrichedProperty.t) : bool :=
  match ZillowProperty.price (EnrichedProperty.zillow_data property) with
  | None => false
  | Some price =>
      Qle_bool (FilterCriteria.min_price criteria) price
      && Qle_bool price (FilterCriteria.max_price criteria)
  end.

Definition meets_bedroom_criteria (property : EnrichedProperty.t) : bool :=
  match ZillowProperty.bedrooms (EnrichedProperty.zillow_data property) with
  | None => false
  | Some bedrooms => (FilterCriteria.min_bedrooms criteria <=? bedrooms)%Z
  end.

Definition meets_bathroom_criteria (property : EnrichedProperty.t) : bool :=
  match ZillowProperty.bathrooms (EnrichedProperty.zillow_data property) with
  | None => false
  | Some bathrooms => Qle_bool (FilterCriteria.min_bathrooms criteria) bathrooms
  end.

Definition meets_unit_criteria (property : EnrichedProperty.t) : bool :=
  if negb (EnrichedProperty.hpd_match_found property) then false
  else (FilterCriteria.min_units criteria <=? EnrichedProperty.total_units property)%Z.

Definition has_required_b_units (property : EnrichedProperty.t) : bool :=
  if negb (FilterCriteria.require_b_units criteria) then true
  else EnrichedProperty.has_b_units property.

Definition meets_borough_criteria (property : EnrichedProperty.t) : bool :=
  match FilterCriteria.boroughs criteria with
  | None | Some [] => true
  | Some boroughs =>
      match Address.borough
              (ZillowProperty.address (EnrichedProperty.zillow_data property)) with
      | None => false
      | Some borough =>
          if negb (PyStr.truthy borough) then false
          else existsb (fun b => PyStr.eqb borough b) boroughs
      end
  end.

Definition meets_property_type_criteria (property : EnrichedProperty.t) : bool :=
  match FilterCriteria.property_types criteria with
  | None | Some [] => true
  | Some property_types =>
      match ZillowProperty.property_type (EnrichedProperty.zillow_data property) with
      | None => false
      | Some property_type =>
          if negb (PyStr.truthy property_type) then false
          else
            let property_type_lower := PyStr.lower property_type in
            existsb (fun pt => PyStr.contains (PyStr.lower pt) property_type_lower)
                    property_types
      end
  end.

(** [PropertyFilter.calculate_investment_score]. *)
Definition calculate_investment_score (property : EnrichedProperty.t) : Z :=
  let zillow := EnrichedProperty.zillow_data property in
  let total_units := EnrichedProperty.total_units property in
  let score := 0%Z in
  let score :=
    if EnrichedProperty.has_b_units property then (score + 30)%Z else score in
  let b_unit_score := Z.min (EnrichedProperty.b_unit_count property * 10) 30 in
  let score := (score + b_unit_score)%Z in
  let score :=
    if (0 <? total_units)%Z
    then (score + Z.min (total_units * 5) 25)%Z
    else score in
  let score :=
    match ZillowProperty.price zillow with
    | Some price =>
        if negb (Qeq_bool price 0) && (0 <? total_units)%Z
        then
          let price_per_unit := price / inject_Z total_units in
          if Qle_bool price_per_unit (100000 # 1) then (score + 15)%Z
          else if Qle_bool price_per_unit (150000 # 1) then (score + 10)%Z
          else if Qle_bool price_per_unit (200000 # 1) then (score + 5)%Z
          else score
        else score
    | None => score
    end in
  let score :=
    match ZillowProperty.days_on_market zillow with
    | Some days_on_market =>
        if (days_on_market <=? 7)%Z then (score + 10)%Z
        else if (days_on_market <=? 14)%Z then (score + 7)%Z
        else if (days_on_market <=? 30)%Z then (score + 5)%Z
        else score
    | None => score
    end in
  Z.min score 100.

(** The conjunction [passes_all] of [filter_properties]. *)
Definition passes_all (property : EnrichedProperty.t) : bool :=
  meets_price_criteria property
  && meets_bedroom_criteria property
  && meets_bathroom_criteria property
  && meets_unit_criteria property
  && has_required_b_units property
  && meets_borough_criteria property
  && meets_property_type_criteria property.

(** [f"Investment Score: {score:.1f}/100"]. *)
Definition score_note (score : Z) : str :=
  lit "Investment Score: " ++ format_1f score ++ lit "/100".

(** The body of [if passes_all:]: the record as mutated. *)
Definition mark_passed (property : EnrichedProperty.t) : EnrichedProperty.t :=
  EnrichedProperty.set_passed property
    (score_note (calculate_investment_score property)).

(** The loop that collects [filtered]. *)
Definition collect (properties : list EnrichedProperty.t)
  : list EnrichedProperty.t :=
  map mark_passed (filter passes_all properties).

(** The [key] function of the sort:
    [float(p.notes.split(': ')[1].split('/')[0]) if p.notes else 0]. *)
Definition sort_key (p : EnrichedProperty.t) : Outcome Q :=
  match EnrichedProperty.notes p with
  | Some notes =>
      if PyStr.truthy notes
      then
        obind (py_index (PyStr.split_sep (lit ": ") notes) 1) (fun after =>
        obind (py_index (PyStr.split_sep (lit "/") after) 0) (fun number =>
        py_float number))
      else Ok 0
  | None => Ok 0
  end.

(** [PropertyFilter.filter_properties]. *)
Definition filter_properties (properties : list EnrichedProperty.t)
  : Outcome (list EnrichedProperty.t) :=
  py_sort_reverse sort_key (collect properties).

End Criteria.
End PropertyFilter.

(* ================================================================== *)
(** ** hpd_cache.py: loading the table                                 *)
(* ================================================================== *)

Module HPDCacheLoad.

(** [row[column].upper()]: a [KeyError] when the sheet has no such
    column, an [AttributeError] when the cell is not a string (an empty
    cell is read as NaN). *)
Definition cell_upper (row : Row) (column : str) : Outcome str :=
  match PyDict.get row column with
  | Some (CStr s) => Ok (PyStr.upper s)
  | _ => Raised
  end.

(** [f"{row['Street'].upper()}, {row['Borough'].upper()}"]. *)
Definition loaded_key (row : Row) : Outcome str :=
  obind (cell_upper row (lit "Street")) (fun street =>
  obind (cell_upper row (lit "Borough")) (fun borough =>
  Ok (street ++ lit ", " ++ borough))).

(** The loop [for _, row in df.iterrows()] of [_load_cache], run inside
    the [try] block: the state is [self.cache_data]. *)
Fixpoint load_rows (rows : list Row) : M (PyDict.t Row) unit :=
  match rows with
  | [] => ret tt
  | row :: rest =>
      (key <- (fun cache_data => (loaded_key row, cache_data)) ;;
       modify (fun cache_data => PyDict.setitem cache_data key row) ;;;
       load_rows rest)%py
  end.

(** What [_load_cache] finds: no file, a file [pd.read_excel] cannot
    read, or the rows of the sheet. *)
Inductive CacheFile : Type :=
| NoFile
| Unreadable
| Sheet (rows : list Row).

(** [HPDCache._load_cache]: the table after the call; the [except]
    clause only logs. *)
Definition _load_cache (file : CacheFile) (cache_data : PyDict.t Row)
  : PyDict.t Row :=
  match file with
  | NoFile => cache_data
  | Unreadable => cache_data
  | Sheet rows => snd (load_rows rows cache_data)
  end.

(** [HPDCache.__init__]: an empty table, then [_load_cache]. *)
Definition init (file : CacheFile) : PyDict.t Row := _load_cache file [].

End HPDCacheLoad.

(* ================================================================== *)
(** ** models.py: methods                                              *)
(* ================================================================== *)

Module Models.

(** [EnrichedProperty.calculate_metrics]. *)
Definition calculate_metrics (e : EnrichedProperty.t) : EnrichedProperty.t :=
  match EnrichedProperty.hpd_data e with
  | Some hpd_data =>
      EnrichedProperty.mk
        (EnrichedProperty.zillow_data e) (EnrichedProperty.hpd_data e)
        (EnrichedProperty.hpd_match_found e)
        (HPDBuilding.has_b_units hpd_data)
        (Z.of_nat (length (HPDBuilding.b_units hpd_data)))
        (HPDBuilding.total_units hpd_data)
        (EnrichedProperty.meets_criteria e)
        (EnrichedProperty.match_confidence e) (EnrichedProperty.notes e)
  | None => e
  end.

End Models.

(* ================================================================== *)
(** ** scrapers/zillow_scraper.py: parsing helpers                     *)
(* ================================================================== *)

Module ZillowScraper.

(** The [boroughs] dictionary of [_extract_borough], in insertion order. *)
Definition boroughs : list (str * str) :=
  [ (lit "manhattan", lit "Manhattan");
    (lit "brooklyn", lit "Brooklyn");
    (lit "queens", lit "Queens");
    (lit "bronx", lit "Bronx");
    (lit "staten island", lit "Staten Island") ].


(** The characters the pattern [[^\d.]] leaves in place. *)
Definition digit_or_dot (c : ascii) : bool :=
  let n := nat_of_ascii c in
  (((48 <=? n) && (n <=? 57)) || (n =? 46))%nat.

(** [ZillowScraper._parse_price]; the bare [except] turns every
    exception into [None]. *)
Definition _parse_price (price_text : str) : option Q :=
  match py_index (PyStr.split_sep (lit "+") price_text) 0 with
  | Ok before_plus =>
      match filter digit_or_dot before_plus with
      | [] => None
      | clean_price =>
          match py_float clean_price with
          | Ok price => Some price
          | Raised => None
          end
      end
  | Raised => None
  end.

End ZillowScraper.

(* ================================================================== *)
(** ** scrapers/compass_scraper.py: the address of a listing           *)
(* ================================================================== *)

Module CompassScraper.

(** [CompassScraper._parse_address]: the text is cut at its commas; the
    [except] clause turns every exception into [None]. *)
Definition _parse_address (address_text : str) : option Address.t :=
  let parts := map PyStr.strip (PyStr.split_sep (lit ",") address_text) in
  let result :=
    if (3 <=? length parts)%nat
    then
      obind (py_index parts 0) (fun street =>
      obind (if (1 <? length parts)%nat then py_index parts 1
             else Ok (lit "Brooklyn")) (fun city =>
      obind (if (2 <? length parts)%nat
             then obind (py_index parts (length parts - 1)) (fun last_part =>
                  Ok (PyStr.split last_part))
             else Ok []) (fun state_zip =>
      obind (if (0 <? length state_zip)%nat then py_index state_zip 0
             else Ok (lit "NY")) (fun state =>
      obind (if (1 <? length state_zip)%nat
             then obind (py_index state_zip 1) (fun zip => Ok (Some zip))
             else Ok None) (fun zip_code =>
      Ok (Address.mk street city state zip_code (Some (lit "Brooklyn"))))))))
    else
      Ok (Address.mk address_text (lit "Brooklyn") (lit "NY") None
            (Some (lit "Brooklyn"))) in
  match result with
  | Ok address => Some address
  | Raised => None
  end.

End CompassScraper.

(* ================================================================== *)
(** ** Vocabulary of the specification                                 *)
(* ================================================================== *)

Section NormalisationVocabulary.

Import PropertyMatcher.

(** A string is in upper case when [upper] leaves it unchanged. *)
Definition is_upper (s : str) : Prop :=
  Forall (fun c => PyStr.upper_char c = c) s.

(** No white space. *)
Definition spaceless (w : str) : Prop :=
  Forall (fun c => PyStr.is_space c = false) w.

(** The shape of a word: at least one character and no white space. *)
Definition is_word (w : str) : Prop := w <> [] /\ spaceless w.

(** None of the long-form tokens of the table occurs in [s]. *)
Definition no_long_form (s : str) : Prop :=
  Forall (fun on => PyStr.contains (fst on) s = false) replacements.

(** [upper().strip()]. *)
Definition upper_trim (s : str) : str := PyStr.strip (PyStr.upper s).

(** The borough component of the cache key: the upper-cased, trimmed
    borough, [BROOKLYN] standing for an absent (or empty) one. *)
Definition borough_part (a : Address.t) : str :=
  upper_trim
    match Address.borough a with
    | Some (c :: b) => c :: b
    | _ => lit "BROOKLYN"
    end.

End NormalisationVocabulary.

Section CacheVocabulary.

Import HPDCache.

(** The cache key under which a record is stored. *)
Definition key_of (p : EnrichedProperty.t) : str :=
  _normalize_address (ZillowProperty.address (EnrichedProperty.zillow_data p)).

(** The records [save_to_cache] does not skip on sight. *)
Definition cacheable (p : EnrichedProperty.t) : Prop :=
  EnrichedProperty.hpd_match_found p = true /\ EnrichedProperty.hpd_data p <> None.

(** Where a written item comes from. *)
Definition written_from (scraped_date : nat -> str)
  (props : list (nat * EnrichedProperty.t)) (item : str * Row) : Prop :=
  exists i p b,
    In (i, p) props
    /\ EnrichedProperty.hpd_match_found p = true
    /\ EnrichedProperty.hpd_data p = Some b
    /\ fst item = key_of p
    /\ snd item = make_row scraped_date i p b.

(** The key of a stored row, computed from its own street and borough
    cells. *)
Definition row_key (row : Row) : option str :=
  match PyDict.get row (lit "Street"), PyDict.get row (lit "Borough") with
  | Some (CStr street), Some (CStr borough) =>
      Some (_normalize_address (Address.mk street [] [] None (Some borough)))
  | _, _ => None
  end.

(** A table whose rows are filed under their own key. *)
Definition coherent (cache : PyDict.t Row) : Prop :=
  Forall (fun item => row_key (snd item) = Some (fst item)) cache.

End CacheVocabulary.

Section MatchingVocabulary.

Import PropertyMatcher.

Variable ratio : str -> str -> Z.

(** What the similarity gate makes of a candidate building. *)
Definition gate (z : ZillowProperty.t) (b : HPDBuilding.t) : EnrichedProperty.t :=
  let s := _calculate_address_similarity ratio
             (ZillowProperty.address z)
             (HPDBuilding.address b) in
  if (match_threshold <=? s)%Z
  then EnrichedProperty.set_match (EnrichedProperty.init z) b (confidence_of s)
  else EnrichedProperty.init z.

(** The matcher after a call of the scraper for [z]. *)
Definition after_call (z : ZillowProperty.t) (m : t) : t :=
  mk (cache_data m) (new_hpd_data m)
     (scraper_calls m ++ [ZillowProperty.address z]).

(** The matcher after a call that returned the building [b]. *)
Definition after_found (z : ZillowProperty.t) (b : HPDBuilding.t) (m : t) : t :=
  mk (cache_data m)
     (PyDict.setitem (new_hpd_data m) (address_str (ZillowProperty.address z)) b)
     (scraper_calls m ++ [ZillowProperty.address z]).

End MatchingVocabulary.

(** The decimal digits. *)
Definition is_digit (c : ascii) : Prop := In c (lit "0123456789").

(** The digits of a decimal number, most significant first. *)
Definition udigits (d : Decimal.uint) : str :=
  list_ascii_of_string (NilEmpty.string_of_uint d).

Section SortVocabulary.

Variable A : Type.

(** An integer measure the keys of a decorated list agree with. *)
Variable f : A -> Z.

(** Insertion by the measure: before the first element that is not
    greater. *)
Fixpoint insert_by (x : A) (l : list A) : list A :=
  match l with
  | [] => [x]
  | y :: l' => if (f y <=? f x)%Z then x :: y :: l' else y :: insert_by x l'
  end.

Definition sort_by (l : list A) : list A := fold_right insert_by [] l.

Definition keyed (kl : list (Q * A)) : Prop :=
  Forall (fun kx => fst kx == inject_Z (f (snd kx))) kl.

(** Descending order of the measure. *)
Definition descending (l : list A) : Prop :=
  StronglySorted (fun a b => (f b <= f a)%Z) l.

End SortVocabulary.

(** [p] occurs in [s]. *)
Definition is_substring (p s : str) : Prop := exists u v, s = u ++ p ++ v.

(** An optional string that is present: not [None] and not empty. *)
Definition present (o : option str) (s : str) : Prop := o = Some s /\ s <> [].

(** An allow-list that is configured: not [None] and not empty. *)
Definition configured (o : option (list str)) (l : list str) : Prop :=
  o = Some l /\ l <> [].

(** The gates of the specification. *)
Definition passes_gate (c : FilterCriteria.t) (r : EnrichedProperty.t) : Prop :=
  let z := EnrichedProperty.zillow_data r in
  (exists p, ZillowProperty.price z = Some p
             /\ FilterCriteria.min_price c <= p /\ p <= FilterCriteria.max_price c)
  /\ (exists b, ZillowProperty.bedrooms z = Some b
                /\ (FilterCriteria.min_bedrooms c <= b)%Z)
  /\ (exists b, ZillowProperty.bathrooms z = Some b
                /\ FilterCriteria.min_bathrooms c <= b)
  /\ (EnrichedProperty.hpd_match_found r = true
      /\ (FilterCriteria.min_units c <= EnrichedProperty.total_units r)%Z)
  /\ (FilterCriteria.require_b_units c = true ->
      EnrichedProperty.has_b_units r = true)
  /\ (forall l, configured (FilterCriteria.boroughs c) l ->
        exists b, present (Address.borough (ZillowProperty.address z)) b /\ In b l)
  /\ (forall l, configured (FilterCriteria.property_types c) l ->
        exists t pt, present (ZillowProperty.property_type z) t /\ In pt l
                     /\ is_substring (PyStr.lower pt) (PyStr.lower t)).

(** The score as the specification words it. *)
Definition Qpositive (q : Q) : bool := negb (Qle_bool q 0).

Definition price_per_unit_tier (price_per_unit : Q) : Z :=
  if Qle_bool price_per_unit (100000 # 1) then 15
  else if Qle_bool price_per_unit (150000 # 1) then 10
  else if Qle_bool price_per_unit (200000 # 1) then 5
  else 0.

Definition days_on_market_tier (days : Z) : Z :=
  if (days <=? 7)%Z then 10
  else if (days <=? 14)%Z then 7
  else if (days <=? 30)%Z then 5
  else 0.

Definition spec_score (r : EnrichedProperty.t) : Z :=
  let z := EnrichedProperty.zillow_data r in
  let units := EnrichedProperty.total_units r in
  Z.min
    ((if EnrichedProperty.has_b_units r then 30 else 0)
     + Z.min (EnrichedProperty.b_unit_count r * 10) 30
     + (if (0 <? units)%Z then Z.min (units * 5) 25 else 0)
     + match ZillowProperty.price z with
       | Some price =>
           if Qpositive price && (0 <? units)%Z
           then price_per_unit_tier (price / inject_Z units)
           else 0
       | None => 0
       end
     + match ZillowProperty.days_on_market z with
       | Some days => days_on_market_tier days
       | None => 0
       end)%Z
    100.

(* ================================================================== *)
(** ** Vocabulary of the further properties                            *)
(* ================================================================== *)

Section CacheFileVocabulary.

Import HPDCacheLoad.

(** A row the loader can key. *)
Definition loadable (row : Row) : Prop := exists key, loaded_key row = Ok key.

(** The row [row] is keyed [key] by the loader. *)
Definition has_key (key : str) (row : Row) : bool :=
  match loaded_key row with
  | Ok k => PyStr.eqb k key
  | Raised => false
  end.

End CacheFileVocabulary.

Section RoundTripVocabulary.

(** The building the cache rebuilds from a row of [count] special
    units: placeholder units [B1] .. [Bcount], no total, no identifiers. *)
Definition rebuilt (address : Address.t) (count : nat) : HPDBuilding.t :=
  HPDBuilding.mk (Some []) (Some []) (Some []) address 0 0
    (map HPDCache.placeholder_unit (seq 0 count)) (0 <? count)%nat None.

(** The street and borough of a record carry no white space around
    them. *)
Definition trimmed (p : EnrichedProperty.t) : Prop :=
  let address := ZillowProperty.address (EnrichedProperty.zillow_data p) in
  PyStr.strip (PyStr.upper (Address.street address))
  = PyStr.upper (Address.street address)
  /\ PyStr.strip
       (PyStr.upper (PyStr.or_default (Address.borough address) (lit "Brooklyn")))
     = PyStr.upper (PyStr.or_default (Address.borough address) (lit "Brooklyn")).

(** The key [_load_cache] gives the row saved for [p]. *)
Definition reloaded_key (p : EnrichedProperty.t) : str :=
  let address := ZillowProperty.address (EnrichedProperty.zillow_data p) in
  PyStr.upper (Address.street address) ++ lit ", "
  ++ PyStr.upper (PyStr.or_default (Address.borough address) (lit "Brooklyn")).

End RoundTripVocabulary.

Section RunVocabulary.

Variable py_str : Cell -> str.
Variable py_int_of_str : str -> option Z.

(** The listing misses the cache. *)
Definition cache_miss (cache : PyDict.t Row) (z : ZillowProperty.t) : bool :=
  match HPDCache.get_cached_hpd_data py_str py_int_of_str cache
          (ZillowProperty.address z) with
  | Some _ => false
  | None => true
  end.

End RunVocabulary.

(** The address [_parse_address] falls back to: the raw text as the
    street. *)
Definition raw_address (address_text : str) : Address.t :=
  Address.mk address_text (lit "Brooklyn") (lit "NY") None (Some (lit "Brooklyn")).

(* ================================================================== *)
(** ** Example data                                                   *)
(* ================================================================== *)

(** The street of the example address of the repository, and one whose
    normal form still contains a long-form token. *)
Definition gold_street : Address.t :=
  Address.mk (lit "100 Gold Street") (lit "New York") (lit "NY") None None.

Definition streetreet : Address.t :=
  Address.mk (lit "STREETREET") (lit "New York") (lit "NY") None None.

Module Demo.

(** A stand-in for [fuzz.ratio]: 100 for equal strings, otherwise twice
    the length of the common prefix over the total length, in percent. *)
Fixpoint common_prefix (a b : str) : nat :=
  match a, b with
  | x :: a', y :: b' => if ascii_dec x y then S (common_prefix a' b') else O
  | _, _ => O
  end.

Definition ratio (a b : str) : Z :=
  if PyStr.eqb a b then 100
  else (200 * Z.of_nat (common_prefix a b) / Z.of_nat (length a + length b))%Z.

Definition py_str (c : Cell) : str :=
  match c with
  | CInt n => format_int n
  | CStr s => s
  | CFloat _ => lit "0.0"
  | CNaN => lit "nan"
  | CNone => lit "None"
  end.

Definition py_int_of_str (s : str) : option Z :=
  match PyStr.strip s with
  | [] => None
  | digits => option_map Z.of_N (digits_value digits)
  end.

Definition scraped_date (_ : nat) : str := lit "2024-05-01 12:00:00".

Definition address (street borough : string) : Address.t :=
  Address.mk (lit street) (lit "New York") (lit "NY") None (Some (lit borough)).

Definition listing (street borough : string) (price : Z) : ZillowProperty.t :=
  ZillowProperty.mk (address street borough) (Some (inject_Z price))
    (Some 6%Z) (Some (9 # 2)) (Some (lit "Multi Family Home")) (Some 3%Z) None.

Definition gold : ZillowProperty.t := listing "100 GOLD STREET" "Manhattan" 2000000.
Definition main : ZillowProperty.t := listing "12 Main Street" "Brooklyn" 900000.
Definition nowhere : ZillowProperty.t := listing "404 Nowhere Road" "Queens" 500000.

Definition units : list HPDBUnit.t :=
  [ HPDBUnit.mk (Some (lit "1")) (Some (lit "B")) true;
    HPDBUnit.mk (Some (lit "2")) (Some (lit "B")) true ].

Definition gold_building : HPDBuilding.t :=
  HPDBuilding.mk (Some (lit "4711")) None None (address "100 Gold St" "Manhattan")
    3 3 units true None.

Definition maine_building : HPDBuilding.t :=
  HPDBuilding.mk (Some (lit "4712")) None None (address "12 Maine Avenue" "Brooklyn")
    8 8 [] false None.

(** A scraper that knows two buildings and fails on one street. *)
Definition search_by_address (_ : list Address.t) (a : Address.t)
  : Outcome (option HPDBuilding.t) :=
  if PyStr.eqb (Address.street a) (lit "100 GOLD STREET") then Ok (Some gold_building)
  else if PyStr.eqb (Address.street a) (lit "12 Main Street") then Ok (Some maine_building)
  else if PyStr.eqb (Address.street a) (lit "404 Nowhere Road") then Raised
  else Ok None.

Definition fresh : PropertyMatcher.t := PropertyMatcher.mk [] [] [].

Definition match_property :=
  PropertyMatcher.match_property ratio search_by_address py_str py_int_of_str.

Definition match_properties_batch :=
  PropertyMatcher.match_properties_batch ratio search_by_address py_str
    py_int_of_str scraped_date.

(** The matcher after a first run over the three listings. *)
Definition after_first_run : PropertyMatcher.t :=
  snd (match_properties_batch [gold; main; nowhere] 10 fresh).

(** What the cache gives back for the first listing after that run. *)
Definition cached_gold : HPDBuilding.t :=
  HPDBuilding.mk (Some []) (Some []) (Some []) (ZillowProperty.address gold) 0 0
    [HPDCache.placeholder_unit 0; HPDCache.placeholder_unit 1] true None.

(** A matched record for an address the cache does not hold. *)
Definition elm : EnrichedProperty.t :=
  EnrichedProperty.set_match
    (EnrichedProperty.init (listing "7 Elm Street" "Bronx" 1200000))
    gold_building (lit "High").

(** The first listing as matched in the first run. *)
Definition gold_matched : EnrichedProperty.t :=
  fst (match_property gold fresh).

(** The records of the first run. *)
Definition first_run : list EnrichedProperty.t :=
  fst (PropertyMatcher.gather ratio search_by_address py_str py_int_of_str
         [gold; main; nowhere] fresh).

(** The row the first run writes for the first listing, a later row for
    the same street and borough, and a row whose street cell is empty in
    the sheet. *)
Definition gold_row : Row :=
  HPDCache.make_row scraped_date 0 gold_matched gold_building.

Definition gold_row_again : Row :=
  HPDCache.make_row scraped_date 1 gold_matched maine_building.

Definition blank_row : Row :=
  [ (lit "Street", CNaN); (lit "Borough", CStr (lit "Queens")) ].

(** The first listing, listed one day ago and with one more special
    unit. *)
Definition gold_improved : EnrichedProperty.t :=
  EnrichedProperty.mk
    (ZillowProperty.mk (address "100 GOLD STREET" "Manhattan")
       (Some (inject_Z 2000000)) (Some 6%Z) (Some (9 # 2))
       (Some (lit "Multi Family Home")) (Some 1%Z) None)
    (Some gold_building) true true 3 3 false (Some (lit "High")) None.

End Demo.

(** Evaluates the comparisons of column names. *)
Ltac eval_literal_keys :=
  repeat match goal with
         | |- context [PyStr.eqb (lit ?a) (lit ?b)] =>
             let v := eval vm_compute in (PyStr.eqb (lit a) (lit b)) in
             change (PyStr.eqb (lit a) (lit b)) with v
         end.

(* ================================================================== *)
(** * Properties                                                       *)
(* ================================================================== *)

(** ** Facts about the string operations *)

Section StringFacts.

Lemma eqb_eq (a b : str) : PyStr.eqb a b = true <-> a = b.
Proof.
  unfold PyStr.eqb. destruct (list_eq_dec ascii_dec a b); split; congruence.
Qed.

Lemma eqb_refl (a : str) : PyStr.eqb a a = true.
Proof. now apply eqb_eq. Qed.

Lemma eqb_neq (a b : str) : PyStr.eqb a b = false <-> a <> b.
Proof.
  unfold PyStr.eqb. destruct (list_eq_dec ascii_dec a b); split; congruence.
Qed.

Lemma upper_char_idem (c : ascii) :
  PyStr.upper_char (PyStr.upper_char c) = PyStr.upper_char c.
Proof. destruct c as [[] [] [] [] [] [] [] []]; reflexivity. Qed.

Lemma is_upper_upper (s : str) : is_upper (PyStr.upper s).
Proof.
  unfold is_upper, PyStr.upper. apply Forall_forall. intros c Hc.
  apply in_map_iff in Hc as (c0 & <- & _). apply upper_char_idem.
Qed.

Lemma upper_fixed (s : str) : is_upper s -> PyStr.upper s = s.
Proof.
  unfold PyStr.upper. induction 1 as [|c s Hc _ IH]; simpl; congruence.
Qed.

Lemma lstrip_suffix (s : str) : exists p, s = p ++ PyStr.lstrip s.
Proof.
  induction s as [|c s [p IH]]; simpl.
  - now exists [].
  - destruct (PyStr.is_space c).
    + exists (c :: p). simpl. now f_equal.
    + now exists [].
Qed.

Lemma Forall_lstrip (P : ascii -> Prop) (s : str) :
  Forall P s -> Forall P (PyStr.lstrip s).
Proof.
  intros H. destruct (lstrip_suffix s) as [p Hp]. rewrite Hp in H.
  now apply Forall_app in H.
Qed.

Lemma Forall_strip (P : ascii -> Prop) (s : str) :
  Forall P s -> Forall P (PyStr.strip s).
Proof.
  intros H. unfold PyStr.strip, PyStr.rstrip.
  apply Forall_rev, Forall_lstrip, Forall_rev, Forall_lstrip, H.
Qed.

Lemma Forall_replace_from (P : ascii -> Prop) (old new : str) :
  Forall P new ->
  forall s skip, Forall P s -> Forall P (PyStr.replace_from old new skip s).
Proof.
  intros Hnew. induction s as [|c s IH]; intros skip Hs; simpl; auto.
  inversion Hs; subst.
  destruct skip; auto.
  destruct (PyStr.startswith old (c :: s)).
  - apply Forall_app; auto.
  - constructor; auto.
Qed.

Lemma lstrip_fixed (s : str) :
  match s with [] => True | c :: _ => PyStr.is_space c = false end ->
  PyStr.lstrip s = s.
Proof. destruct s as [|c s]; simpl; auto. now intros ->. Qed.

Lemma lstrip_app (u v : str) :
  PyStr.lstrip u <> [] -> PyStr.lstrip (u ++ v) = PyStr.lstrip u ++ v.
Proof.
  induction u as [|c u IH]; simpl; [congruence|].
  destruct (PyStr.is_space c); auto.
Qed.

Lemma rstrip_app (u v : str) :
  PyStr.rstrip v <> [] -> PyStr.rstrip (u ++ v) = u ++ PyStr.rstrip v.
Proof.
  unfold PyStr.rstrip. intros H.
  rewrite rev_app_distr, lstrip_app, rev_app_distr, rev_involutive; auto.
  intros E. apply H. now rewrite E.
Qed.

Lemma rstrip_word (w : str) : spaceless w -> PyStr.rstrip w = w.
Proof.
  intros H. unfold PyStr.rstrip.
  rewrite lstrip_fixed; [apply rev_involutive|].
  apply Forall_rev in H. destruct (rev w); auto. now inversion H.
Qed.

Lemma split_from_words (s : str) :
  forall word, spaceless word -> Forall is_word (PyStr.split_from word s).
Proof.
  induction s as [|c s IH]; intros word Hw; simpl.
  - destruct word; constructor; auto. split; [discriminate | assumption].
  - destruct (PyStr.is_space c) eqn:Hc.
    + destruct word as [|a word].
      * apply IH. constructor.
      * constructor; [split; [discriminate | assumption] | apply IH; constructor].
    + apply IH. apply Forall_app; split; auto.
Qed.

Lemma split_words (s : str) : Forall is_word (PyStr.split s).
Proof. apply split_from_words. constructor. Qed.

Lemma split_from_spaceless (t : str) :
  spaceless t ->
  forall word rest,
    PyStr.split_from word (t ++ rest) = PyStr.split_from (word ++ t) rest.
Proof.
  induction 1 as [|c t Hc _ IH]; intros word rest; simpl.
  - now rewrite app_nil_r.
  - rewrite Hc, IH, <- app_assoc. reflexivity.
Qed.

Lemma split_join (words : list str) :
  Forall is_word words -> PyStr.split (PyStr.join (lit " ") words) = words.
Proof.
  unfold PyStr.split.
  induction 1 as [|w words [Hne Hw] Hws IH]; [reflexivity|].
  destruct words as [|w' words].
  - simpl. rewrite <- (app_nil_r w) at 1.
    rewrite split_from_spaceless by assumption.
    simpl. destruct w; congruence.
  - change (PyStr.join (lit " ") (w :: w' :: words))
      with (w ++ lit " " ++ PyStr.join (lit " ") (w' :: words)).
    rewrite split_from_spaceless by assumption. simpl app at 1.
    change (lit " " ++ ?x) with (" "%char :: x).
    cbn [PyStr.split_from]. change (PyStr.is_space " ") with true. cbn iota.
    destruct w; [congruence|]. now rewrite IH.
Qed.

Lemma join_words_nonempty (w : str) (words : list str) :
  is_word w ->
  exists c rest, PyStr.join (lit " ") (w :: words) = c :: rest
                 /\ PyStr.is_space c = false.
Proof.
  intros [Hne Hw]. destruct w as [|c w]; [congruence|].
  inversion Hw; subst.
  destruct words; simpl; eauto.
Qed.

Lemma strip_join (words : list str) :
  Forall is_word words ->
  PyStr.strip (PyStr.join (lit " ") words) = PyStr.join (lit " ") words.
Proof.
  intros H. unfold PyStr.strip.
  assert (Hl : PyStr.lstrip (PyStr.join (lit " ") words) = PyStr.join (lit " ") words).
  { destruct H as [|w words Hw _]; [reflexivity|].
    destruct (join_words_nonempty words Hw) as (c & rest & -> & Hc).
    simpl. now rewrite Hc. }
  rewrite Hl. clear Hl.
  induction H as [|w words Hw Hws IH]; [reflexivity|].
  destruct words as [|w' words].
  - simpl. apply rstrip_word, Hw.
  - change (PyStr.join (lit " ") (w :: w' :: words))
      with (w ++ lit " " ++ PyStr.join (lit " ") (w' :: words)).
    rewrite app_assoc, rstrip_app; rewrite IH; auto.
    inversion Hws; subst.
    destruct (join_words_nonempty words H1) as (c & rest & -> & _). discriminate.
Qed.

Lemma is_upper_join (words : list str) :
  Forall is_upper words -> is_upper (PyStr.join (lit " ") words).
Proof.
  induction 1 as [|w words Hw Hws IH]; [constructor|].
  destruct words as [|w' words]; [assumption|].
  change (PyStr.join (lit " ") (w :: w' :: words))
    with (w ++ lit " " ++ PyStr.join (lit " ") (w' :: words)).
  apply Forall_app; split; auto. apply Forall_app; split; auto.
  repeat constructor.
Qed.

Lemma split_from_upper (s : str) :
  forall word, is_upper word -> is_upper s ->
               Forall is_upper (PyStr.split_from word s).
Proof.
  induction s as [|c s IH]; intros word Hw Hs; simpl.
  - destruct word; constructor; auto.
  - inversion Hs; subst.
    destruct (PyStr.is_space c).
    + destruct word; [apply IH; auto; constructor|].
      constructor; auto. apply IH; auto. constructor.
    + apply IH; auto. apply Forall_app; split; auto.
Qed.

Lemma replace_absent (old new : str) (s : str) :
  PyStr.contains old s = false -> PyStr.replace old new s = s.
Proof.
  unfold PyStr.replace. induction s as [|c s IH]; [reflexivity|].
  cbn [PyStr.contains PyStr.replace_from]. intros H.
  apply orb_false_iff in H as [H1 H2]. rewrite H1. f_equal. auto.
Qed.

Lemma startswith_length (p s : str) :
  PyStr.startswith p s = true -> (length p <= length s)%nat.
Proof.
  revert s. induction p as [|a p IH]; intros s; simpl; [lia|].
  destruct s as [|b s]; [discriminate|].
  destruct (ascii_dec a b); [|discriminate].
  intros H. apply IH in H. simpl. lia.
Qed.

(** A replacement by a string that is not longer does not lengthen. *)
Lemma replace_from_length (old new : str) :
  (length new <= length old)%nat ->
  forall s skip,
    (skip <= length s)%nat ->
    (length (PyStr.replace_from old new skip s) + skip <= length s)%nat.
Proof.
  intros Hlen. induction s as [|c s IH]; intros skip Hskip; simpl in *.
  - lia.
  - destruct skip as [|k].
    + destruct (PyStr.startswith old (c :: s)) eqn:E.
      * apply startswith_length in E. simpl in E.
        rewrite length_app.
        specialize (IH (length old - 1)%nat). lia.
      * specialize (IH 0%nat). simpl. lia.
    + specialize (IH k). lia.
Qed.

(** A replacement by a shorter string shortens a string in which the
    replaced one occurs. *)
Lemma replace_shrinks (old new : str) :
  (length new < length old)%nat ->
  forall s, PyStr.contains old s = true ->
            (length (PyStr.replace old new s) < length s)%nat.
Proof.
  intros Hlen. unfold PyStr.replace.
  induction s as [|c s IH]; cbn [PyStr.contains PyStr.replace_from].
  - destruct old; simpl in *; [lia | discriminate].
  - destruct (PyStr.startswith old (c :: s)) eqn:E.
    + intros _. apply startswith_length in E. simpl in E.
      rewrite length_app.
      pose proof (@replace_from_length old new ltac:(lia) s (length old - 1)%nat).
      simpl. lia.
    + simpl. intros H. apply IH in H. lia.
Qed.

Lemma join_cons_length (sep w : str) (rest : list str) :
  (length (PyStr.join sep (w :: rest))
   <= length w + length sep + length (PyStr.join sep rest))%nat.
Proof.
  destruct rest; cbn [PyStr.join]; rewrite ?length_app; simpl; lia.
Qed.

(** Collapsing the white space does not lengthen. *)
Lemma join_split_length (s : str) :
  forall word,
    (length (PyStr.join (lit " ") (PyStr.split_from word s))
     <= length word + length s)%nat.
Proof.
  induction s as [|c s IH]; intros word; cbn [PyStr.split_from].
  - destruct word; simpl; lia.
  - destruct (PyStr.is_space c).
    + destruct word as [|a word].
      * specialize (IH []). simpl in *. lia.
      * pose proof (join_cons_length (lit " ") (a :: word) (PyStr.split_from [] s)).
        specialize (IH []). simpl in *. lia.
    + specialize (IH (word ++ [c])). rewrite length_app in IH. simpl in *. lia.
Qed.

End StringFacts.

(** ** Address normalisation (C3, C8) *)

Section Normalisation.

Import PropertyMatcher.

Lemma apply_replacements_upper (table : list (str * str)) :
  Forall (fun on => is_upper (snd on)) table ->
  forall s, is_upper s -> is_upper (apply_replacements table s).
Proof.
  unfold apply_replacements.
  induction 1 as [|on table Hon _ IH]; intros s Hs; simpl; auto.
  apply IH. now apply Forall_replace_from.
Qed.

Lemma apply_replacements_absent (table : list (str * str)) (s : str) :
  Forall (fun on => PyStr.contains (fst on) s = false) table ->
  apply_replacements table s = s.
Proof.
  unfold apply_replacements.
  induction 1 as [|on table Hon _ IH]; simpl; auto.
  now rewrite replace_absent.
Qed.

Lemma replacements_upper : Forall (fun on => is_upper (snd on)) replacements.
Proof. repeat constructor. Qed.

(** The normalised street is a list of upper-case words joined by single
    spaces. *)
Lemma normalized_shape (a : Address.t) :
  exists words,
    _normalize_address a = PyStr.join (lit " ") words
    /\ Forall is_word words /\ Forall is_upper words.
Proof.
  unfold _normalize_address.
  eexists. split; [reflexivity|]. split; [apply split_words|].
  apply split_from_upper; [constructor|].
  apply apply_replacements_upper; [apply replacements_upper|].
  apply Forall_strip, is_upper_upper.
Qed.

(** Counterexample to C8 as stated: the replacement of [STREET] by [ST] in
    [STREETREET] produces [STREET], which a second normalisation turns
    into [ST]. *)
Lemma normalize_not_idempotent :
  _normalize_address streetreet = lit "STREET"
  /\ _normalize_address (Address.with_street streetreet (_normalize_address streetreet))
     = lit "ST"
  /\ ~ (forall a : Address.t,
          _normalize_address (Address.with_street a (_normalize_address a))
          = _normalize_address a).
Proof.
  split; [reflexivity|]. split; [reflexivity|].
  intros H. specialize (H streetreet). vm_compute in H. discriminate.
Qed.

Lemma replacements_shorter :
  Forall (fun on => (length (snd on) < length (fst on))%nat) replacements.
Proof. repeat constructor. Qed.

Lemma apply_replacements_length (table : list (str * str)) :
  Forall (fun on => (length (snd on) < length (fst on))%nat) table ->
  forall s, (length (apply_replacements table s) <= length s)%nat.
Proof.
  unfold apply_replacements.
  induction 1 as [|on table Hon _ IH]; intros s; simpl; [lia|].
  eapply Nat.le_trans; [apply IH|].
  pose proof (@replace_from_length (fst on) (snd on) ltac:(lia) s 0%nat ltac:(lia)).
  unfold PyStr.replace. rewrite Nat.add_0_r in H. exact H.
Qed.

Lemma apply_replacements_shrinks (table : list (str * str)) :
  Forall (fun on => (length (snd on) < length (fst on))%nat) table ->
  forall s,
    Exists (fun on => PyStr.contains (fst on) s = true) table ->
    (length (apply_replacements table s) < length s)%nat.
Proof.
  induction 1 as [|on table Hon Htable IH]; intros s Hex.
  - inversion Hex.
  - change (apply_replacements (on :: table) s)
      with (apply_replacements table (PyStr.replace (fst on) (snd on) s)).
    destruct (PyStr.contains (fst on) s) eqn:E.
    + pose proof (@replace_shrinks (fst on) (snd on) Hon s E).
      pose proof (apply_replacements_length Htable
                    (PyStr.replace (fst on) (snd on) s)).
      unfold str in *. lia.
    + rewrite replace_absent by assumption. apply IH.
      inversion Hex; subst; [unfold str in *; congruence | assumption].
Qed.

Lemma long_form_dec (s : str) :
  no_long_form s
  \/ Exists (fun on => PyStr.contains (fst on) s = true) replacements.
Proof.
  unfold no_long_form. induction replacements as [|on table IH].
  - left. constructor.
  - destruct (PyStr.contains (fst on) s) eqn:E.
    + right. now constructor.
    + destruct IH as [IH | IH]; [left | right]; now constructor.
Qed.

(** C8 (amended): normalising an address whose street is the normal form
    [normalize a] gives [normalize a] again exactly when that normal form
    contains none of the long-form tokens. *)
Theorem normalize_idempotent (a : Address.t) :
  _normalize_address (Address.with_street a (_normalize_address a))
  = _normalize_address a
  <-> no_long_form (_normalize_address a).
Proof.
  destruct (normalized_shape a) as (words & Hs & Hwords & Hupper).
  assert (Hagain :
            _normalize_address (Address.with_street a (_normalize_address a))
            = PyStr.join (lit " ")
                (PyStr.split (apply_replacements replacements (_normalize_address a)))).
  { unfold _normalize_address at 1. cbn [Address.with_street Address.street].
    rewrite Hs.
    rewrite upper_fixed by now apply is_upper_join.
    now rewrite strip_join by assumption. }
  rewrite Hagain. split.
  - intros Hfix. destruct (long_form_dec (_normalize_address a)) as [H|H]; [exact H|].
    exfalso.
    pose proof (apply_replacements_shrinks replacements_shorter _ H) as Hlt.
    pose proof (join_split_length
                  (apply_replacements replacements (_normalize_address a)) []) as Hle.
    apply (f_equal (@length _)) in Hfix. unfold PyStr.split in Hfix.
    change (length (@nil ascii)) with 0%nat in Hle.
    unfold str in *. lia.
  - intros Hfree.
    rewrite apply_replacements_absent by exact Hfree.
    rewrite Hs. now rewrite split_join.
Qed.

Lemma normalize_idempotent_witness :
  no_long_form (_normalize_address gold_street)
  /\ _normalize_address (Address.with_street gold_street (_normalize_address gold_street))
     = _normalize_address gold_street.
Proof.
  assert (H : no_long_form (_normalize_address gold_street))
    by (repeat constructor).
  split; [exact H|].
  exact (proj2 (normalize_idempotent gold_street) H).
Defined.

(** Counterexample to C3 as stated: the cache key keeps [STREET] where the
    similarity normalisation writes [ST]. *)
Lemma cache_key_not_normalized_street :
  HPDCache._normalize_address gold_street = lit "100 GOLD STREET, BROOKLYN"
  /\ _normalize_address gold_street ++ lit ", " ++ borough_part gold_street
     = lit "100 GOLD ST, BROOKLYN"
  /\ ~ (forall a : Address.t,
          HPDCache._normalize_address a
          = _normalize_address a ++ lit ", " ++ borough_part a).
Proof.
  split; [reflexivity|]. split; [reflexivity|].
  intros H. specialize (H gold_street). vm_compute in H. discriminate.
Qed.

(** C3 (amended): the cache key is the upper-cased, trimmed street joined
    by [", "] with the upper-cased, trimmed borough ([BROOKLYN] when the
    borough is absent); the street component is the similarity
    normalisation before its token replacement and white-space collapse,
    so the key is built on the normalised street exactly when those two
    steps change nothing. *)
Theorem cache_key_shape (a : Address.t) :
  HPDCache._normalize_address a
  = upper_trim (Address.street a) ++ lit ", " ++ borough_part a
  /\ _normalize_address a
     = PyStr.join (lit " ")
         (PyStr.split (apply_replacements replacements (upper_trim (Address.street a))))
  /\ (HPDCache._normalize_address a
      = _normalize_address a ++ lit ", " ++ borough_part a
      <-> _normalize_address a = upper_trim (Address.street a)).
Proof.
  assert (Hkey : HPDCache._normalize_address a
                 = upper_trim (Address.street a) ++ lit ", " ++ borough_part a).
  { unfold HPDCache._normalize_address, borough_part, upper_trim, PyStr.or_default.
    destruct (Address.borough a) as [[|c b]|]; reflexivity. }
  split; [exact Hkey|]. split; [reflexivity|].
  rewrite Hkey. split.
  - intros H. apply app_inv_tail in H. now symmetry.
  - now intros ->.
Qed.

End Normalisation.

(** ** The cache is written first-write-wins (C2) *)

Section CacheWrites.

Import HPDCache.

Lemma mem_keys {V : Type} (d : PyDict.t V) (k : str) :
  PyDict.mem d k = true <-> In k (PyDict.keys d).
Proof.
  unfold PyDict.mem, PyDict.keys.
  induction d as [|[k' v] d IH]; simpl.
  - split; [discriminate | tauto].
  - destruct (PyStr.eqb k' k) eqn:E.
    + apply eqb_eq in E. split; auto.
    + apply eqb_neq in E. rewrite IH. split; [auto | intros [?|?]; congruence].
Qed.

Lemma mem_absent {V : Type} (d : PyDict.t V) (k : str) :
  PyDict.mem d k = false <-> ~ In k (PyDict.keys d).
Proof.
  rewrite <- mem_keys. destruct (PyDict.mem d k); split; congruence.
Qed.

(** Assigning to an absent key appends an item. *)
Lemma setitem_absent {V : Type} (d : PyDict.t V) (k : str) (v : V) :
  PyDict.mem d k = false -> PyDict.setitem d k v = d ++ [(k, v)].
Proof.
  unfold PyDict.mem.
  induction d as [|[k' v'] d IH]; simpl; auto.
  destruct (PyStr.eqb k' k); [discriminate|].
  intros H. now rewrite IH.
Qed.

Lemma save_step_cases (scraped_date : nat -> str)
  (cache : PyDict.t Row) (nd : list Row)
  (i : nat) (p : EnrichedProperty.t) :
  (save_step scraped_date (cache, nd) (i, p) = (cache, nd)
   /\ (cacheable p -> In (key_of p) (PyDict.keys cache)))
  \/ (exists b,
        EnrichedProperty.hpd_match_found p = true
        /\ EnrichedProperty.hpd_data p = Some b
        /\ ~ In (key_of p) (PyDict.keys cache)
        /\ save_step scraped_date (cache, nd) (i, p)
           = (cache ++ [(key_of p, make_row scraped_date i p b)],
              nd ++ [make_row scraped_date i p b])).
Proof.
  unfold save_step, cacheable. fold (key_of p).
  destruct (EnrichedProperty.hpd_match_found p).
  2:{ left. split; auto. intros [? _]; discriminate. }
  destruct (EnrichedProperty.hpd_data p) as [b|].
  2:{ left. split; auto. intros [_ ?]; congruence. }
  destruct (PyDict.mem cache (key_of p)) eqn:E.
  - left. split; auto. intros _. now apply mem_keys.
  - right. exists b. rewrite setitem_absent by assumption.
    repeat split; auto. now apply mem_absent.
Qed.

(** The loop of [save_to_cache] only appends, and only under new keys. *)
Lemma save_loop (scraped_date : nat -> str)
  (ips : list (nat * EnrichedProperty.t)) :
  forall (cache : PyDict.t Row) (nd : list Row),
  exists added,
    fold_left (save_step scraped_date) ips (cache, nd)
    = (cache ++ added, nd ++ PyDict.values added)
    /\ NoDup (PyDict.keys added)
    /\ (forall k, In k (PyDict.keys added) -> ~ In k (PyDict.keys cache))
    /\ Forall (written_from scraped_date ips) added
    /\ (forall i p, In (i, p) ips -> cacheable p ->
                    In (key_of p) (PyDict.keys (cache ++ added))).
Proof.
  unfold PyDict.keys, PyDict.values.
  induction ips as [|[i p] ips IH]; intros cache nd.
  - exists []. simpl. rewrite !app_nil_r.
    repeat split; auto; try constructor; simpl; tauto.
  - cbn [fold_left].
    destruct (save_step_cases scraped_date cache nd i p) as [[-> Hin] | (b & Hm & Hd & Hnew & ->)].
    + destruct (IH cache nd) as (added & -> & Hnd & Hfresh & Hfrom & Hall).
      exists added. repeat split; auto.
      * eapply Forall_impl; [|exact Hfrom].
        intros item (i' & p' & b' & ? & ?). exists i', p', b'. simpl. auto.
      * intros i' p' [E|Hin'] Hc.
        -- inversion E; subst. rewrite map_app. apply in_or_app. left.
           now apply Hin.
        -- eauto.
    + destruct (IH (cache ++ [(key_of p, make_row scraped_date i p b)])
                   (nd ++ [make_row scraped_date i p b]))
        as (added & Heq & Hnd & Hfresh & Hfrom & Hall).
      exists ((key_of p, make_row scraped_date i p b) :: added).
      split; [etransitivity; [exact Heq|]; now rewrite <- !app_assoc|].
      simpl. repeat split; auto.
      * constructor; auto. intros Hk. apply (Hfresh _ Hk).
        rewrite map_app. apply in_or_app. right. simpl. auto.
      * intros k [<-|Hk]; auto. intros Hc. apply (Hfresh _ Hk).
        rewrite map_app. apply in_or_app. now left.
      * constructor.
        -- exists i, p, b. simpl. auto.
        -- eapply Forall_impl; [|exact Hfrom].
           intros item (i' & p' & b' & ? & ?). exists i', p', b'. simpl. auto.
      * intros i' p' [E|Hin'] Hc.
        -- inversion E; subst. rewrite map_app. apply in_or_app. right.
           simpl. auto.
        -- specialize (Hall i' p' Hin' Hc).
           now rewrite <- app_assoc in Hall.
Qed.

(** A loop whose cacheable records all have their key in the table
    changes nothing. *)
Lemma save_loop_skip (scraped_date : nat -> str)
  (ips : list (nat * EnrichedProperty.t))
  (cache : PyDict.t Row) (nd : list Row) :
  (forall i p, In (i, p) ips -> cacheable p -> In (key_of p) (PyDict.keys cache)) ->
  fold_left (save_step scraped_date) ips (cache, nd) = (cache, nd).
Proof.
  induction ips as [|[i p] ips IH]; intros H; [reflexivity|].
  cbn [fold_left].
  destruct (save_step_cases scraped_date cache nd i p) as [[-> _] | (b & Hm & Hd & Hnew & _)].
  - apply IH. intros; eapply H; simpl; eauto.
  - exfalso. apply Hnew. apply (H i p); [now left|].
    split; congruence.
Qed.

Lemma in_enumerate {A : Type} (l : list A) (x : A) :
  In x l -> exists i, In (i, x) (enumerate l).
Proof.
  unfold enumerate. generalize 0%nat.
  induction l as [|y l IH]; intros n; simpl; [tauto|].
  intros [->|H].
  - exists n. now left.
  - destruct (IH (S n) H) as [i Hi]. exists i. now right.
Qed.

Lemma keys_app {V : Type} (d d' : PyDict.t V) :
  PyDict.keys (d ++ d') = PyDict.keys d ++ PyDict.keys d'.
Proof. apply map_app. Qed.

Lemma NoDup_keys_app {V : Type} (d d' : PyDict.t V) :
  NoDup (PyDict.keys d) -> NoDup (PyDict.keys d') ->
  (forall k, In k (PyDict.keys d') -> ~ In k (PyDict.keys d)) ->
  NoDup (PyDict.keys (d ++ d')).
Proof.
  intros Hd Hd' Hfresh. rewrite keys_app.
  induction Hd as [|k ks Hk Hks IH]; simpl; auto.
  constructor.
  - intros Hin. apply in_app_or in Hin as [Hin|Hin]; [auto|].
    apply (Hfresh k Hin). now left.
  - apply IH. intros k' Hk' Hin. apply (Hfresh k' Hk'). now right.
Qed.

(** The row built for a record is filed under the key of its own street
    and borough cells. *)
Lemma make_row_key (scraped_date : nat -> str) (i : nat)
  (p : EnrichedProperty.t) (b : HPDBuilding.t) :
  row_key (make_row scraped_date i p b) = Some (key_of p).
Proof.
  unfold row_key, make_row, key_of, _normalize_address.
  cbn [PyDict.get].
  repeat match goal with
         | |- context [PyStr.eqb (lit ?a) (lit ?b)] =>
             let v := eval vm_compute in (PyStr.eqb (lit a) (lit b)) in
             change (PyStr.eqb (lit a) (lit b)) with v
         end.
  cbn [Address.street Address.borough]. do 3 f_equal.
  unfold PyStr.or_default.
  destruct (Address.borough _) as [[|c borough]|]; reflexivity.
Qed.

(** In a coherent table with distinct keys no two rows have the same
    key. *)
Lemma coherent_distinct (cache : PyDict.t Row) :
  NoDup (PyDict.keys cache) -> coherent cache ->
  NoDup (map row_key (PyDict.values cache)).
Proof.
  unfold PyDict.keys, PyDict.values, coherent. intros Hnodup Hcoh.
  rewrite map_map.
  rewrite (map_ext_in _ (fun item => Some (fst item))).
  - rewrite <- (map_map fst Some).
    apply Finite.Injective_map_NoDup; [|exact Hnodup].
    intros x y [= ->]. reflexivity.
  - intros item Hin. rewrite Forall_forall in Hcoh. now apply Hcoh.
Qed.

(** C2: [save_to_cache] only appends rows, each under a key the table did
    not hold and each built from a record with [hpd_match_found] and a
    building; the keys of the table stay pairwise distinct and the rows
    handed to the writer are exactly its values; a second call with the
    same records changes nothing, so each cacheable record has exactly
    one entry; and when every row is filed under the key of its own
    street and borough, this stays so and no two rows share that key. *)
Theorem save_to_cache_first_write_wins
  (scraped_date later_date : nat -> str)
  (cache : PyDict.t Row) (props : list EnrichedProperty.t) :
  NoDup (PyDict.keys cache) ->
  let cache' := fst (save_to_cache scraped_date cache props) in
  let cache'' := fst (save_to_cache later_date cache' props) in
  (exists added,
      cache' = cache ++ added
      /\ (forall k, In k (PyDict.keys added) -> ~ In k (PyDict.keys cache))
      /\ Forall (written_from scraped_date (enumerate props)) added)
  /\ NoDup (PyDict.keys cache')
  /\ (props <> [] ->
      snd (save_to_cache scraped_date cache props) = Some (PyDict.values cache'))
  /\ cache'' = cache'
  /\ (forall p, In p props -> cacheable p ->
        count_occ (list_eq_dec ascii_dec) (PyDict.keys cache'') (key_of p) = 1%nat)
  /\ (coherent cache ->
      coherent cache' /\ NoDup (map row_key (PyDict.values cache'))).
Proof.
  intros Hnodup cache' cache''.
  destruct (save_loop scraped_date (enumerate props) cache (PyDict.values cache))
    as (added & Hfold & Hnd & Hfresh & Hfrom & Hall).
  assert (Hsave : save_to_cache scraped_date cache props
                  = (cache ++ added, match props with
                                     | [] => None
                                     | _ => Some (PyDict.values (cache ++ added))
                                     end)).
  { unfold save_to_cache. destruct props as [|p props].
    - simpl in Hfold. injection Hfold as Hc _.
      apply (f_equal (@length _)) in Hc. rewrite length_app in Hc.
      destruct added; [now rewrite app_nil_r | simpl in Hc; lia].
    - rewrite Hfold. unfold PyDict.values. now rewrite map_app. }
  assert (Hcache' : cache' = cache ++ added) by (unfold cache'; now rewrite Hsave).
  assert (Hnodup' : NoDup (PyDict.keys cache'))
    by (rewrite Hcache'; now apply NoDup_keys_app).
  assert (Hskip : cache'' = cache').
  { unfold cache'', save_to_cache. destruct props as [|p props]; [reflexivity|].
    rewrite save_loop_skip; [reflexivity|].
    intros i q Hin Hq. rewrite Hcache'. eapply Hall; eauto. }
  split; [|split; [|split; [|split; [|split]]]].
  - exists added. auto.
  - exact Hnodup'.
  - intros Hne. rewrite Hsave, <- Hcache'. destruct props; [congruence|reflexivity].
  - exact Hskip.
  - intros p Hp Hc. rewrite Hskip.
    apply NoDup_count_occ'; [exact Hnodup'|].
    destruct (in_enumerate props p Hp) as [i Hi].
    rewrite Hcache'. eapply Hall; eauto.
  - intros Hcoh.
    assert (Hcoh' : coherent cache').
    { rewrite Hcache'. apply Forall_app. split; [assumption|].
      eapply Forall_impl; [|exact Hfrom].
      intros [k row] (i & p & b & _ & _ & _ & Hk & Hrow). simpl in *.
      subst. apply make_row_key. }
    split; [exact Hcoh' | now apply coherent_distinct].
Qed.

End CacheWrites.

(** ** Matching one listing (C1, C4, C10) *)

Section Matching.

Import PropertyMatcher.

Variable ratio : str -> str -> Z.
Variable search_by_address :
  list Address.t -> Address.t -> Outcome (option HPDBuilding.t).
Variable py_str : Cell -> str.
Variable py_int_of_str : str -> option Z.

Local Abbreviation lookup := (HPDCache.get_cached_hpd_data py_str py_int_of_str).
Local Abbreviation similarity := (_calculate_address_similarity ratio).
Local Abbreviation match_one :=
  (match_property ratio search_by_address py_str py_int_of_str).
Local Abbreviation try_block :=
  (match_property_try ratio search_by_address py_str py_int_of_str).

(** The four ways through [match_property]. *)
Lemma match_property_cases (z : ZillowProperty.t) (m : t) :
  match lookup (cache_data m) (ZillowProperty.address z) with
  | Some b =>
      try_block z (mkFrame m (EnrichedProperty.init z)) = (Ok tt, mkFrame m (gate ratio z b))
  | None =>
      match search_by_address (scraper_calls m) (ZillowProperty.address z) with
      | Ok (Some b) =>
          try_block z (mkFrame m (EnrichedProperty.init z))
          = (Ok tt, mkFrame (after_found z b m) (gate ratio z b))
      | Ok None =>
          try_block z (mkFrame m (EnrichedProperty.init z))
          = (Ok tt, mkFrame (after_call z m) (EnrichedProperty.init z))
      | Raised =>
          try_block z (mkFrame m (EnrichedProperty.init z))
          = (Raised, mkFrame (after_call z m) (EnrichedProperty.init z))
      end
  end.
Proof.
  unfold match_property_try, gate, after_found, after_call.
  cbn [self enriched].
  destruct (lookup (cache_data m) (ZillowProperty.address z)) as [b|].
  - unfold bind, ret, modify.
    destruct (match_threshold <=? _)%Z; reflexivity.
  - unfold bind, call_scraper, record_new, ret, modify. cbn [self enriched].
    destruct (search_by_address (scraper_calls m) (ZillowProperty.address z))
      as [[b|]|]; try reflexivity.
    cbn [self enriched new_hpd_data cache_data scraper_calls].
    destruct (match_threshold <=? _)%Z; reflexivity.
Qed.

Lemma match_property_hit (z : ZillowProperty.t) (m : t) (b : HPDBuilding.t) :
  lookup (cache_data m) (ZillowProperty.address z) = Some b ->
  match_one z m = (gate ratio z b, m).
Proof.
  intros H. unfold match_property.
  generalize (match_property_cases z m). rewrite H. now intros ->.
Qed.

Lemma match_property_found (z : ZillowProperty.t) (m : t) (b : HPDBuilding.t) :
  lookup (cache_data m) (ZillowProperty.address z) = None ->
  search_by_address (scraper_calls m) (ZillowProperty.address z) = Ok (Some b) ->
  match_one z m = (gate ratio z b, after_found z b m).
Proof.
  intros H1 H2. unfold match_property.
  generalize (match_property_cases z m). rewrite H1, H2. now intros ->.
Qed.

Lemma obind_ok {A B : Type} (o : Outcome A) (k : A -> Outcome B) (b : B) :
  obind o k = Ok b -> exists a, o = Ok a /\ k a = Ok b.
Proof. destruct o as [a|]; simpl; [eauto | discriminate]. Qed.

(** A building rebuilt from the cache carries the address it was asked
    for. *)
Lemma cached_address (cache : PyDict.t Row) (a : Address.t) (b : HPDBuilding.t) :
  lookup cache a = Some b -> HPDBuilding.address b = a.
Proof.
  unfold HPDCache.get_cached_hpd_data.
  destruct (negb _); [discriminate|].
  destruct (PyDict.get cache _) as [row|]; [|discriminate].
  destruct (HPDCache.reconstruct _ _ row a) as [b'|] eqn:E; [|discriminate].
  intros [= <-]. unfold HPDCache.reconstruct in E.
  apply obind_ok in E as (units & _ & E).
  apply obind_ok in E as (total & _ & E).
  apply obind_ok in E as (residential & _ & E).
  injection E as <-. reflexivity.
Qed.

(** An address compared with itself scores 100 as soon as [ratio] gives
    100 to identical strings. *)
Lemma similarity_self (a : Address.t) :
  (forall s, ratio s s = 100%Z) -> similarity a a = 100%Z.
Proof.
  intros Hrefl. unfold _calculate_address_similarity. rewrite Hrefl.
  destruct (Address.borough a) as [b|], (Address.zip_code a) as [zc|];
    repeat match goal with
           | |- context [if ?c then _ else _] => destruct c
           end; reflexivity.
Qed.

(** The record [match_property] returns is consistent with the building
    it carries: with a building, the flag is set and the counts are the
    building's; without one, the flag and the counts are the defaults.
    In particular the special-unit count is never negative. *)
Lemma match_property_consistent (z : ZillowProperty.t) (m : t) :
  let e := fst (match_one z m) in
  match EnrichedProperty.hpd_data e with
  | Some b =>
      EnrichedProperty.hpd_match_found e = true
      /\ EnrichedProperty.has_b_units e = HPDBuilding.has_b_units b
      /\ EnrichedProperty.b_unit_count e = Z.of_nat (length (HPDBuilding.b_units b))
      /\ EnrichedProperty.total_units e = HPDBuilding.total_units b
  | None =>
      EnrichedProperty.hpd_match_found e = false
      /\ EnrichedProperty.has_b_units e = false
      /\ EnrichedProperty.b_unit_count e = 0%Z
      /\ EnrichedProperty.total_units e = 0%Z
  end.
Proof.
  assert (Hgate : forall b,
             let e := gate ratio z b in
             match EnrichedProperty.hpd_data e with
             | Some b =>
                 EnrichedProperty.hpd_match_found e = true
                 /\ EnrichedProperty.has_b_units e = HPDBuilding.has_b_units b
                 /\ EnrichedProperty.b_unit_count e
                    = Z.of_nat (length (HPDBuilding.b_units b))
                 /\ EnrichedProperty.total_units e = HPDBuilding.total_units b
             | None =>
                 EnrichedProperty.hpd_match_found e = false
                 /\ EnrichedProperty.has_b_units e = false
                 /\ EnrichedProperty.b_unit_count e = 0%Z
                 /\ EnrichedProperty.total_units e = 0%Z
             end).
  { intros b. unfold gate. destruct (_ <=? _)%Z; simpl; repeat split. }
  unfold match_property.
  generalize (match_property_cases z m).
  destruct (lookup _ _) as [b|]; [intros ->; apply Hgate|].
  destruct (search_by_address _ _) as [[b|]|]; intros ->;
    [apply Hgate | simpl; repeat split | simpl; repeat split].
Qed.

Lemma match_property_count_nonneg (z : ZillowProperty.t) (m : t) :
  (0 <= EnrichedProperty.b_unit_count (fst (match_one z m)))%Z.
Proof.
  pose proof (match_property_consistent z m) as H. cbv zeta in H.
  destruct (EnrichedProperty.hpd_data _); destruct H as (_ & _ & -> & _); lia.
Qed.

(** C1: when the cache holds the address of a listing, [match_property]
    leaves the scraper alone (its call log and the whole matcher state are
    unchanged), attaches the cached building and sets [hpd_match_found];
    the similarity gate, which the cached building also goes through,
    lets it pass. *)
Theorem cache_hit_trusted (z : ZillowProperty.t) (m : t) (b : HPDBuilding.t) :
  (forall s, ratio s s = 100%Z) ->
  lookup (cache_data m) (ZillowProperty.address z) = Some b ->
  scraper_calls (snd (match_one z m)) = scraper_calls m
  /\ snd (match_one z m) = m
  /\ EnrichedProperty.hpd_data (fst (match_one z m)) = Some b
  /\ EnrichedProperty.hpd_match_found (fst (match_one z m)) = true
  /\ (match_threshold
      <=? similarity (ZillowProperty.address z) (HPDBuilding.address b))%Z = true.
Proof.
  intros Hrefl Hhit. rewrite (match_property_hit _ _ Hhit). cbn [fst snd].
  unfold gate. rewrite (cached_address _ _ Hhit), (similarity_self _ Hrefl).
  repeat split.
Qed.

(** C10: a listing answered from the cache is always labelled ["High"]:
    the rebuilt building carries the address of the query, so the
    similarity computed by [match_property] is 100, whatever the row
    holds. *)
Theorem cache_hit_confidence_high (z : ZillowProperty.t) (m : t)
  (b : HPDBuilding.t) :
  (forall s, ratio s s = 100%Z) ->
  lookup (cache_data m) (ZillowProperty.address z) = Some b ->
  HPDBuilding.address b = ZillowProperty.address z
  /\ similarity (ZillowProperty.address z) (HPDBuilding.address b) = 100%Z
  /\ EnrichedProperty.match_confidence (fst (match_one z m)) = Some (lit "High").
Proof.
  intros Hrefl Hhit. rewrite (match_property_hit _ _ Hhit). cbn [fst].
  unfold gate. rewrite (cached_address _ _ Hhit), (similarity_self _ Hrefl).
  repeat split.
Qed.

(** C4: for a listing the cache does not hold and for which the scraper
    returns a building, a similarity below 80 leaves the record as it was
    created (no building, no label, [hpd_match_found] false); from 80 on
    the building is attached, [hpd_match_found] is set and the label is
    ["High"] from 95, ["Medium"] from 85 and ["Low"] below. *)
Theorem similarity_gate (z : ZillowProperty.t) (m : t) (b : HPDBuilding.t) :
  lookup (cache_data m) (ZillowProperty.address z) = None ->
  search_by_address (scraper_calls m) (ZillowProperty.address z) = Ok (Some b) ->
  let s := similarity (ZillowProperty.address z) (HPDBuilding.address b) in
  let e := fst (match_one z m) in
  ((s < 80)%Z ->
     e = EnrichedProperty.init z
     /\ EnrichedProperty.hpd_match_found e = false
     /\ EnrichedProperty.hpd_data e = None
     /\ EnrichedProperty.match_confidence e = None)
  /\ ((80 <= s)%Z ->
        EnrichedProperty.hpd_match_found e = true
        /\ EnrichedProperty.hpd_data e = Some b
        /\ ((95 <= s)%Z -> EnrichedProperty.match_confidence e = Some (lit "High"))
        /\ ((85 <= s < 95)%Z ->
              EnrichedProperty.match_confidence e = Some (lit "Medium"))
        /\ ((s < 85)%Z -> EnrichedProperty.match_confidence e = Some (lit "Low"))).
Proof.
  intros Hmiss Hfound s e. subst e.
  rewrite (match_property_found _ _ Hmiss Hfound). cbn [fst].
  unfold gate, match_threshold, confidence_of. fold s.
  split; intros Hs.
  - destruct (80 <=? s)%Z eqn:E; [apply Z.leb_le in E; lia|]. repeat split.
  - destruct (80 <=? s)%Z eqn:E; [|apply Z.leb_gt in E; lia].
    cbn [EnrichedProperty.set_match EnrichedProperty.hpd_match_found
         EnrichedProperty.hpd_data EnrichedProperty.match_confidence].
    repeat split.
    + intros H. destruct (95 <=? s)%Z eqn:E1; [reflexivity|].
      apply Z.leb_gt in E1; lia.
    + intros H. destruct (95 <=? s)%Z eqn:E1; [apply Z.leb_le in E1; lia|].
      destruct (85 <=? s)%Z eqn:E2; [reflexivity|]. apply Z.leb_gt in E2; lia.
    + intros H. destruct (95 <=? s)%Z eqn:E1; [apply Z.leb_le in E1; lia|].
      destruct (85 <=? s)%Z eqn:E2; [apply Z.leb_le in E2; lia|]. reflexivity.
Qed.

End Matching.

(** ** The score note and the sort key read back from it *)

Section ScoreNote.

Lemma udigits_digits (d : Decimal.uint) : Forall is_digit (udigits d).
Proof.
  unfold udigits, is_digit.
  induction d; simpl; constructor; auto; simpl; tauto.
Qed.

Lemma udigits_value (d : Decimal.uint) :
  digits_value (udigits d) = Some (N.of_uint d).
Proof.
  unfold digits_value, udigits.
  now rewrite string_of_list_ascii_of_string, NilEmpty.usu.
Qed.

Lemma udigits_nonempty (d : Decimal.uint) : d <> Decimal.Nil -> udigits d <> [].
Proof. unfold udigits. destruct d; simpl; congruence. Qed.

(** The shape of a printed integer: an optional minus sign and the digits
    of its absolute value. *)
Lemma format_int_shape (n : Z) :
  exists ds,
    format_int n = (if (n <? 0)%Z then lit "-" else []) ++ ds
    /\ ds <> [] /\ Forall is_digit ds
    /\ digits_value ds = Some (Z.abs_N n).
Proof.
  unfold format_int. destruct n as [|p|p]; simpl.
  - exists (lit "0"). repeat split; try discriminate.
    repeat constructor; simpl; tauto.
  - exists (udigits (Pos.to_uint p)).
    pose proof (DecimalPos.Unsigned.to_uint_nonnil p) as Hnn.
    repeat split.
    + unfold udigits. revert Hnn.
      destruct (Pos.to_uint p); intros Hnn; [congruence | reflexivity ..].
    + now apply udigits_nonempty.
    + apply udigits_digits.
    + rewrite udigits_value. unfold N.of_uint.
      now rewrite DecimalPos.Unsigned.of_to.
  - exists (udigits (Pos.to_uint p)).
    pose proof (DecimalPos.Unsigned.to_uint_nonnil p) as Hnn.
    repeat split.
    + unfold udigits. revert Hnn.
      destruct (Pos.to_uint p); intros Hnn; [congruence | reflexivity ..].
    + now apply udigits_nonempty.
    + apply udigits_digits.
    + rewrite udigits_value. unfold N.of_uint.
      now rewrite DecimalPos.Unsigned.of_to.
Qed.

(** Splitting on a separator whose first character does not occur. *)
Lemma split_sep_none (c : ascii) (sep' : str) (s : str) :
  Forall (fun x => x <> c) s ->
  forall piece, PyStr.split_sep_from (c :: sep') piece 0 s = [piece ++ s].
Proof.
  induction 1 as [|x s Hx _ IH]; intros piece; simpl.
  - now rewrite app_nil_r.
  - destruct (ascii_dec c x); [congruence|].
    rewrite IH, <- app_assoc. reflexivity.
Qed.

(** Splitting on a one-character separator at its first occurrence. *)
Lemma split_sep_char (c : ascii) (t : str) :
  Forall (fun x => x <> c) t ->
  forall piece rest,
    PyStr.split_sep_from [c] piece 0 (t ++ c :: rest)
    = (piece ++ t) :: PyStr.split_sep_from [c] [] 0 rest.
Proof.
  induction 1 as [|x t Hx _ IH]; intros piece rest; simpl.
  - destruct (ascii_dec c c); [|congruence]. now rewrite app_nil_r.
  - destruct (ascii_dec c x); [congruence|].
    rewrite IH, <- app_assoc. reflexivity.
Qed.

Lemma digit_cases (P : ascii -> Prop) :
  P "0"%char -> P "1"%char -> P "2"%char -> P "3"%char -> P "4"%char ->
  P "5"%char -> P "6"%char -> P "7"%char -> P "8"%char -> P "9"%char ->
  forall c, is_digit c -> P c.
Proof.
  intros ? ? ? ? ? ? ? ? ? ? c Hc. unfold is_digit in Hc. simpl in Hc.
  repeat (destruct Hc as [<-|Hc]; [assumption|]). contradiction.
Qed.

Lemma digits_avoid (c : ascii) (ds : str) :
  ~ is_digit c -> Forall is_digit ds -> Forall (fun x => x <> c) ds.
Proof.
  intros Hc. apply Forall_impl. intros x Hx ->. contradiction.
Qed.

Lemma digit_not_space (c : ascii) : is_digit c -> PyStr.is_space c = false.
Proof. revert c. apply digit_cases; reflexivity. Qed.

(** Reading back a score printed with one decimal gives the score. *)
Lemma py_float_format_1f (n : Z) :
  exists q, py_float (format_1f n) = Ok q /\ q == inject_Z n.
Proof.
  destruct (format_int_shape n) as (ds & Hfmt & Hne & Hdig & Hval).
  unfold py_float, format_1f. rewrite Hfmt.
  assert (Hdot : PyStr.split_sep ["."%char] (ds ++ ["."%char; "0"%char])
                 = [ds; ["0"%char]]).
  { unfold PyStr.split_sep.
    rewrite split_sep_char; [reflexivity|].
    apply digits_avoid; [|assumption].
    unfold is_digit; simpl; intuition discriminate. }
  assert (Hstrip : forall sign : str,
             (sign = [] \/ sign = lit "-") ->
             PyStr.strip ((sign ++ ds) ++ lit ".0") = (sign ++ ds) ++ lit ".0").
  { intros sign Hsign. unfold PyStr.strip.
    rewrite lstrip_fixed.
    - rewrite rstrip_app; [reflexivity | discriminate].
    - destruct Hsign as [-> | ->]; simpl; [|reflexivity].
      destruct ds as [|c ds]; [congruence|]. inversion Hdig; subst.
      now apply digit_not_space. }
  assert (Hnonempty : exists c ds', ds = c :: ds' /\ is_digit c).
  { destruct ds as [|c ds']; [congruence|]. inversion Hdig; subst. eauto. }
  destruct Hnonempty as (c & ds' & -> & Hc).
  change (digits_value ["0"%char]) with (Some 0%N) in *.
  destruct (n <? 0)%Z eqn:Hneg.
  - rewrite Hstrip by (now right).
    cbn [lit list_ascii_of_string app].
    change (c :: ds' ++ ["."%char; "0"%char])
      with ((c :: ds') ++ ["."%char; "0"%char]).
    rewrite Hdot. cbn [app]. rewrite Hval.
    change (digits_value ["0"%char]) with (Some 0%N).
    eexists. split; [reflexivity|].
    apply Z.ltb_lt in Hneg.
    rewrite N2Z.inj_abs_N, Z.abs_neq by lia.
    unfold Qeq. simpl. lia.
  - rewrite Hstrip by (now left).
    cbn [app].
    match goal with
    | |- context [match ?scrutinee with (_, _) => _ end] =>
        assert (Hsign : scrutinee = (false, c :: ds' ++ lit ".0"))
          by (clear - Hc; revert c Hc; apply digit_cases; reflexivity)
    end.
    rewrite Hsign.
    cbn [lit list_ascii_of_string app].
    change (c :: ds' ++ ["."%char; "0"%char])
      with ((c :: ds') ++ ["."%char; "0"%char]).
    rewrite Hdot. cbn [app]. rewrite Hval.
    change (digits_value ["0"%char]) with (Some 0%N).
    eexists. split; [reflexivity|].
    apply Z.ltb_ge in Hneg.
    rewrite N2Z.inj_abs_N, Z.abs_eq by lia.
    unfold Qeq. simpl. lia.
Qed.

End ScoreNote.

(** ** Stable descending sort *)

Section SortFacts.

Variable A : Type.

Variable f : A -> Z.

Lemma keyed_le (x y : Q * A) :
  fst x == inject_Z (f (snd x)) -> fst y == inject_Z (f (snd y)) ->
  Qle_bool (fst y) (fst x) = (f (snd y) <=? f (snd x))%Z.
Proof.
  intros Hx Hy. apply Bool.eq_true_iff_eq.
  rewrite Qle_bool_iff, Z.leb_le, Hx, Hy, Zle_Qle. reflexivity.
Qed.

Lemma insert_desc_by (x : Q * A) (kl : list (Q * A)) :
  fst x == inject_Z (f (snd x)) -> keyed f kl ->
  map snd (insert_desc x kl) = insert_by f (snd x) (map snd kl)
  /\ keyed f (insert_desc x kl).
Proof.
  intros Hx. induction 1 as [|y kl Hy Hkl [IH1 IH2]]; simpl.
  - split; [reflexivity | repeat constructor; assumption].
  - rewrite (keyed_le _ _ Hx Hy).
    destruct (f (snd y) <=? f (snd x))%Z; simpl.
    + split; [reflexivity | repeat constructor; assumption].
    + split; [now f_equal | constructor; assumption].
Qed.

Lemma sort_desc_by (kl : list (Q * A)) :
  keyed f kl ->
  map snd (sort_desc kl) = sort_by f (map snd kl) /\ keyed f (sort_desc kl).
Proof.
  induction 1 as [|x kl Hx Hkl [IH1 IH2]]; simpl.
  - split; constructor.
  - destruct (insert_desc_by x Hx IH2) as [H1 H2].
    split; [|assumption]. now rewrite H1, IH1.
Qed.

Lemma insert_by_perm (x : A) (l : list A) : Permutation (insert_by f x l) (x :: l).
Proof.
  induction l as [|y l IH]; simpl; auto.
  destruct (f y <=? f x)%Z; auto.
  rewrite IH. apply perm_swap.
Qed.

Lemma sort_by_perm (l : list A) : Permutation (sort_by f l) l.
Proof.
  induction l as [|x l IH]; simpl; auto.
  rewrite insert_by_perm. now constructor.
Qed.

Lemma insert_by_sorted (x : A) (l : list A) :
  descending f l -> descending f (insert_by f x l).
Proof.
  unfold descending.
  induction 1 as [|y l Hl IH Hy]; simpl.
  - repeat constructor.
  - destruct (f y <=? f x)%Z eqn:E.
    + apply Z.leb_le in E. constructor; [now constructor|].
      constructor; auto.
      eapply Forall_impl; [|exact Hy]. simpl. intros; lia.
    + apply Z.leb_gt in E. constructor; auto.
      eapply Permutation_Forall; [symmetry; apply insert_by_perm|].
      constructor; auto. lia.
Qed.

Lemma sort_by_sorted (l : list A) : descending f (sort_by f l).
Proof.
  induction l as [|x l IH]; simpl; [constructor | now apply insert_by_sorted].
Qed.

(** Stability: the elements of any given measure keep their order. *)
Lemma insert_by_stable (k : Z) (x : A) (l : list A) :
  filter (fun a => (f a =? k)%Z) (insert_by f x l)
  = filter (fun a => (f a =? k)%Z) (x :: l).
Proof.
  induction l as [|y l IH]; [reflexivity|].
  cbn [insert_by]. destruct (f y <=? f x)%Z eqn:E; [reflexivity|].
  apply Z.leb_gt in E. simpl in *. rewrite IH.
  destruct (f x =? k)%Z eqn:Ex; [|reflexivity].
  destruct (f y =? k)%Z eqn:Ey; [|reflexivity].
  apply Z.eqb_eq in Ex, Ey. lia.
Qed.

Lemma sort_by_stable (k : Z) (l : list A) :
  filter (fun a => (f a =? k)%Z) (sort_by f l) = filter (fun a => (f a =? k)%Z) l.
Proof.
  induction l as [|x l IH]; [reflexivity|].
  cbn [sort_by fold_right]. rewrite insert_by_stable. simpl.
  fold (sort_by f l). now rewrite IH.
Qed.

End SortFacts.

(** ** Filtering and scoring (C5, C6, C7) *)

Section Filtering.

Import PropertyFilter.

Lemma startswith_spec (p s : str) :
  PyStr.startswith p s = true <-> exists v, s = p ++ v.
Proof.
  revert s. induction p as [|a p IH]; intros s; simpl.
  - split; eauto.
  - destruct s as [|b s]; [split; [discriminate | intros [v Hv]; discriminate]|].
    destruct (ascii_dec a b) as [->|Hab].
    + rewrite IH. split; intros [v Hv]; exists v; congruence.
    + split; [discriminate | intros [v Hv]; congruence].
Qed.

Lemma contains_spec (p s : str) :
  PyStr.contains p s = true <-> is_substring p s.
Proof.
  unfold is_substring. induction s as [|c s IH]; cbn [PyStr.contains].
  - rewrite orb_false_r, startswith_spec. split.
    + intros [v Hv]. now exists [], v.
    + intros (u & v & H). destruct u; [|discriminate]. eauto.
  - rewrite orb_true_iff, startswith_spec, IH. split.
    + intros [[v Hv] | (u & v & Hv)].
      * now exists [], v.
      * exists (c :: u), v. simpl. congruence.
    + intros (u & v & H). destruct u as [|c' u].
      * left. eauto.
      * right. exists u, v. simpl in H. congruence.
Qed.

Variable criteria : FilterCriteria.t.

Local Abbreviation score := (calculate_investment_score).
Local Abbreviation passes := (passes_all criteria).

Lemma truthy_nonempty (s : str) : PyStr.truthy s = true <-> s <> [].
Proof. destruct s; simpl; split; congruence. Qed.

Lemma passes_all_iff (r : EnrichedProperty.t) :
  passes r = true <-> passes_gate criteria r.
Proof.
  unfold passes_all, passes_gate. rewrite !andb_true_iff.
  assert (H1 : meets_price_criteria criteria r = true <->
               exists p, ZillowProperty.price (EnrichedProperty.zillow_data r) = Some p
                         /\ FilterCriteria.min_price criteria <= p
                         /\ p <= FilterCriteria.max_price criteria).
  { unfold meets_price_criteria.
    destruct (ZillowProperty.price _) as [p|].
    - rewrite andb_true_iff, !Qle_bool_iff. split.
      + intros [? ?]. eauto.
      + intros (p' & [= <-] & ? & ?). auto.
    - split; [discriminate | intros (p' & ? & _); discriminate]. }
  assert (H2 : meets_bedroom_criteria criteria r = true <->
               exists b, ZillowProperty.bedrooms (EnrichedProperty.zillow_data r) = Some b
                         /\ (FilterCriteria.min_bedrooms criteria <= b)%Z).
  { unfold meets_bedroom_criteria.
    destruct (ZillowProperty.bedrooms _) as [b|].
    - rewrite Z.leb_le. split; [eauto | intros (b' & [= <-] & ?); auto].
    - split; [discriminate | intros (b' & ? & _); discriminate]. }
  assert (H3 : meets_bathroom_criteria criteria r = true <->
               exists b, ZillowProperty.bathrooms (EnrichedProperty.zillow_data r) = Some b
                         /\ FilterCriteria.min_bathrooms criteria <= b).
  { unfold meets_bathroom_criteria.
    destruct (ZillowProperty.bathrooms _) as [b|].
    - rewrite Qle_bool_iff. split; [eauto | intros (b' & [= <-] & ?); auto].
    - split; [discriminate | intros (b' & ? & _); discriminate]. }
  assert (H4 : meets_unit_criteria criteria r = true <->
               EnrichedProperty.hpd_match_found r = true
               /\ (FilterCriteria.min_units criteria
                   <= EnrichedProperty.total_units r)%Z).
  { unfold meets_unit_criteria.
    destruct (EnrichedProperty.hpd_match_found r); simpl.
    - rewrite Z.leb_le. tauto.
    - split; [discriminate | intros [? _]; discriminate]. }
  assert (H5 : has_required_b_units criteria r = true <->
               (FilterCriteria.require_b_units criteria = true ->
                EnrichedProperty.has_b_units r = true)).
  { unfold has_required_b_units.
    destruct (FilterCriteria.require_b_units criteria); simpl; [tauto|].
    split; [discriminate | reflexivity]. }
  assert (H6 : meets_borough_criteria criteria r = true <->
               forall l, configured (FilterCriteria.boroughs criteria) l ->
                 exists b,
                   present (Address.borough
                              (ZillowProperty.address (EnrichedProperty.zillow_data r))) b
                   /\ In b l).
  { unfold meets_borough_criteria, configured, present.
    destruct (FilterCriteria.boroughs criteria) as [[|b0 l0]|].
    - split; [intros _ l [[= <-] Hl]; congruence | reflexivity].
    - destruct (Address.borough _) as [b|].
      + destruct (PyStr.truthy b) eqn:Hb; cbn [negb].
        * apply truthy_nonempty in Hb. rewrite existsb_exists. split.
          -- intros (x & Hx & E) l [[= <-] _]. apply eqb_eq in E. subst x.
             exists b. auto.
          -- intros H. destruct (H (b0 :: l0)) as (b' & [[= <-] _] & Hin);
               [split; [reflexivity | discriminate]|].
             exists b. split; [assumption | apply eqb_refl].
        * split; [discriminate|].
          intros H. destruct (H (b0 :: l0)) as (b' & [[= <-] Hne] & _);
            [split; [reflexivity | discriminate]|].
          apply truthy_nonempty in Hne. congruence.
      + split; [discriminate|].
        intros H. destruct (H (b0 :: l0)) as (b' & [? _] & _);
          [split; [reflexivity | discriminate] | discriminate].
    - split; [intros _ l [? _]; discriminate | reflexivity]. }
  assert (H7 : meets_property_type_criteria criteria r = true <->
               forall l, configured (FilterCriteria.property_types criteria) l ->
                 exists t pt,
                   present (ZillowProperty.property_type
                              (EnrichedProperty.zillow_data r)) t
                   /\ In pt l /\ is_substring (PyStr.lower pt) (PyStr.lower t)).
  { unfold meets_property_type_criteria, configured, present.
    destruct (FilterCriteria.property_types criteria) as [[|t0 l0]|].
    - split; [intros _ l [[= <-] Hl]; congruence | reflexivity].
    - destruct (ZillowProperty.property_type _) as [t|].
      + destruct (PyStr.truthy t) eqn:Ht; cbn [negb].
        * apply truthy_nonempty in Ht. rewrite existsb_exists. split.
          -- intros (pt & Hpt & E) l [[= <-] _]. apply contains_spec in E.
             exists t, pt. auto.
          -- intros H. destruct (H (t0 :: l0)) as (t' & pt & [[= <-] _] & Hin & Hsub);
               [split; [reflexivity | discriminate]|].
             exists pt. split; [assumption | now apply contains_spec].
        * split; [discriminate|].
          intros H. destruct (H (t0 :: l0)) as (t' & pt & [[= <-] Hne] & _);
            [split; [reflexivity | discriminate]|].
          apply truthy_nonempty in Hne. congruence.
      + split; [discriminate|].
        intros H. destruct (H (t0 :: l0)) as (t' & pt & [? _] & _);
          [split; [reflexivity | discriminate] | discriminate].
    - split; [intros _ l [? _]; discriminate | reflexivity]. }
  rewrite H1, H2, H3, H4, H5, H6, H7. tauto.
Qed.

Lemma nonneg_truthy_positive (q : Q) :
  0 <= q -> negb (Qeq_bool q 0) = Qpositive q.
Proof.
  intros H. unfold Qpositive. f_equal. apply Bool.eq_true_iff_eq.
  rewrite Qeq_bool_iff, Qle_bool_iff. split.
  - intros ->. apply Qle_refl.
  - intros H'. now apply Qle_antisym.
Qed.

Lemma score_eq_spec (r : EnrichedProperty.t) :
  (forall p, ZillowProperty.price (EnrichedProperty.zillow_data r) = Some p -> 0 <= p) ->
  score r = spec_score r.
Proof.
  intros Hprice. unfold calculate_investment_score, spec_score.
  unfold price_per_unit_tier, days_on_market_tier.
  destruct (ZillowProperty.price _) as [p|].
  - rewrite (nonneg_truthy_positive (Hprice p eq_refl)).
    repeat match goal with
           | |- context [if ?c then _ else _] => destruct c
           | |- context [match ?o with Some _ => _ | None => _ end] => destruct o
           end; cbn [andb]; lia.
  - repeat match goal with
           | |- context [if ?c then _ else _] => destruct c
           | |- context [match ?o with Some _ => _ | None => _ end] => destruct o
           end; lia.
Qed.

Lemma spec_score_bounds (r : EnrichedProperty.t) :
  (0 <= EnrichedProperty.b_unit_count r)%Z -> (0 <= spec_score r <= 100)%Z.
Proof.
  intros Hb. unfold spec_score, price_per_unit_tier, days_on_market_tier.
  repeat match goal with
         | |- context [if ?c then _ else _] => destruct c eqn:?
         | |- context [match ?o with Some _ => _ | None => _ end] => destruct o
         end;
    repeat match goal with
           | H : (_ <? _)%Z = true |- _ => apply Z.ltb_lt in H
           end; lia.
Qed.

(** C5: the investment score of a passing record is the capped sum of
    the five terms of the specification, and lies between 0 and 100.
    Prices are amounts (the lower price bound is not negative) and the
    special-unit count is a count (not negative, as [match_property]
    sets it). *)
Theorem investment_score_formula (r : EnrichedProperty.t) :
  0 <= FilterCriteria.min_price criteria ->
  (0 <= EnrichedProperty.b_unit_count r)%Z ->
  passes r = true ->
  score r = spec_score r /\ (0 <= score r <= 100)%Z.
Proof.
  intros Hmin Hcount Hpass.
  assert (Heq : score r = spec_score r).
  { apply score_eq_spec. intros p Hp.
    apply passes_all_iff in Hpass. destruct Hpass as ((p' & Hp' & Hlo & _) & _).
    rewrite Hp in Hp'. injection Hp' as <-. eapply Qle_trans; eauto. }
  split; [exact Heq|]. rewrite Heq. now apply spec_score_bounds.
Qed.

Lemma score_mark_passed (r : EnrichedProperty.t) :
  score (mark_passed r) = score r.
Proof. reflexivity. Qed.

Lemma passes_mark_passed (r : EnrichedProperty.t) :
  passes (mark_passed r) = passes r.
Proof. reflexivity. Qed.

Lemma format_1f_chars (n : Z) :
  Forall (fun c => c <> ":"%char /\ c <> "/"%char) (format_1f n).
Proof.
  destruct (format_int_shape n) as (ds & Hfmt & _ & Hdig & _).
  unfold format_1f. rewrite Hfmt.
  apply Forall_app; split; [apply Forall_app; split|].
  - destruct (n <? 0)%Z; repeat constructor; discriminate.
  - eapply Forall_impl; [|exact Hdig]. intros c Hc.
    split; intros ->; unfold is_digit in Hc; simpl in Hc;
      intuition discriminate.
  - repeat constructor; discriminate.
Qed.

(** The key the sort reads back from the note of a marked record is its
    score. *)
Lemma sort_key_mark_passed (r : EnrichedProperty.t) :
  exists q, sort_key (mark_passed r) = Ok q /\ q == inject_Z (score r).
Proof.
  unfold sort_key, mark_passed.
  cbn [EnrichedProperty.set_passed EnrichedProperty.notes].
  generalize (score r). intros n.
  pose proof (format_1f_chars n) as Hchars.
  assert (H1 : PyStr.split_sep (lit ": ") (score_note n)
               = [lit "Investment Score"; format_1f n ++ lit "/100"]).
  { unfold score_note, PyStr.split_sep. cbn.
    rewrite split_sep_none; [reflexivity|].
    apply Forall_app; split.
    - eapply Forall_impl; [|exact Hchars]. now intros c [? _].
    - repeat constructor; discriminate. }
  assert (H2 : PyStr.split_sep (lit "/") (format_1f n ++ lit "/100")
               = [format_1f n; lit "100"]).
  { unfold PyStr.split_sep. change (lit "/") with ["/"%char].
    change (lit "/100") with ("/"%char :: lit "100").
    rewrite split_sep_char; [reflexivity|].
    eapply Forall_impl; [|exact Hchars]. now intros c [_ ?]. }
  rewrite H1. cbn [py_index nth_error obind]. rewrite H2.
  cbn [py_index nth_error obind PyStr.truthy score_note lit
       list_ascii_of_string app].
  apply py_float_format_1f.
Qed.

Lemma decorate_marked (l : list EnrichedProperty.t) :
  exists kl,
    decorate sort_key (map mark_passed l) = Ok kl
    /\ map snd kl = map mark_passed l
    /\ keyed score kl.
Proof.
  induction l as [|r l (kl & Hkl & Hsnd & Hkeyed)]; simpl.
  - exists []. repeat split. constructor.
  - destruct (sort_key_mark_passed r) as (q & -> & Hq). simpl.
    rewrite Hkl. simpl.
    exists ((q, mark_passed r) :: kl). repeat split.
    + simpl. now rewrite Hsnd.
    + constructor; assumption.
Qed.

(** [filter_properties] never raises, and returns the marked passing
    records in stable descending order of score. *)
Lemma filter_properties_eq (properties : list EnrichedProperty.t) :
  filter_properties criteria properties
  = Ok (sort_by score (collect criteria properties)).
Proof.
  unfold filter_properties, py_sort_reverse, collect.
  destruct (decorate_marked (filter passes properties))
    as (kl & -> & Hsnd & Hkeyed).
  simpl. destruct (sort_desc_by Hkeyed) as [-> _]. now rewrite Hsnd.
Qed.

(** C6: a record is in the output of [filter_properties] exactly when it
    is the (marked) copy of an input record that passes every gate. *)
Theorem filter_output_iff_gates (properties : list EnrichedProperty.t) :
  exists out,
    filter_properties criteria properties = Ok out
    /\ (forall r', In r' out <->
          exists r, In r properties /\ passes_gate criteria r
                    /\ r' = mark_passed r)
    /\ (forall r, In r properties ->
          (In (mark_passed r) out <-> passes_gate criteria r)).
Proof.
  eexists. split; [apply filter_properties_eq|].
  assert (Hin : forall r', In r' (sort_by score (collect criteria properties)) <->
            exists r, In r properties /\ passes_gate criteria r
                      /\ r' = mark_passed r).
  { intros r'. split.
    - intros H. apply (Permutation_in _ (sort_by_perm score _)) in H.
      unfold collect in H. apply in_map_iff in H as (r & <- & Hr).
      apply filter_In in Hr as [Hr Hp]. exists r.
      split; [assumption|]. split; [now apply passes_all_iff | reflexivity].
    - intros (r & Hr & Hp & ->).
      apply (Permutation_in _ (Permutation_sym (sort_by_perm score _))).
      unfold collect. apply in_map, filter_In.
      split; [assumption | now apply passes_all_iff]. }
  split; [exact Hin|].
  intros r Hr. rewrite Hin. split.
  - intros (r0 & _ & Hp & E).
    apply passes_all_iff. apply passes_all_iff in Hp.
    rewrite <- (passes_mark_passed r), E. exact Hp.
  - intros Hp. exists r. auto.
Qed.

(** C7: the output of [filter_properties] is the list of passing records
    (each marked with [meets_criteria] and the note
    ["Investment Score: X/100"], [X] its score with one decimal) sorted
    by descending score, records of equal score in input order; the key
    the sort reads back from the note is the score. *)
Theorem filter_output_sorted (properties : list EnrichedProperty.t) :
  exists out,
    filter_properties criteria properties = Ok out
    /\ Permutation out (map mark_passed (filter passes properties))
    /\ descending score out
    /\ (forall k,
          filter (fun r => (score r =? k)%Z) out
          = filter (fun r => (score r =? k)%Z)
              (map mark_passed (filter passes properties)))
    /\ Forall
         (fun r =>
            EnrichedProperty.meets_criteria r = true
            /\ EnrichedProperty.notes r
               = Some (lit "Investment Score: " ++ format_1f (score r) ++ lit "/100")
            /\ exists q, sort_key r = Ok q /\ q == inject_Z (score r))
         out.
Proof.
  eexists. split; [apply filter_properties_eq|].
  split; [apply sort_by_perm|].
  split; [apply sort_by_sorted|].
  split; [intros k; apply sort_by_stable|].
  eapply Permutation_Forall; [symmetry; apply sort_by_perm|].
  unfold collect. apply Forall_forall. intros r' Hr'.
  apply in_map_iff in Hr' as (r & <- & _).
  split; [reflexivity|]. split; [reflexivity|].
  rewrite score_mark_passed. apply sort_key_mark_passed.
Qed.

End Filtering.

(** ** Exceptions do not abort a run (C9) *)

Section Robustness.

Import PropertyMatcher.

Variable ratio : str -> str -> Z.
Variable search_by_address :
  list Address.t -> Address.t -> Outcome (option HPDBuilding.t).
Variable py_str : Cell -> str.
Variable py_int_of_str : str -> option Z.
Variable scraped_date : nat -> str.

Local Abbreviation lookup := (HPDCache.get_cached_hpd_data py_str py_int_of_str).
Local Abbreviation match_one :=
  (match_property ratio search_by_address py_str py_int_of_str).
Local Abbreviation try_block :=
  (match_property_try ratio search_by_address py_str py_int_of_str).
Local Abbreviation gather_all :=
  (gather ratio search_by_address py_str py_int_of_str).
Local Abbreviation batch :=
  (match_properties_batch ratio search_by_address py_str py_int_of_str scraped_date).

Lemma gate_zillow_data (z : ZillowProperty.t) (b : HPDBuilding.t) :
  EnrichedProperty.zillow_data (gate ratio z b) = z.
Proof. unfold gate. destruct (_ <=? _)%Z; reflexivity. Qed.

Lemma match_property_zillow_data (z : ZillowProperty.t) (m : t) :
  EnrichedProperty.zillow_data (fst (match_one z m)) = z.
Proof.
  unfold match_property.
  generalize (match_property_cases ratio search_by_address py_str py_int_of_str z m).
  destruct (lookup _ _) as [b|]; [intros ->; apply gate_zillow_data|].
  destruct (search_by_address _ _) as [[b|]|]; intros ->;
    [apply gate_zillow_data | reflexivity | reflexivity].
Qed.

(** Whenever the [try] block raises, the record returned is the one the
    function started from. *)
Lemma raised_unmatched (z : ZillowProperty.t) (m : t) :
  fst (try_block z (mkFrame m (EnrichedProperty.init z))) = Raised ->
  fst (match_one z m) = EnrichedProperty.init z.
Proof.
  unfold match_property.
  generalize (match_property_cases ratio search_by_address py_str py_int_of_str z m).
  destruct (lookup _ _) as [b|]; [intros ->; discriminate|].
  destruct (search_by_address _ _) as [[b|]|]; intros ->;
    [discriminate | discriminate | reflexivity].
Qed.

Lemma scraper_raised (z : ZillowProperty.t) (m : t) :
  lookup (cache_data m) (ZillowProperty.address z) = None ->
  search_by_address (scraper_calls m) (ZillowProperty.address z) = Raised ->
  try_block z (mkFrame m (EnrichedProperty.init z))
  = (Raised, mkFrame (after_call z m) (EnrichedProperty.init z)).
Proof.
  intros H1 H2.
  generalize (match_property_cases ratio search_by_address py_str py_int_of_str z m).
  now rewrite H1, H2.
Qed.

Lemma gather_app (l1 l2 : list ZillowProperty.t) (m : t) :
  gather_all (l1 ++ l2) m
  = (fst (gather_all l1 m) ++ fst (gather_all l2 (snd (gather_all l1 m))),
     snd (gather_all l2 (snd (gather_all l1 m)))).
Proof.
  revert m. induction l1 as [|z l1 IH]; intros m; simpl.
  - now destruct (gather_all l2 m).
  - destruct (match_one z m) as [e m1]. rewrite IH.
    destruct (gather_all l1 m1) as [es m2]. simpl.
    reflexivity.
Qed.

Lemma gather_zillow_data (zs : list ZillowProperty.t) (m : t) :
  map EnrichedProperty.zillow_data (fst (gather_all zs m)) = zs.
Proof.
  revert m. induction zs as [|z zs IH]; intros m; simpl; [reflexivity|].
  pose proof (match_property_zillow_data z m) as Hz.
  destruct (match_one z m) as [e m1]. specialize (IH m1).
  destruct (gather_all zs m1) as [es m2]. simpl in *. congruence.
Qed.

Lemma firstn_plus {A : Type} (a b : nat) (l : list A) :
  firstn (a + b) l = firstn a l ++ firstn b (skipn a l).
Proof.
  revert l. induction a as [|a IH]; intros l; [reflexivity|].
  destruct l as [|x l]; simpl.
  - now rewrite firstn_nil.
  - now rewrite IH.
Qed.

Lemma run_from (zs : list ZillowProperty.t) (k count : nat) :
  forall (i : nat) (acc : list EnrichedProperty.t) (m : t),
    fold_left
      (fun (acc : list EnrichedProperty.t * t) (i : nat) =>
         let '(enriched_properties, m1) := acc in
         let '(results, m2) := gather_all (firstn k (skipn i zs)) m1 in
         (enriched_properties ++ results, m2))
      (range_from count i k) (acc, m)
    = (acc ++ fst (gather_all (firstn (count * k) (skipn i zs)) m),
       snd (gather_all (firstn (count * k) (skipn i zs)) m)).
Proof.
  induction count as [|count IH]; intros i acc m.
  - simpl. now rewrite app_nil_r.
  - cbn [range_from fold_left].
    change (S count * k)%nat with (k + count * k)%nat.
    rewrite firstn_plus, gather_app, skipn_skipn, (Nat.add_comm k i).
    destruct (gather_all (firstn k (skipn i zs)) m) as [results m2].
    rewrite IH. cbn [fst snd]. now rewrite app_assoc.
Qed.

(** The batches, run one after the other, are the whole list run in
    order. *)
Lemma run_batches_gather (zs : list ZillowProperty.t) (k : nat) (m : t) :
  (0 < k)%nat ->
  run_batches ratio search_by_address py_str py_int_of_str zs k m
  = gather_all zs m.
Proof.
  intros Hk. unfold run_batches, batch_starts. rewrite run_from.
  cbn [skipn app]. rewrite firstn_all2.
  - now destruct (gather_all zs m).
  - pose proof (Nat.div_mod_eq (length zs + k - 1) k) as Hdiv.
    pose proof (Nat.mod_upper_bound (length zs + k - 1) k) as Hmod.
    nia.
Qed.

(** C9: an exception raised while one listing is matched stays inside
    [match_property]: whenever the [try] block raises, the record comes
    back as it was created, with [hpd_match_found] false (in particular
    when the scraper raises); a batch run returns one record per listing,
    in the order of the listings, each the result of matching it in turn;
    and [filter_properties] never raises.  The cache lookup never raises
    either: a row it cannot rebuild is reported as a miss. *)
Theorem exceptions_are_contained :
  (forall z m,
      fst (try_block z (mkFrame m (EnrichedProperty.init z))) = Raised ->
      fst (match_one z m) = EnrichedProperty.init z
      /\ EnrichedProperty.hpd_match_found (fst (match_one z m)) = false)
  /\ (forall z m,
        lookup (cache_data m) (ZillowProperty.address z) = None ->
        search_by_address (scraper_calls m) (ZillowProperty.address z) = Raised ->
        fst (try_block z (mkFrame m (EnrichedProperty.init z))) = Raised
        /\ match_one z m = (EnrichedProperty.init z, after_call z m))
  /\ (forall zs batch_size m,
        (0 < batch_size)%Z ->
        exists out,
          fst (batch zs batch_size m) = Ok out
          /\ out = fst (gather_all zs m)
          /\ map EnrichedProperty.zillow_data out = zs)
  /\ (forall criteria properties,
        exists out, PropertyFilter.filter_properties criteria properties = Ok out)
  /\ (forall cache a row,
        PyDict.get cache (HPDCache._normalize_address a) = Some row ->
        HPDCache.reconstruct py_str py_int_of_str row a = Raised ->
        lookup cache a = None).
Proof.
  split; [|split; [|split; [|split]]].
  - intros z m H. rewrite (raised_unmatched _ _ H). split; reflexivity.
  - intros z m H1 H2. unfold match_property.
    rewrite (scraper_raised _ _ H1 H2). split; reflexivity.
  - intros zs batch_size m Hpos.
    exists (fst (gather_all zs m)).
    split; [|split; [reflexivity | apply gather_zillow_data]].
    unfold match_properties_batch.
    destruct (batch_size =? 0)%Z eqn:E0; [apply Z.eqb_eq in E0; lia|].
    destruct (batch_size <? 0)%Z eqn:E1; [apply Z.ltb_lt in E1; lia|].
    rewrite run_batches_gather by lia.
    now destruct (gather_all zs m) as [out m1].
  - intros criteria properties. eexists. apply filter_properties_eq.
  - intros cache a row Hrow Hraised. unfold HPDCache.get_cached_hpd_data.
    destruct (negb _); [reflexivity|]. now rewrite Hrow, Hraised.
Qed.

End Robustness.

(** ** Worked examples *)

Section Examples.

Import PropertyMatcher.

Lemma demo_ratio_refl (s : str) : Demo.ratio s s = 100%Z.
Proof. unfold Demo.ratio. now rewrite eqb_refl. Qed.

Lemma cache_hit_trusted_witness :
  HPDCache.get_cached_hpd_data Demo.py_str Demo.py_int_of_str
    (cache_data Demo.after_first_run) (ZillowProperty.address Demo.gold)
  = Some Demo.cached_gold
  /\ snd (Demo.match_property Demo.gold Demo.after_first_run) = Demo.after_first_run
  /\ EnrichedProperty.hpd_data (fst (Demo.match_property Demo.gold Demo.after_first_run))
     = Some Demo.cached_gold
  /\ EnrichedProperty.hpd_match_found
       (fst (Demo.match_property Demo.gold Demo.after_first_run)) = true.
Proof.
  assert (Hhit : HPDCache.get_cached_hpd_data Demo.py_str Demo.py_int_of_str
                   (cache_data Demo.after_first_run) (ZillowProperty.address Demo.gold)
                 = Some Demo.cached_gold) by (vm_compute; reflexivity).
  split; [exact Hhit|].
  destruct (@cache_hit_trusted Demo.ratio Demo.search_by_address Demo.py_str
              Demo.py_int_of_str Demo.gold Demo.after_first_run Demo.cached_gold
              demo_ratio_refl Hhit) as (_ & H2 & H3 & H4 & _).
  split; [exact H2 | split; [exact H3 | exact H4]].
Defined.

Lemma cache_hit_confidence_high_witness :
  HPDCache.get_cached_hpd_data Demo.py_str Demo.py_int_of_str
    (cache_data Demo.after_first_run) (ZillowProperty.address Demo.gold)
  = Some Demo.cached_gold
  /\ EnrichedProperty.match_confidence
       (fst (Demo.match_property Demo.gold Demo.after_first_run))
     = Some (lit "High").
Proof.
  assert (Hhit : HPDCache.get_cached_hpd_data Demo.py_str Demo.py_int_of_str
                   (cache_data Demo.after_first_run) (ZillowProperty.address Demo.gold)
                 = Some Demo.cached_gold) by (vm_compute; reflexivity).
  split; [exact Hhit|].
  destruct (@cache_hit_confidence_high Demo.ratio Demo.search_by_address Demo.py_str
              Demo.py_int_of_str Demo.gold Demo.after_first_run Demo.cached_gold
              demo_ratio_refl Hhit) as (_ & _ & H3).
  exact H3.
Defined.

Lemma similarity_gate_witness :
  HPDCache.get_cached_hpd_data Demo.py_str Demo.py_int_of_str
    (cache_data Demo.fresh) (ZillowProperty.address Demo.main) = None
  /\ Demo.search_by_address (scraper_calls Demo.fresh) (ZillowProperty.address Demo.main)
     = Ok (Some Demo.maine_building)
  /\ _calculate_address_similarity Demo.ratio (ZillowProperty.address Demo.main)
       (HPDBuilding.address Demo.maine_building) = 73%Z
  /\ fst (Demo.match_property Demo.main Demo.fresh) = EnrichedProperty.init Demo.main
  /\ EnrichedProperty.match_confidence (fst (Demo.match_property Demo.gold Demo.fresh))
     = Some (lit "High").
Proof.
  split; [vm_compute; reflexivity|]. split; [vm_compute; reflexivity|].
  split; [vm_compute; reflexivity|].
  split.
  - destruct (@similarity_gate Demo.ratio Demo.search_by_address Demo.py_str
                Demo.py_int_of_str Demo.main Demo.fresh Demo.maine_building
                eq_refl eq_refl) as [Hlow _].
    apply Hlow. vm_compute. reflexivity.
  - destruct (@similarity_gate Demo.ratio Demo.search_by_address Demo.py_str
                Demo.py_int_of_str Demo.gold Demo.fresh Demo.gold_building
                eq_refl eq_refl) as [_ Hhigh].
    destruct Hhigh as (_ & _ & H95 & _); [vm_compute; discriminate|].
    apply H95. vm_compute. discriminate.
Defined.

Lemma save_to_cache_first_write_wins_witness :
  let cache := cache_data Demo.after_first_run in
  let cache' :=
    fst (HPDCache.save_to_cache Demo.scraped_date cache
           [Demo.gold_matched; Demo.elm; Demo.elm]) in
  NoDup (PyDict.keys cache)
  /\ PyDict.keys cache = [lit "100 GOLD STREET, MANHATTAN"]
  /\ PyDict.keys cache' = [lit "100 GOLD STREET, MANHATTAN"; lit "7 ELM STREET, BRONX"]
  /\ NoDup (PyDict.keys cache')
  /\ fst (HPDCache.save_to_cache Demo.scraped_date cache'
            [Demo.gold_matched; Demo.elm; Demo.elm]) = cache'.
Proof.
  intros cache cache'.
  assert (Hkeys : PyDict.keys cache = [lit "100 GOLD STREET, MANHATTAN"])
    by (vm_compute; reflexivity).
  assert (Hnodup : NoDup (PyDict.keys cache))
    by (rewrite Hkeys; repeat constructor; simpl; tauto).
  split; [exact Hnodup|]. split; [exact Hkeys|].
  split; [vm_compute; reflexivity|].
  destruct (@save_to_cache_first_write_wins Demo.scraped_date Demo.scraped_date
              cache [Demo.gold_matched; Demo.elm; Demo.elm] Hnodup)
    as (_ & H2 & _ & H4 & _).
  split; [exact H2 | exact H4].
Defined.

Lemma investment_score_formula_witness :
  0 <= FilterCriteria.min_price FilterCriteria.default
  /\ (0 <= EnrichedProperty.b_unit_count Demo.gold_matched)%Z
  /\ PropertyFilter.passes_all FilterCriteria.default Demo.gold_matched = true
  /\ spec_score Demo.gold_matched = 75%Z
  /\ PropertyFilter.calculate_investment_score Demo.gold_matched
     = spec_score Demo.gold_matched
  /\ (0 <= PropertyFilter.calculate_investment_score Demo.gold_matched <= 100)%Z.
Proof.
  assert (H1 : 0 <= FilterCriteria.min_price FilterCriteria.default)
    by apply Qle_refl.
  assert (H2 : (0 <= EnrichedProperty.b_unit_count Demo.gold_matched)%Z)
    by (vm_compute; discriminate).
  assert (H3 : PropertyFilter.passes_all FilterCriteria.default Demo.gold_matched
               = true) by (vm_compute; reflexivity).
  split; [exact H1|]. split; [exact H2|]. split; [exact H3|].
  split; [vm_compute; reflexivity|].
  exact (@investment_score_formula FilterCriteria.default Demo.gold_matched H1 H2 H3).
Defined.

Lemma exceptions_are_contained_witness :
  HPDCache.get_cached_hpd_data Demo.py_str Demo.py_int_of_str
    (cache_data Demo.fresh) (ZillowProperty.address Demo.nowhere) = None
  /\ Demo.search_by_address (scraper_calls Demo.fresh)
       (ZillowProperty.address Demo.nowhere) = Raised
  /\ Demo.match_property Demo.nowhere Demo.fresh
     = (EnrichedProperty.init Demo.nowhere, after_call Demo.nowhere Demo.fresh)
  /\ exists out,
       fst (Demo.match_properties_batch [Demo.gold; Demo.main; Demo.nowhere] 2
              Demo.fresh) = Ok out
       /\ map EnrichedProperty.zillow_data out = [Demo.gold; Demo.main; Demo.nowhere].
Proof.
  destruct (@exceptions_are_contained Demo.ratio Demo.search_by_address Demo.py_str
              Demo.py_int_of_str Demo.scraped_date) as (_ & Hraise & Hbatch & _).
  assert (H1 : HPDCache.get_cached_hpd_data Demo.py_str Demo.py_int_of_str
                 (cache_data Demo.fresh) (ZillowProperty.address Demo.nowhere) = None)
    by (vm_compute; reflexivity).
  assert (H2 : Demo.search_by_address (scraper_calls Demo.fresh)
                 (ZillowProperty.address Demo.nowhere) = Raised)
    by (vm_compute; reflexivity).
  split; [exact H1|]. split; [exact H2|].
  split; [exact (proj2 (Hraise Demo.nowhere Demo.fresh H1 H2))|].
  destruct (Hbatch [Demo.gold; Demo.main; Demo.nowhere] 2%Z Demo.fresh eq_refl)
    as (out & Hout & _ & Hz).
  exists out. split; [exact Hout | exact Hz].
Defined.

(** A run over three listings: the first is matched, the second fails the
    similarity gate, the scraper raises on the third; three records come
    back, only the first of them matched, and only the first address is
    cached. *)
Example batch_survives_scraper_failure :
  exists e1 e2 e3,
    fst (Demo.match_properties_batch [Demo.gold; Demo.main; Demo.nowhere] 2 Demo.fresh)
    = Ok [e1; e2; e3]
    /\ map EnrichedProperty.hpd_match_found [e1; e2; e3] = [true; false; false]
    /\ e3 = EnrichedProperty.init Demo.nowhere
    /\ PyDict.keys (cache_data Demo.after_first_run)
       = [lit "100 GOLD STREET, MANHATTAN"].
Proof.
  do 3 eexists. split; [vm_compute; reflexivity|].
  vm_compute. repeat split.
Qed.

(** The specification's scenario: the matched first listing passes the
    default criteria and is ranked with the note of its score. *)
Example filter_default_scenario :
  exists r,
    PropertyFilter.filter_properties FilterCriteria.default
      [Demo.gold_matched; EnrichedProperty.init Demo.main] = Ok [r]
    /\ EnrichedProperty.notes r = Some (lit "Investment Score: 75.0/100")
    /\ EnrichedProperty.meets_criteria r = true.
Proof.
  eexists. split; [vm_compute; reflexivity|].
  vm_compute. repeat split.
Qed.

End Examples.

(* ================================================================== *)
(** * Further properties of the code                                   *)
(* ================================================================== *)

(** ** Loading the table ([_load_cache]) *)

Section CacheLoading.

Import HPDCacheLoad.

Lemma get_setitem {V : Type} (d : PyDict.t V) (k k' : str) (v : V) :
  PyDict.get (PyDict.setitem d k v) k'
  = if PyStr.eqb k k' then Some v else PyDict.get d k'.
Proof.
  induction d as [|[k0 v0] d IH]; simpl.
  - reflexivity.
  - destruct (PyStr.eqb k0 k) eqn:E; simpl.
    + apply eqb_eq in E. subst k0. destruct (PyStr.eqb k k'); reflexivity.
    + rewrite IH. destruct (PyStr.eqb k0 k') eqn:E'; [|reflexivity].
      apply eqb_eq in E'. subst k0.
      destruct (PyStr.eqb k k') eqn:E2; [|reflexivity].
      apply eqb_eq in E2. subst k'. now rewrite eqb_refl in E.
Qed.

Lemma setitem_keys {V : Type} (d : PyDict.t V) (k : str) (v : V) :
  PyDict.keys (PyDict.setitem d k v)
  = if PyDict.mem d k then PyDict.keys d else PyDict.keys d ++ [k].
Proof.
  unfold PyDict.mem, PyDict.keys.
  induction d as [|[k0 v0] d IH]; simpl; [reflexivity|].
  destruct (PyStr.eqb k0 k) eqn:E; simpl; [reflexivity|].
  rewrite IH. now destruct (PyDict.get d k).
Qed.

Lemma setitem_NoDup {V : Type} (d : PyDict.t V) (k : str) (v : V) :
  NoDup (PyDict.keys d) -> NoDup (PyDict.keys (PyDict.setitem d k v)).
Proof.
  intros H. rewrite setitem_keys. destruct (PyDict.mem d k) eqn:E; [assumption|].
  apply mem_absent in E. apply NoDup_app; [assumption | repeat constructor; tauto|].
  intros x Hx [<-|[]]. contradiction.
Qed.

Lemma setitem_Forall {V : Type} (P : str * V -> Prop) (d : PyDict.t V)
  (k : str) (v : V) :
  Forall P d -> (forall k0, k0 = k -> P (k0, v)) -> Forall P (PyDict.setitem d k v).
Proof.
  intros Hd Hkv. induction Hd as [|[k0 v0] d H0 Hd IH]; simpl.
  - constructor; auto.
  - destruct (PyStr.eqb k0 k) eqn:E.
    + apply eqb_eq in E. constructor; auto.
    + constructor; auto.
Qed.

(** The table after the loading loop, started from [d]. *)
Lemma load_rows_cons (row : Row) (rest : list Row) (d : PyDict.t Row) :
  snd (load_rows (row :: rest) d)
  = match loaded_key row with
    | Ok key => snd (load_rows rest (PyDict.setitem d key row))
    | Raised => d
    end.
Proof.
  cbn [load_rows]. unfold bind, modify.
  destruct (loaded_key row); reflexivity.
Qed.

Lemma load_rows_invariant (rows : list Row) :
  forall d,
    NoDup (PyDict.keys d) ->
    Forall (fun item => loaded_key (snd item) = Ok (fst item)) d ->
    NoDup (PyDict.keys (snd (load_rows rows d)))
    /\ Forall (fun item => loaded_key (snd item) = Ok (fst item))
         (snd (load_rows rows d)).
Proof.
  induction rows as [|row rest IH]; intros d Hnd Hfiled.
  - simpl. auto.
  - rewrite load_rows_cons. destruct (loaded_key row) as [key|] eqn:E; [|auto].
    apply IH.
    + now apply setitem_NoDup.
    + apply setitem_Forall; [assumption|]. now intros k0 ->.
Qed.

(** X1: whatever [_load_cache] finds (no file, an unreadable file, any
    sheet, well formed or not), the table it leaves has pairwise distinct
    keys, and every row in it is filed under the key the loader computes
    from that row's own street and borough cells. *)
Theorem load_cache_distinct_keys (file : CacheFile) :
  NoDup (PyDict.keys (init file))
  /\ Forall (fun item => loaded_key (snd item) = Ok (fst item)) (init file).
Proof.
  unfold init, _load_cache. destruct file as [| |rows].
  - split; constructor.
  - split; constructor.
  - apply load_rows_invariant; constructor.
Qed.

Lemma load_rows_app (good rest : list Row) :
  Forall loadable good ->
  forall d,
    snd (load_rows (good ++ rest) d)
    = snd (load_rows rest (snd (load_rows good d))).
Proof.
  induction 1 as [|row good [key Hkey] _ IH]; intros d.
  - reflexivity.
  - cbn [app]. rewrite !load_rows_cons, Hkey. apply IH.
Qed.

(** X2: loading stops at the first row it cannot key (a missing or
    non-text street or borough cell) and keeps what it loaded before:
    the rows after the bad one are never loaded, the ones before it are
    not lost. *)
Theorem load_cache_stops_at_bad_row (good rest : list Row) (bad : Row) :
  Forall loadable good ->
  loaded_key bad = Raised ->
  init (Sheet (good ++ bad :: rest)) = init (Sheet good).
Proof.
  intros Hgood Hbad. unfold init, _load_cache.
  rewrite load_rows_app by assumption.
  now rewrite load_rows_cons, Hbad.
Qed.

Lemma find_app_first {A : Type} (f : A -> bool) (l l' : list A) :
  find f (l ++ l')
  = match find f l with
    | Some x => Some x
    | None => find f l'
    end.
Proof.
  induction l as [|x l IH]; simpl; [reflexivity|].
  destruct (f x); [reflexivity | exact IH].
Qed.

Lemma load_rows_get (rows : list Row) (key : str) :
  Forall loadable rows ->
  forall d,
    PyDict.get (snd (load_rows rows d)) key
    = match find (has_key key) (rev rows) with
      | Some row => Some row
      | None => PyDict.get d key
      end.
Proof.
  induction 1 as [|row rows [k Hk] _ IH]; intros d.
  - reflexivity.
  - rewrite load_rows_cons, Hk, IH. cbn [rev].
    rewrite find_app_first.
    destruct (find (has_key key) (rev rows)); [reflexivity|].
    rewrite get_setitem. cbn [find]. unfold has_key. rewrite Hk.
    destruct (PyStr.eqb k key); reflexivity.
Qed.

(** X3: on loading, the last row wins: when several rows of a sheet
    have the same key, a lookup in the loaded table finds the last of
    them (the opposite of [save_to_cache], where the first write wins). *)
Theorem load_cache_last_row_wins (rows : list Row) (key : str) :
  Forall loadable rows ->
  PyDict.get (init (Sheet rows)) key = find (has_key key) (rev rows).
Proof.
  intros H. unfold init, _load_cache. rewrite load_rows_get by assumption.
  now destruct (find (has_key key) (rev rows)).
Qed.

End CacheLoading.

(** ** Saving, looking up and reloading rows *)

Section CacheRoundTrip.

Import HPDCache.

Variable py_str : Cell -> str.
Variable py_int_of_str : str -> option Z.

Lemma reconstruct_saved_row (scraped_date : nat -> str) (i : nat)
  (p : EnrichedProperty.t) (b : HPDBuilding.t) (address : Address.t) :
  reconstruct py_str py_int_of_str (make_row scraped_date i p b) address
  = Ok (rebuilt address (length (HPDBuilding.b_units b))).
Proof.
  unfold reconstruct, make_row, rebuilt.
  cbn [PyDict.get]. eval_literal_keys. cbn iota.
  destruct (length (HPDBuilding.b_units b)) as [|n] eqn:En.
  - reflexivity.
  - cbn [cell_truthy cell_gt_zero cell_int obind notna].
    replace (Z.of_nat (S n) =? 0)%Z with false by (symmetry; apply Z.eqb_neq; lia).
    replace (0 <? Z.of_nat (S n))%Z with true by (symmetry; apply Z.ltb_lt; lia).
    cbn [negb obind]. now rewrite Nat2Z.id.
Qed.

Lemma get_cached_saved_row (scraped_date : nat -> str) (i : nat)
  (p : EnrichedProperty.t) (b : HPDBuilding.t)
  (cache : PyDict.t Row) (address : Address.t) :
  PyDict.get cache (_normalize_address address)
  = Some (make_row scraped_date i p b) ->
  get_cached_hpd_data py_str py_int_of_str cache address
  = Some (rebuilt address (length (HPDBuilding.b_units b))).
Proof.
  intros Hget. unfold get_cached_hpd_data, PyDict.mem. rewrite Hget. cbn [negb].
  now rewrite reconstruct_saved_row.
Qed.

(** X4: what a lookup gives back for a row [save_to_cache] wrote: the
    address asked for, as many placeholder special units [B1], [B2], ...
    as the saved building had, the flag set exactly when there is one,
    and a total (and residential) unit count of 0, whatever the saved
    building's count was: the row has no column for it. *)
Theorem lookup_of_saved_row (scraped_date : nat -> str) (i : nat)
  (p : EnrichedProperty.t) (b : HPDBuilding.t)
  (cache : PyDict.t Row) (address : Address.t) :
  PyDict.get cache (_normalize_address address)
  = Some (make_row scraped_date i p b) ->
  get_cached_hpd_data py_str py_int_of_str cache address
  = Some (rebuilt address (length (HPDBuilding.b_units b)))
  /\ HPDBuilding.total_units (rebuilt address (length (HPDBuilding.b_units b))) = 0%Z
  /\ length (HPDBuilding.b_units (rebuilt address (length (HPDBuilding.b_units b))))
     = length (HPDBuilding.b_units b)
  /\ map HPDBUnit.unit_number
       (HPDBuilding.b_units (rebuilt address (length (HPDBuilding.b_units b))))
     = map (fun n => Some (lit "B" ++ format_int (Z.of_nat n + 1)))
         (seq 0 (length (HPDBuilding.b_units b))).
Proof.
  intros Hget. split; [|split; [reflexivity|split]].
  - now apply get_cached_saved_row with (1 := Hget).
  - unfold rebuilt. cbn [HPDBuilding.b_units]. now rewrite length_map, length_seq.
  - unfold rebuilt. cbn [HPDBuilding.b_units]. rewrite map_map. reflexivity.
Qed.

Lemma strip_decompose (s : str) :
  exists pre post, s = pre ++ PyStr.strip s ++ post.
Proof.
  destruct (lstrip_suffix s) as [pre Hpre].
  destruct (lstrip_suffix (rev (PyStr.lstrip s))) as [q Hq].
  exists pre, (rev q). unfold PyStr.strip, PyStr.rstrip.
  rewrite Hpre at 1. f_equal.
  rewrite <- rev_app_distr, <- Hq. now rewrite rev_involutive.
Qed.

Lemma strip_length (s : str) : (length (PyStr.strip s) <= length s)%nat.
Proof.
  destruct (strip_decompose s) as (pre & post & H).
  rewrite H at 2. rewrite !length_app. lia.
Qed.

Lemma strip_same_length (s : str) :
  length (PyStr.strip s) = length s -> PyStr.strip s = s.
Proof.
  intros Hlen. destruct (strip_decompose s) as (pre & post & H).
  assert (Hl : length s = (length pre + (length (PyStr.strip s) + length post))%nat)
    by (rewrite H at 1; now rewrite !length_app).
  destruct pre; [|simpl in Hl; lia].
  destruct post; [|simpl in Hl; lia].
  simpl in H. rewrite app_nil_r in H. now symmetry.
Qed.

Lemma app_same_length {A : Type} (a c b d : list A) :
  a ++ b = c ++ d -> length a = length c -> a = c /\ b = d.
Proof.
  revert c. induction a as [|x a IH]; intros [|y c] H Hl; try discriminate.
  - now split.
  - simpl in *. injection H as -> H. injection Hl as Hl.
    destruct (IH c H Hl) as [-> ->]. now split.
Qed.

Lemma loaded_key_saved_row (scraped_date : nat -> str) (i : nat)
  (p : EnrichedProperty.t) (b : HPDBuilding.t) :
  HPDCacheLoad.loaded_key (make_row scraped_date i p b) = Ok (reloaded_key p).
Proof.
  unfold HPDCacheLoad.loaded_key, HPDCacheLoad.cell_upper, make_row, reloaded_key.
  cbn [PyDict.get]. eval_literal_keys. reflexivity.
Qed.

Lemma key_of_shape (p : EnrichedProperty.t) :
  let address := ZillowProperty.address (EnrichedProperty.zillow_data p) in
  key_of p
  = PyStr.strip (PyStr.upper (Address.street address)) ++ lit ", "
    ++ PyStr.strip
         (PyStr.upper (PyStr.or_default (Address.borough address) (lit "Brooklyn"))).
Proof.
  unfold key_of, _normalize_address, PyStr.or_default. cbv zeta.
  destruct (Address.borough _) as [[|c borough]|]; reflexivity.
Qed.

Lemma reloaded_key_eq (p : EnrichedProperty.t) :
  reloaded_key p = key_of p <-> trimmed p.
Proof.
  rewrite key_of_shape. unfold reloaded_key, trimmed. cbv zeta.
  set (street := PyStr.upper _). set (borough := PyStr.upper _).
  split.
  - intros H.
    pose proof (strip_length street) as Hs.
    pose proof (strip_length borough) as Hb.
    assert (Hlen : (length street + length borough
                    = length (PyStr.strip street) + length (PyStr.strip borough))%nat).
    { apply (f_equal (@length _)) in H. rewrite !length_app in H.
      unfold str in *. lia. }
    assert (Hls : length street = length (PyStr.strip street))
      by (unfold str in *; lia).
    apply app_same_length in H as [H1 H2]; [|exact Hls].
    apply app_inv_head in H2. split; congruence.
  - intros [-> ->]. reflexivity.
Qed.

(** X5: when the row saved for a record is read back from the sheet as
    it was written, [_load_cache] files it under the upper-cased street
    and borough without trimming them.  That is the key [save_to_cache]
    and the lookup use exactly when street and borough carry no white
    space around them; only then does a table loaded from that row answer
    a lookup of the record's address. *)
Theorem reload_finds_saved_row (scraped_date : nat -> str) (i : nat)
  (p : EnrichedProperty.t) (b : HPDBuilding.t) :
  let row := make_row scraped_date i p b in
  let address := ZillowProperty.address (EnrichedProperty.zillow_data p) in
  HPDCacheLoad.loaded_key row = Ok (reloaded_key p)
  /\ (reloaded_key p = key_of p <-> trimmed p)
  /\ (get_cached_hpd_data py_str py_int_of_str
        (HPDCacheLoad.init (HPDCacheLoad.Sheet [row])) address <> None
      <-> trimmed p).
Proof.
  intros row address.
  split; [apply loaded_key_saved_row|]. split; [apply reloaded_key_eq|].
  assert (Hinit : HPDCacheLoad.init (HPDCacheLoad.Sheet [row])
                  = [(reloaded_key p, row)]).
  { unfold HPDCacheLoad.init, HPDCacheLoad._load_cache.
    rewrite load_rows_cons. unfold row. now rewrite loaded_key_saved_row. }
  rewrite Hinit, <- reloaded_key_eq.
  unfold get_cached_hpd_data, PyDict.mem. subst address.
  change (_normalize_address (ZillowProperty.address (EnrichedProperty.zillow_data p)))
    with (key_of p).
  cbn [PyDict.get].
  destruct (PyStr.eqb (reloaded_key p) (key_of p)) eqn:E.
  - apply eqb_eq in E. cbn [negb]. unfold row.
    rewrite reconstruct_saved_row. split; [auto | discriminate].
  - apply eqb_neq in E. cbn [negb]. split; [congruence | contradiction].
Qed.

End CacheRoundTrip.

(** ** Similarity, runs of the matcher and the cache *)

Section Runs.

Import PropertyMatcher.

Variable ratio : str -> str -> Z.
Variable search_by_address :
  list Address.t -> Address.t -> Outcome (option HPDBuilding.t).
Variable py_str : Cell -> str.
Variable py_int_of_str : str -> option Z.
Variable scraped_date : nat -> str.

Local Abbreviation lookup := (HPDCache.get_cached_hpd_data py_str py_int_of_str).
Local Abbreviation similarity := (_calculate_address_similarity ratio).
Local Abbreviation match_one :=
  (match_property ratio search_by_address py_str py_int_of_str).
Local Abbreviation gather_all :=
  (gather ratio search_by_address py_str py_int_of_str).
Local Abbreviation batch :=
  (match_properties_batch ratio search_by_address py_str py_int_of_str scraped_date).
Local Abbreviation misses := (cache_miss py_str py_int_of_str).

(** X6: with a [ratio] between 0 and 100, the similarity of two
    addresses lies between 0 and 100, is never below the ratio of the two
    normalised streets and exceeds it by at most 20 (the two boosts of
    10). *)
Theorem similarity_bounds (a b : Address.t) :
  (forall s t, (0 <= ratio s t <= 100)%Z) ->
  let r := ratio (_normalize_address a) (_normalize_address b) in
  (0 <= similarity a b <= 100)%Z
  /\ (r <= similarity a b <= r + 20)%Z.
Proof.
  intros Hr r. unfold _calculate_address_similarity. fold r.
  pose proof (Hr (_normalize_address a) (_normalize_address b)) as H. fold r in H.
  destruct (Address.borough a) as [b1|], (Address.borough b) as [b2|],
    (Address.zip_code a) as [z1|], (Address.zip_code b) as [z2|];
    repeat match goal with
           | |- context [if ?c then _ else _] => destruct c
           end; lia.
Qed.



Lemma match_property_state (z : ZillowProperty.t) (m : t) :
  cache_data (snd (match_one z m)) = cache_data m
  /\ scraper_calls (snd (match_one z m))
     = scraper_calls m
       ++ (if misses (cache_data m) z then [ZillowProperty.address z] else [])
  /\ (forall k, PyDict.mem (new_hpd_data m) k = true ->
                PyDict.mem (new_hpd_data (snd (match_one z m))) k = true).
Proof.
  unfold match_property, cache_miss.
  generalize (match_property_cases ratio search_by_address py_str py_int_of_str z m).
  destruct (lookup _ _) as [b|].
  - intros ->. cbn [snd self]. rewrite app_nil_r. auto.
  - destruct (search_by_address _ _) as [[b|]|]; intros ->;
      cbn [snd self after_found after_call cache_data scraper_calls new_hpd_data];
      repeat split; auto.
    intros k Hk. apply mem_keys. rewrite setitem_keys.
    apply mem_keys in Hk.
    destruct (PyDict.mem _ _); [assumption | apply in_or_app; now left].
Qed.

(** X8: during a run the table is only read, and the scraper is called
    once for every listing that misses the table, in the order of the
    listings, and for no other: a listing answered from the table costs no
    call, and two listings with the same uncached address cost two. *)
Theorem scraper_called_once_per_miss (zs : list ZillowProperty.t) (m : t) :
  cache_data (snd (gather_all zs m)) = cache_data m
  /\ scraper_calls (snd (gather_all zs m))
     = scraper_calls m
       ++ map ZillowProperty.address (filter (misses (cache_data m)) zs).
Proof.
  revert m. induction zs as [|z zs IH]; intros m.
  - simpl. now rewrite app_nil_r.
  - cbn [gather].
    destruct (match_property_state z m) as (Hc & Hs & _).
    destruct (match_one z m) as [e m1]. cbn [snd] in Hc, Hs.
    destruct (IH m1) as [IHc IHs].
    destruct (gather_all zs m1) as [es m2]. cbn [snd] in *.
    split; [congruence|].
    rewrite IHs, Hs, Hc. cbn [filter].
    destruct (misses (cache_data m) z); cbn [map];
      now rewrite <- app_assoc.
Qed.


(** X10: [calculate_metrics] changes nothing on a record returned by
    [match_property]: the flag and the two counts already are those of
    the attached building. *)
Theorem calculate_metrics_fixed (z : ZillowProperty.t) (m : t) :
  Models.calculate_metrics (fst (match_one z m)) = fst (match_one z m).
Proof.
  pose proof (match_property_consistent ratio search_by_address py_str
                py_int_of_str z m) as H. cbv zeta in H.
  unfold Models.calculate_metrics.
  destruct (fst (match_one z m)) as [zd hd mf hb bc tu mc conf notes].
  cbn [EnrichedProperty.hpd_data EnrichedProperty.has_b_units
       EnrichedProperty.b_unit_count EnrichedProperty.total_units
       EnrichedProperty.hpd_match_found EnrichedProperty.zillow_data
       EnrichedProperty.meets_criteria EnrichedProperty.match_confidence
       EnrichedProperty.notes] in *.
  destruct hd as [b|]; [|reflexivity].
  destruct H as (_ & -> & -> & ->). reflexivity.
Qed.

(** What the run over the listings leaves of the matcher. *)
Lemma gather_cache_data (zs : list ZillowProperty.t) (m : t) :
  cache_data (snd (gather_all zs m)) = cache_data m.
Proof.
  revert m. induction zs as [|z zs IH]; intros m; [reflexivity|].
  cbn [gather].
  destruct (match_property_state z m) as (Hc & _).
  destruct (match_one z m) as [e m1]. cbn [snd] in Hc.
  specialize (IH m1). destruct (gather_all zs m1) as [es m2]. cbn [snd] in *.
  congruence.
Qed.

Lemma gather_new_hpd_data (zs : list ZillowProperty.t) (m : t) (k : str) :
  PyDict.mem (new_hpd_data m) k = true ->
  PyDict.mem (new_hpd_data (snd (gather_all zs m))) k = true.
Proof.
  revert m. induction zs as [|z zs IH]; intros m Hk; [exact Hk|].
  cbn [gather].
  destruct (match_property_state z m) as (_ & _ & Hn).
  destruct (match_one z m) as [e m1]. cbn [snd] in Hn.
  specialize (IH m1 (Hn k Hk)). destruct (gather_all zs m1) as [es m2].
  exact IH.
Qed.

(** A record matched after a miss has its building in [new_hpd_data]. *)
Lemma match_property_recorded (z : ZillowProperty.t) (m : t) :
  misses (cache_data m) z = true ->
  EnrichedProperty.hpd_match_found (fst (match_one z m)) = true ->
  PyDict.mem (new_hpd_data (snd (match_one z m)))
    (address_str (ZillowProperty.address z)) = true.
Proof.
  unfold match_property, cache_miss.
  generalize (match_property_cases ratio search_by_address py_str py_int_of_str z m).
  destruct (lookup _ _) as [b|]; [discriminate|].
  destruct (search_by_address _ _) as [[b|]|]; intros -> _;
    cbn [fst snd self enriched after_found new_hpd_data]; try discriminate.
  intros _. unfold PyDict.mem. rewrite get_setitem. now rewrite eqb_refl.
Qed.

Lemma gather_recorded (zs : list ZillowProperty.t) (m : t) (e : EnrichedProperty.t) :
  In e (fst (gather_all zs m)) ->
  EnrichedProperty.hpd_match_found e = true ->
  (exists b, EnrichedProperty.hpd_data e = Some b)
  /\ (misses (cache_data m) (EnrichedProperty.zillow_data e) = true ->
      PyDict.mem (new_hpd_data (snd (gather_all zs m)))
        (address_str (ZillowProperty.address (EnrichedProperty.zillow_data e))) = true).
Proof.
  revert m. induction zs as [|z zs IH]; intros m; [intros []|].
  cbn [gather].
  pose proof (match_property_recorded z m) as Hrec.
  pose proof (match_property_consistent ratio search_by_address py_str
                py_int_of_str z m) as Hcons. cbv zeta in Hcons.
  pose proof (match_property_zillow_data ratio search_by_address py_str
                py_int_of_str z m) as Hz.
  destruct (match_property_state z m) as (Hc & _).
  destruct (match_one z m) as [e0 m1]. cbn [fst snd] in *.
  specialize (IH m1).
  pose proof (gather_new_hpd_data zs m1) as Hmono.
  destruct (gather_all zs m1) as [es m2]. cbn [fst snd] in *.
  intros [<-|Hin] Hm.
  - split.
    + destruct (EnrichedProperty.hpd_data e0) as [b|]; [eauto|].
      destruct Hcons as (Hf & _). congruence.
    + intros Hmiss. rewrite Hz in *. apply Hmono. now apply Hrec.
  - destruct (IH Hin Hm) as [Hb Hnew]. split; [exact Hb|].
    rewrite Hc in Hnew. exact Hnew.
Qed.

(** [match_properties_batch] with a positive batch size: one run over
    all listings, then the matched records of freshly scraped addresses
    are handed to [save_to_cache]. *)
Lemma batch_positive (zs : list ZillowProperty.t) (size : Z) (m : t) :
  (0 < size)%Z ->
  batch zs size m
  = (Ok (fst (gather_all zs m)),
     match new_enriched (fst (gather_all zs m)) (snd (gather_all zs m)) with
     | [] => snd (gather_all zs m)
     | _ =>
         mk (fst (HPDCache.save_to_cache scraped_date
                    (cache_data (snd (gather_all zs m)))
                    (new_enriched (fst (gather_all zs m)) (snd (gather_all zs m)))))
            (new_hpd_data (snd (gather_all zs m)))
            (scraper_calls (snd (gather_all zs m)))
     end).
Proof.
  intros H. unfold match_properties_batch.
  destruct (size =? 0)%Z eqn:E1; [apply Z.eqb_eq in E1; lia|].
  destruct (size <? 0)%Z eqn:E2; [apply Z.ltb_lt in E2; lia|].
  rewrite run_batches_gather by lia.
  destruct (gather_all zs m) as [out m1]. reflexivity.
Qed.

Lemma save_to_cache_appends (cache : PyDict.t Row)
  (props : list EnrichedProperty.t) :
  exists added,
    fst (HPDCache.save_to_cache scraped_date cache props) = cache ++ added
    /\ NoDup (PyDict.keys added)
    /\ (forall k, In k (PyDict.keys added) -> ~ In k (PyDict.keys cache))
    /\ Forall (written_from scraped_date (HPDCache.enumerate props)) added
    /\ (forall p, In p props -> cacheable p ->
                  In (key_of p) (PyDict.keys (cache ++ added))).
Proof.
  destruct props as [|p0 props].
  - exists []. cbn [HPDCache.save_to_cache fst]. rewrite app_nil_r.
    repeat split; try constructor; simpl; tauto.
  - destruct (save_loop scraped_date (HPDCache.enumerate (p0 :: props)) cache
                (PyDict.values cache))
      as (added & Hfold & Hnd & Hfresh & Hfrom & Hall).
    exists added. unfold HPDCache.save_to_cache. rewrite Hfold. cbn [fst].
    repeat split; auto.
    intros p Hp Hc. destruct (in_enumerate (p0 :: props) p Hp) as [i Hi]. eauto.
Qed.

Lemma in_enumerate_inv {A : Type} (l : list A) (i : nat) (x : A) :
  In (i, x) (HPDCache.enumerate l) -> In x l.
Proof. unfold HPDCache.enumerate. apply in_combine_r. Qed.

(** The matcher a batch leaves: the run's log and buildings, and the
    table grown by [save_to_cache]. *)
Lemma batch_state (zs : list ZillowProperty.t) (size : Z) (m : t) :
  (0 < size)%Z ->
  let out := fst (gather_all zs m) in
  let m1 := snd (gather_all zs m) in
  let m' := snd (batch zs size m) in
  new_hpd_data m' = new_hpd_data m1
  /\ scraper_calls m' = scraper_calls m1
  /\ cache_data m'
     = fst (HPDCache.save_to_cache scraped_date (cache_data m) (new_enriched out m1)).
Proof.
  intros H out m1 m'. unfold m'. rewrite (batch_positive zs m H). cbn [snd].
  fold out m1. rewrite <- (gather_cache_data zs m). fold m1.
  destruct (new_enriched out m1); cbn; auto.
Qed.

(** X11: what a batch does to the table.  With a positive batch size
    the records returned are those of one run over the listings; the
    table only grows, by rows appended under keys it did not hold; each
    new row is the row of a record of this run that was matched after a
    cache miss, filed under that record's key; the keys stay distinct. *)
Theorem batch_caches_only_matches (zs : list ZillowProperty.t) (size : Z) (m : t) :
  (0 < size)%Z ->
  NoDup (PyDict.keys (cache_data m)) ->
  let out := fst (gather_all zs m) in
  let m' := snd (batch zs size m) in
  fst (batch zs size m) = Ok out
  /\ NoDup (PyDict.keys (cache_data m'))
  /\ exists added,
       cache_data m' = cache_data m ++ added
       /\ Forall
            (fun item =>
               exists e b i,
                 In e out
                 /\ EnrichedProperty.hpd_match_found e = true
                 /\ EnrichedProperty.hpd_data e = Some b
                 /\ PyDict.mem (cache_data m) (key_of e) = false
                 /\ item = (key_of e, HPDCache.make_row scraped_date i e b))
            added.
Proof.
  intros H Hnodup out m'.
  destruct (batch_state zs m H) as (_ & _ & Hcache). fold out m' in Hcache.
  split; [rewrite (batch_positive zs m H); reflexivity|].
  destruct (save_to_cache_appends (cache_data m)
              (new_enriched out (snd (gather_all zs m))))
    as (added & Heq & Hnd & Hfresh & Hfrom & _).
  rewrite Heq in Hcache.
  split; [rewrite Hcache; now apply NoDup_keys_app|].
  exists added. split; [exact Hcache|].
  rewrite Forall_forall in Hfrom |- *.
  intros [k row] Hitem.
  destruct (Hfrom _ Hitem) as (i & e & b & Hin & Hm & Hd & Hk & Hrow).
  cbn [fst snd] in Hk, Hrow.
  exists e, b, i. apply in_enumerate_inv in Hin.
  unfold new_enriched in Hin. apply filter_In in Hin as [Hin _].
  repeat split; auto.
  - apply mem_absent. rewrite <- Hk. apply Hfresh.
    unfold PyDict.keys. change k with (fst (k, row)). now apply in_map.
  - congruence.
Qed.

Lemma get_app_absent {V : Type} (d d' : PyDict.t V) (k : str) :
  ~ In k (PyDict.keys d) -> PyDict.get (d ++ d') k = PyDict.get d' k.
Proof.
  induction d as [|[k0 v0] d IH]; simpl; [reflexivity|].
  intros Hk. destruct (PyStr.eqb k0 k) eqn:E.
  - apply eqb_eq in E. tauto.
  - apply IH. tauto.
Qed.

Lemma get_present {V : Type} (d : PyDict.t V) (k : str) :
  In k (PyDict.keys d) -> exists v, PyDict.get d k = Some v /\ In (k, v) d.
Proof.
  induction d as [|[k0 v0] d IH]; simpl; [tauto|].
  intros Hk. destruct (PyStr.eqb k0 k) eqn:E.
  - apply eqb_eq in E. subst. eauto.
  - apply eqb_neq in E. destruct Hk as [Hk|Hk]; [congruence|].
    destruct (IH Hk) as (v & Hget & Hin). eauto.
Qed.

Lemma absent_misses (cache : PyDict.t Row) (z : ZillowProperty.t) :
  PyDict.mem cache (HPDCache._normalize_address (ZillowProperty.address z)) = false ->
  misses cache z = true.
Proof.
  unfold cache_miss, HPDCache.get_cached_hpd_data. now intros ->.
Qed.

(** X12: a listing matched in a batch under a key the table did not
    hold is answered from the table afterwards: the lookup of its address
    succeeds, with a building rebuilt from the row of a record of that
    batch with the same key, and [match_property] then returns without
    calling the scraper or changing the matcher. *)
Theorem matched_listing_cached_afterwards (zs : list ZillowProperty.t)
  (size : Z) (m : t) (out : list EnrichedProperty.t) (e : EnrichedProperty.t) :
  (0 < size)%Z ->
  fst (batch zs size m) = Ok out ->
  In e out ->
  EnrichedProperty.hpd_match_found e = true ->
  PyDict.mem (cache_data m) (key_of e) = false ->
  let m' := snd (batch zs size m) in
  let z := EnrichedProperty.zillow_data e in
  exists e' b',
    In e' out
    /\ key_of e' = key_of e
    /\ EnrichedProperty.hpd_data e' = Some b'
    /\ lookup (cache_data m') (ZillowProperty.address z)
       = Some (rebuilt (ZillowProperty.address z) (length (HPDBuilding.b_units b')))
    /\ match_one z m'
       = (gate ratio z
            (rebuilt (ZillowProperty.address z) (length (HPDBuilding.b_units b'))),
          m').
Proof.
  intros H Hout Hin Hm Habs m' z.
  rewrite (batch_positive zs m H) in Hout. cbn [fst] in Hout.
  injection Hout as Hout.
  destruct (batch_state zs m H) as (_ & _ & Hcache). fold m' in Hcache.
  rewrite Hout in Hcache.
  set (m1 := snd (gather_all zs m)) in *.
  rewrite <- Hout in Hin.
  destruct (gather_recorded zs m e Hin Hm) as [[b Hb] Hnew].
  specialize (Hnew (absent_misses _ _ Habs)). fold m1 in Hnew.
  rewrite Hout in Hin.
  assert (Hsel : In e (new_enriched out m1)).
  { unfold new_enriched. apply filter_In. split; [exact Hin|].
    now rewrite Hm, Hnew. }
  destruct (save_to_cache_appends (cache_data m) (new_enriched out m1))
    as (added & Heq & Hnd & Hfresh & Hfrom & Hall).
  rewrite Heq in Hcache.
  assert (Hkey : In (key_of e) (PyDict.keys added)).
  { assert (Hc : cacheable e) by (split; congruence).
    specialize (Hall e Hsel Hc). rewrite keys_app in Hall.
    destruct (in_app_or _ _ _ Hall) as [Hk|Hk]; [|exact Hk].
    apply mem_absent in Habs. contradiction. }
  destruct (get_present _ _ Hkey) as (row & Hget & Hrow).
  rewrite Forall_forall in Hfrom.
  destruct (Hfrom _ Hrow) as (i & e' & b' & Hin' & Hm' & Hd' & Hk' & Hrow').
  cbn [fst snd] in Hk', Hrow'.
  apply in_enumerate_inv in Hin'. unfold new_enriched in Hin'.
  apply filter_In in Hin' as [Hin' _].
  assert (Hlookup : lookup (cache_data m') (ZillowProperty.address z)
                    = Some (rebuilt (ZillowProperty.address z)
                              (length (HPDBuilding.b_units b')))).
  { apply get_cached_saved_row with (scraped_date := scraped_date) (i := i) (p := e').
    rewrite Hcache, get_app_absent by (now apply mem_absent).
    rewrite <- Hrow'. exact Hget. }
  exists e', b'. repeat split; auto.
  now apply match_property_hit.
Qed.

(** X13: a record answered from a row written by [save_to_cache]
    carries a total unit count of 0, whatever the building saved had: it
    fails the unit gate, hence the filter, under every criteria with a
    positive [min_units], and its investment score is at most 70. *)
Theorem cached_answer_has_no_units (criteria : FilterCriteria.t)
  (z : ZillowProperty.t) (m : t)
  (i : nat) (p : EnrichedProperty.t) (b : HPDBuilding.t) :
  PyDict.get (cache_data m) (HPDCache._normalize_address (ZillowProperty.address z))
  = Some (HPDCache.make_row scraped_date i p b) ->
  let e := fst (match_one z m) in
  EnrichedProperty.total_units e = 0%Z
  /\ ((0 < FilterCriteria.min_units criteria)%Z ->
      PropertyFilter.meets_unit_criteria criteria e = false
      /\ PropertyFilter.passes_all criteria e = false)
  /\ (PropertyFilter.calculate_investment_score e <= 70)%Z.
Proof.
  intros Hget e.
  pose proof (@get_cached_saved_row py_str py_int_of_str scraped_date i p b
                (cache_data m) (ZillowProperty.address z) Hget) as Hhit.
  pose proof (@match_property_hit ratio search_by_address py_str py_int_of_str
                z m _ Hhit) as Hrun.
  assert (He : e = gate ratio z (rebuilt (ZillowProperty.address z)
                                   (length (HPDBuilding.b_units b))))
    by (unfold e; now rewrite Hrun).
  assert (Htotal : EnrichedProperty.total_units e = 0%Z).
  { rewrite He. unfold gate. destruct (_ <=? _)%Z; reflexivity. }
  split; [exact Htotal|]. split.
  - intros Hmin.
    assert (Hunit : PropertyFilter.meets_unit_criteria criteria e = false).
    { unfold PropertyFilter.meets_unit_criteria. rewrite Htotal.
      destruct (negb _); [reflexivity|]. apply Z.leb_gt. exact Hmin. }
    split; [exact Hunit|].
    unfold PropertyFilter.passes_all. rewrite Hunit.
    now rewrite !andb_false_r.
  - unfold PropertyFilter.calculate_investment_score. rewrite Htotal.
    change (0 <? 0)%Z with false.
    destruct (EnrichedProperty.has_b_units e);
      destruct (ZillowProperty.price _);
      destruct (ZillowProperty.days_on_market _) as [d|];
      rewrite ?andb_false_r;
      repeat match goal with
             | |- context [if ?c then _ else _] => destruct c
             end; lia.
Qed.

End Runs.

(** ** The normalised street *)

Section NormalisedStreet.

Import PropertyMatcher.

(** X14: the normalised street is clean: upper-casing it, trimming it
    and collapsing its white space each leave it unchanged (only the
    token replacement can still change it). *)
Theorem normalized_street_clean (a : Address.t) :
  let n := _normalize_address a in
  PyStr.upper n = n
  /\ PyStr.strip n = n
  /\ PyStr.join (lit " ") (PyStr.split n) = n.
Proof.
  intros n. destruct (normalized_shape a) as (words & Hn & Hwords & Hupper).
  fold n in Hn. rewrite Hn. split; [|split].
  - apply upper_fixed, is_upper_join, Hupper.
  - apply strip_join, Hwords.
  - now rewrite split_join.
Qed.

End NormalisedStreet.

(** ** Filtering twice, and the score as a function of its inputs *)

Section FilterAgain.

Import PropertyFilter.

Variable criteria : FilterCriteria.t.

Lemma sort_by_descending {A : Type} (f : A -> Z) (l : list A) :
  descending f l -> sort_by f l = l.
Proof.
  unfold descending, sort_by.
  induction 1 as [|x l Hl IH Hx]; [reflexivity|].
  cbn [fold_right]. rewrite IH.
  destruct Hx as [|y l' Hy _]; [reflexivity|].
  cbn [insert_by]. apply Z.leb_le in Hy. now rewrite Hy.
Qed.

Lemma filter_all {A : Type} (f : A -> bool) (l : list A) :
  Forall (fun x => f x = true) l -> filter f l = l.
Proof.
  induction 1 as [|x l Hx _ IH]; [reflexivity|].
  cbn [filter]. now rewrite Hx, IH.
Qed.

Lemma map_fixed {A : Type} (f : A -> A) (l : list A) :
  Forall (fun x => f x = x) l -> map f l = l.
Proof.
  induction 1 as [|x l Hx _ IH]; [reflexivity|].
  cbn [map]. now rewrite Hx, IH.
Qed.

(** X15: filtering is idempotent: handing the output of
    [filter_properties] to [filter_properties] again, under the same
    criteria, returns it unchanged (same records, same notes, same
    order). *)
Theorem filter_properties_idempotent (properties : list EnrichedProperty.t) :
  obind (filter_properties criteria properties) (filter_properties criteria)
  = filter_properties criteria properties.
Proof.
  rewrite (filter_properties_eq criteria properties). cbn [obind].
  rewrite filter_properties_eq. f_equal.
  set (out := sort_by calculate_investment_score (collect criteria properties)).
  assert (Hout : Forall (fun r => passes_all criteria r = true /\ mark_passed r = r) out).
  { eapply Permutation_Forall; [symmetry; apply sort_by_perm|].
    unfold collect. apply Forall_forall. intros r' Hr'.
    apply in_map_iff in Hr' as (r & <- & Hr).
    apply filter_In in Hr as [_ Hr]. split; [exact Hr | reflexivity]. }
  unfold collect.
  rewrite filter_all by (eapply Forall_impl; [|exact Hout]; now intros r [? _]).
  rewrite map_fixed by (eapply Forall_impl; [|exact Hout]; now intros r [_ ?]).
  apply sort_by_descending, sort_by_sorted.
Qed.

(** X16: the investment score is monotone: between two records of the
    same price and total unit count, the one with the special-unit flag
    (if the other has it), at least as many special units and at most as
    many days on the market (if the other has a count at all) scores at
    least as much. *)
Theorem investment_score_monotone (r r' : EnrichedProperty.t) :
  ZillowProperty.price (EnrichedProperty.zillow_data r)
  = ZillowProperty.price (EnrichedProperty.zillow_data r') ->
  EnrichedProperty.total_units r = EnrichedProperty.total_units r' ->
  (EnrichedProperty.has_b_units r = true -> EnrichedProperty.has_b_units r' = true) ->
  (EnrichedProperty.b_unit_count r <= EnrichedProperty.b_unit_count r')%Z ->
  (forall d, ZillowProperty.days_on_market (EnrichedProperty.zillow_data r) = Some d ->
     exists d', ZillowProperty.days_on_market (EnrichedProperty.zillow_data r') = Some d'
                /\ (d' <= d)%Z) ->
  (calculate_investment_score r <= calculate_investment_score r')%Z.
Proof.
  intros Hprice Htotal Hflag Hcount Hdays.
  unfold calculate_investment_score. rewrite <- Hprice, <- Htotal.
  set (per_unit := fun score : Z =>
         match ZillowProperty.price (EnrichedProperty.zillow_data r) with
         | Some price =>
             if negb (Qeq_bool price 0) && (0 <? EnrichedProperty.total_units r)%Z
             then
               if Qle_bool (price / inject_Z (EnrichedProperty.total_units r)) (100000 # 1)
               then (score + 15)%Z
               else if Qle_bool (price / inject_Z (EnrichedProperty.total_units r))
                         (150000 # 1)
               then (score + 10)%Z
               else if Qle_bool (price / inject_Z (EnrichedProperty.total_units r))
                         (200000 # 1)
               then (score + 5)%Z
               else score
             else score
         | None => score
         end).
  assert (Hper : exists bonus, forall score, per_unit score = (score + bonus)%Z).
  { unfold per_unit.
    destruct (ZillowProperty.price _) as [price|]; [|exists 0%Z; intros; lia].
    destruct (negb _ && _); [|exists 0%Z; intros; lia].
    destruct (Qle_bool _ (100000 # 1)); [exists 15%Z; reflexivity|].
    destruct (Qle_bool _ (150000 # 1)); [exists 10%Z; reflexivity|].
    destruct (Qle_bool _ (200000 # 1)); [exists 5%Z; reflexivity|].
    exists 0%Z; intros; lia. }
  destruct Hper as [bonus Hper].
  change (match ZillowProperty.price (EnrichedProperty.zillow_data r) with
          | Some price => _
          | None => ?s
          end) with (per_unit s).
  rewrite !Hper.
  destruct (ZillowProperty.days_on_market (EnrichedProperty.zillow_data r)) as [d|].
  - destruct (Hdays d eq_refl) as (d' & -> & Hd).
    destruct (EnrichedProperty.has_b_units r);
      [rewrite (Hflag eq_refl) | destruct (EnrichedProperty.has_b_units r')];
      destruct (0 <? EnrichedProperty.total_units r)%Z;
      destruct (d <=? 7)%Z eqn:E1; destruct (d <=? 14)%Z eqn:E2;
      destruct (d <=? 30)%Z eqn:E3;
      destruct (d' <=? 7)%Z eqn:E1'; destruct (d' <=? 14)%Z eqn:E2';
      destruct (d' <=? 30)%Z eqn:E3'; lia.
  - destruct (EnrichedProperty.has_b_units r);
      [rewrite (Hflag eq_refl) | destruct (EnrichedProperty.has_b_units r')];
      destruct (0 <? EnrichedProperty.total_units r)%Z;
      destruct (ZillowProperty.days_on_market (EnrichedProperty.zillow_data r'))
        as [d'|];
      repeat match goal with
             | |- context [if ?c then _ else _] => destruct c
             end; lia.
Qed.

End FilterAgain.

(** ** Reading the text of a listing *)

Section ListingText.

Import ZillowScraper.




Lemma digit_or_dot_sign (c : ascii) (r : str) :
  digit_or_dot c = true ->
  match c :: r with
  | "-"%char :: r' => (true, r')
  | "+"%char :: r' => (false, r')
  | _ => (false, c :: r)
  end = (false, c :: r).
Proof.
  destruct c as [[] [] [] [] [] [] [] []]; try reflexivity; discriminate.
Qed.

Lemma digits_value_nonneg (s : str) (i : N) :
  digits_value s = Some i -> 0 <= inject_Z (Z.of_N i).
Proof. intros _. unfold Qle. simpl. lia. Qed.

(** [float] of a string of digits and dots is never negative. *)
Lemma py_float_unsigned (s : str) (q : Q) :
  Forall (fun c => digit_or_dot c = true) s ->
  py_float s = Ok q -> 0 <= q.
Proof.
  intros Hs. unfold py_float.
  pose proof (Forall_strip Hs) as Hstrip.
  destruct (PyStr.strip s) as [|c r].
  - cbn. discriminate.
  - inversion Hstrip as [|? ? Hc _]; subst.
    cbv zeta.
    match goal with
    | |- context [match ?scrutinee with (_, _) => _ end] =>
        replace scrutinee with (false, c :: r)
          by (symmetry; exact (@digit_or_dot_sign c r Hc))
    end.
    destruct (PyStr.split_sep (lit ".") (c :: r)) as [|ip [|fp [|? ?]]];
      try discriminate.
    + destruct ip; [discriminate|].
      destruct (digits_value _) as [i|]; [|discriminate].
      intros [= <-]. unfold Qle. simpl. lia.
    + destruct (ip ++ fp); [discriminate|].
      destruct (digits_value ip) as [i|]; [|discriminate].
      destruct (digits_value fp) as [f|]; [|discriminate].
      intros [= <-].
      apply Qle_trans with (0 + 0); [discriminate|].
      apply Qplus_le_compat; [unfold Qle; simpl; lia|].
      apply Qmult_le_0_compat; [unfold Qle; simpl; lia|].
      apply Qinv_le_0_compat. unfold Qle. simpl.
      pose proof (Z.pow_nonneg 10 (Z.of_nat (length fp))). lia.
Qed.

Lemma filter_idem {A : Type} (f : A -> bool) (l : list A) :
  filter f (filter f l) = filter f l.
Proof.
  induction l as [|x l IH]; [reflexivity|].
  cbn [filter]. destruct (f x) eqn:E; [|exact IH].
  cbn [filter]. now rewrite E, IH.
Qed.

Lemma parse_price_no_plus (text : str) :
  Forall (fun c => c <> "+"%char) text ->
  _parse_price text
  = match filter digit_or_dot text with
    | [] => None
    | clean_price =>
        match py_float clean_price with
        | Ok price => Some price
        | Raised => None
        end
    end.
Proof.
  intros H. unfold _parse_price, PyStr.split_sep.
  change (lit "+") with ["+"%char].
  now rewrite split_sep_none by exact H.
Qed.

(** X18: [_parse_price] reads the text before the first [+] only, and
    of it the digits and dots only: every other character ([$], commas,
    letters, white space) is ignored; the price it returns is never
    negative. *)
Theorem parse_price_reads_digits (before after : str) :
  Forall (fun c => c <> "+"%char) before ->
  _parse_price (before ++ lit "+" ++ after) = _parse_price before
  /\ _parse_price before = _parse_price (filter digit_or_dot before)
  /\ (forall price, _parse_price before = Some price -> 0 <= price).
Proof.
  intros H. split; [|split].
  - rewrite (parse_price_no_plus H).
    unfold _parse_price, PyStr.split_sep.
    change (lit "+") with ["+"%char]. cbn [app].
    now rewrite split_sep_char by exact H.
  - rewrite (parse_price_no_plus H).
    rewrite parse_price_no_plus.
    + now rewrite filter_idem.
    + apply Forall_forall. intros c Hc. apply filter_In in Hc as [_ Hc].
      intros ->. discriminate.
  - intros price. rewrite (parse_price_no_plus H).
    destruct (filter digit_or_dot before) as [|c clean] eqn:E; [discriminate|].
    destruct (py_float (c :: clean)) as [q|] eqn:Eq; [|discriminate].
    intros [= <-]. apply py_float_unsigned with (2 := Eq).
    rewrite <- E. apply Forall_forall. intros x Hx.
    now apply filter_In in Hx as [_ Hx].
Qed.

End ListingText.

(** ** The address of a Compass listing *)

Section CompassAddress.

Import CompassScraper.

Lemma split_sep_from_nonempty (sep piece : str) (s : str) :
  forall skip, PyStr.split_sep_from sep piece skip s <> [].
Proof.
  revert piece. induction s as [|c s IH]; intros piece skip; cbn [PyStr.split_sep_from].
  - discriminate.
  - destruct skip; [|apply IH].
    destruct (PyStr.startswith sep (c :: s)); [discriminate | apply IH].
Qed.

Lemma split_sep_char_count (c : ascii) (s : str) :
  forall piece,
    length (PyStr.split_sep_from [c] piece 0 s) = S (count_occ ascii_dec s c).
Proof.
  induction s as [|x s IH]; intros piece; [reflexivity|].
  cbn [PyStr.split_sep_from PyStr.startswith count_occ].
  destruct (ascii_dec c x) as [->|Hcx].
  - destruct (ascii_dec x x); [|congruence].
    cbn [length Nat.sub]. now rewrite IH.
  - destruct (ascii_dec x c); [congruence|]. apply IH.
Qed.

Lemma py_index_in_range {A : Type} (l : list A) (n : nat) :
  (n < length l)%nat -> exists x, py_index l n = Ok x.
Proof.
  intros H. unfold py_index.
  destruct (nth_error l n) as [x|] eqn:E; [eauto|].
  apply nth_error_None in E. lia.
Qed.

Lemma nth_error_last {A : Type} (l : list A) (x d : A) :
  nth_error (x :: l) (length l) = Some (last (x :: l) d).
Proof.
  revert x. induction l as [|y l IH]; intros x; [reflexivity|].
  cbn [length nth_error]. rewrite IH. reflexivity.
Qed.

Lemma last_map_strip (l : list str) :
  last (map PyStr.strip l) [] = PyStr.strip (last l []).
Proof.
  induction l as [|a [|b l] IH]; [reflexivity | reflexivity | exact IH].
Qed.

(** X19: [_parse_address] never returns [None]: the length tests make
    every index access safe, so the [except] clause is never reached.
    The address it returns always has the borough Brooklyn, whatever the
    text says, so its cache key always ends in [BROOKLYN]. *)
Theorem parse_address_always_brooklyn (address_text : str) :
  exists address,
    _parse_address address_text = Some address
    /\ Address.borough address = Some (lit "Brooklyn")
    /\ HPDCache._normalize_address address
       = PyStr.strip (PyStr.upper (Address.street address)) ++ lit ", BROOKLYN".
Proof.
  assert (Hkey : forall street city state zip,
             HPDCache._normalize_address
               (Address.mk street city state zip (Some (lit "Brooklyn")))
             = PyStr.strip (PyStr.upper street) ++ lit ", BROOKLYN")
    by reflexivity.
  unfold _parse_address.
  set (parts := map PyStr.strip (PyStr.split_sep (lit ",") address_text)).
  destruct (3 <=? length parts)%nat eqn:E3.
  2:{ eexists. split; [reflexivity|]. split; [reflexivity | apply Hkey]. }
  apply Nat.leb_le in E3.
  destruct (@py_index_in_range _ parts 0%nat ltac:(lia)) as [street ->].
  replace (1 <? length parts)%nat with true by (symmetry; apply Nat.ltb_lt; lia).
  replace (2 <? length parts)%nat with true by (symmetry; apply Nat.ltb_lt; lia).
  destruct (@py_index_in_range _ parts 1%nat ltac:(lia)) as [city ->].
  destruct (@py_index_in_range _ parts (length parts - 1)%nat ltac:(lia))
    as [last_part ->].
  cbn [obind].
  destruct (PyStr.split last_part) as [|state [|zip others]]; cbn;
    (eexists; split; [reflexivity|]; split; [reflexivity | apply Hkey]).
Qed.

Lemma split_two_commas (street city rest : str) :
  Forall (fun c => c <> ","%char) street ->
  Forall (fun c => c <> ","%char) city ->
  PyStr.split_sep (lit ",") (street ++ lit "," ++ city ++ lit "," ++ rest)
  = street :: city :: PyStr.split_sep (lit ",") rest.
Proof.
  intros Hs Hc. unfold PyStr.split_sep.
  change (lit ",") with [","%char]. cbn [app].
  rewrite split_sep_char by exact Hs. cbn [app].
  now rewrite split_sep_char by exact Hc.
Qed.

(** X20: on a text with at least two commas, [_parse_address] takes
    the trimmed text before the first comma as the street, the trimmed
    text between the first two commas as the city (also when more parts
    follow), and reads state and zip code from the first two words after
    the last comma, with [NY] and [None] when they are missing. *)
Theorem parse_address_parts (street city rest : str) :
  Forall (fun c => c <> ","%char) street ->
  Forall (fun c => c <> ","%char) city ->
  let state_zip :=
    PyStr.split (PyStr.strip (last (PyStr.split_sep (lit ",") rest) [])) in
  _parse_address (street ++ lit "," ++ city ++ lit "," ++ rest)
  = Some (Address.mk (PyStr.strip street) (PyStr.strip city)
            (nth 0 state_zip (lit "NY")) (nth_error state_zip 1)
            (Some (lit "Brooklyn"))).
Proof.
  intros Hs Hc state_zip. unfold _parse_address.
  rewrite (split_two_commas rest Hs Hc).
  assert (Hne : PyStr.split_sep (lit ",") rest <> [])
    by apply split_sep_from_nonempty.
  set (pieces := PyStr.split_sep (lit ",") rest) in *.
  assert (Hlast : nth_error
                    (PyStr.strip street :: PyStr.strip city :: map PyStr.strip pieces)
                    (S (length (map PyStr.strip pieces)))
                  = Some (PyStr.strip (last pieces []))).
  { cbn [nth_error]. rewrite (@nth_error_last str _ _ []). f_equal.
    rewrite <- last_map_strip.
    destruct pieces as [|p ps]; [congruence | reflexivity]. }
  assert (Hlen : exists k, length (map PyStr.strip pieces) = S k).
  { destruct pieces as [|p ps]; [congruence|]. cbn [map length]. eauto. }
  destruct Hlen as [k Hk].
  cbn [map length]. rewrite Hk in *.
  cbn [Nat.ltb Nat.leb Nat.sub obind]. unfold py_index at 3. rewrite Hlast.
  cbn [obind py_index nth_error]. fold state_zip.
  destruct state_zip as [|state [|zip others]]; reflexivity.
Qed.

(** X21: on a text with fewer than two commas [_parse_address] falls
    back to the raw text as the street, untrimmed and with its comma,
    in Brooklyn, NY. *)
Theorem parse_address_fallback (address_text : str) :
  (count_occ ascii_dec address_text ","%char < 2)%nat ->
  _parse_address address_text = Some (raw_address address_text).
Proof.
  intros H. unfold _parse_address, PyStr.split_sep.
  change (lit ",") with [","%char].
  rewrite length_map, split_sep_char_count.
  replace (3 <=? S (count_occ ascii_dec address_text ","%char))%nat with false
    by (symmetry; apply Nat.leb_gt; lia).
  reflexivity.
Qed.

End CompassAddress.

(** ** Examples of the further properties *)

Section FurtherExamples.

Import PropertyMatcher.

Lemma common_prefix_le (a b : str) :
  (Demo.common_prefix a b <= length a)%nat
  /\ (Demo.common_prefix a b <= length b)%nat.
Proof.
  revert b. induction a as [|x a IH]; intros [|y b]; simpl; try lia.
  destruct (ascii_dec x y); [|lia]. specialize (IH b). lia.
Qed.


Lemma demo_ratio_bounds (s t : str) : (0 <= Demo.ratio s t <= 100)%Z.
Proof.
  unfold Demo.ratio. destruct (PyStr.eqb s t); [lia|].
  destruct (common_prefix_le s t) as [Hs Ht].
  destruct (Nat.eq_dec (length s + length t) 0) as [E|E].
  - rewrite E, Z.div_0_r. lia.
  - split; [apply Z.div_pos; lia | apply Z.div_le_upper_bound; lia].
Qed.


Lemma load_cache_stops_at_bad_row_witness :
  HPDCacheLoad.loaded_key Demo.blank_row = Raised
  /\ HPDCacheLoad.init
       (HPDCacheLoad.Sheet ([Demo.gold_row] ++ Demo.blank_row :: [Demo.gold_row_again]))
     = HPDCacheLoad.init (HPDCacheLoad.Sheet [Demo.gold_row]).
Proof.
  split; [vm_compute; reflexivity|].
  apply (@load_cache_stops_at_bad_row [Demo.gold_row] [Demo.gold_row_again]
           Demo.blank_row).
  - constructor; [|constructor].
    exists (lit "100 GOLD STREET, MANHATTAN"). vm_compute. reflexivity.
  - vm_compute. reflexivity.
Defined.

Lemma load_cache_last_row_wins_witness :
  PyDict.get
    (HPDCacheLoad.init (HPDCacheLoad.Sheet [Demo.gold_row; Demo.gold_row_again]))
    (lit "100 GOLD STREET, MANHATTAN")
  = Some Demo.gold_row_again.
Proof.
  rewrite (@load_cache_last_row_wins [Demo.gold_row; Demo.gold_row_again]
             (lit "100 GOLD STREET, MANHATTAN")).
  - vm_compute. reflexivity.
  - constructor; [|constructor; [|constructor]];
      exists (lit "100 GOLD STREET, MANHATTAN"); vm_compute; reflexivity.
Defined.

Lemma lookup_of_saved_row_witness :
  PyDict.get (cache_data Demo.after_first_run)
    (HPDCache._normalize_address (ZillowProperty.address Demo.gold))
  = Some Demo.gold_row
  /\ HPDCache.get_cached_hpd_data Demo.py_str Demo.py_int_of_str
       (cache_data Demo.after_first_run) (ZillowProperty.address Demo.gold)
     = Some (rebuilt (ZillowProperty.address Demo.gold) 2).
Proof.
  assert (Hrow : PyDict.get (cache_data Demo.after_first_run)
                   (HPDCache._normalize_address (ZillowProperty.address Demo.gold))
                 = Some Demo.gold_row) by (vm_compute; reflexivity).
  split; [exact Hrow|].
  exact (proj1 (@lookup_of_saved_row Demo.py_str Demo.py_int_of_str
                  Demo.scraped_date 0 Demo.gold_matched Demo.gold_building
                  (cache_data Demo.after_first_run)
                  (ZillowProperty.address Demo.gold) Hrow)).
Defined.

Lemma similarity_bounds_witness :
  (0 <= _calculate_address_similarity Demo.ratio
          (ZillowProperty.address Demo.main)
          (HPDBuilding.address Demo.maine_building) <= 100)%Z.
Proof.
  exact (proj1 (@similarity_bounds Demo.ratio (ZillowProperty.address Demo.main)
                  (HPDBuilding.address Demo.maine_building) demo_ratio_bounds)).
Defined.



Lemma batch_caches_only_matches_witness :
  fst (Demo.match_properties_batch [Demo.gold; Demo.main; Demo.nowhere] 10 Demo.fresh)
  = Ok Demo.first_run
  /\ NoDup (PyDict.keys (cache_data Demo.after_first_run)).
Proof.
  destruct (@batch_caches_only_matches Demo.ratio Demo.search_by_address
              Demo.py_str Demo.py_int_of_str Demo.scraped_date
              [Demo.gold; Demo.main; Demo.nowhere] 10 Demo.fresh
              ltac:(lia) (NoDup_nil _)) as (H1 & H2 & _).
  split; [exact H1 | exact H2].
Defined.

Lemma matched_listing_cached_afterwards_witness :
  exists count,
    HPDCache.get_cached_hpd_data Demo.py_str Demo.py_int_of_str
      (cache_data Demo.after_first_run) (ZillowProperty.address Demo.gold)
    = Some (rebuilt (ZillowProperty.address Demo.gold) count).
Proof.
  destruct (@matched_listing_cached_afterwards Demo.ratio Demo.search_by_address
              Demo.py_str Demo.py_int_of_str Demo.scraped_date
              [Demo.gold; Demo.main; Demo.nowhere] 10 Demo.fresh
              Demo.first_run Demo.gold_matched)
    as (e' & b' & _ & _ & _ & Hlookup & _).
  - lia.
  - vm_compute. reflexivity.
  - vm_compute. left. reflexivity.
  - vm_compute. reflexivity.
  - vm_compute. reflexivity.
  - exists (length (HPDBuilding.b_units b')). exact Hlookup.
Defined.

Lemma cached_answer_has_no_units_witness :
  PropertyFilter.passes_all FilterCriteria.default
    (fst (Demo.match_property Demo.gold Demo.after_first_run)) = false.
Proof.
  destruct (@cached_answer_has_no_units Demo.ratio Demo.search_by_address
              Demo.py_str Demo.py_int_of_str Demo.scraped_date
              FilterCriteria.default Demo.gold Demo.after_first_run
              0%nat Demo.gold_matched Demo.gold_building)
    as (_ & Hgate & _).
  - vm_compute. reflexivity.
  - apply Hgate. reflexivity.
Defined.

Lemma investment_score_monotone_witness :
  (PropertyFilter.calculate_investment_score Demo.gold_matched
   <= PropertyFilter.calculate_investment_score Demo.gold_improved)%Z.
Proof.
  apply investment_score_monotone.
  - vm_compute. reflexivity.
  - vm_compute. reflexivity.
  - intros _. reflexivity.
  - vm_compute. discriminate.
  - intros d Hd. exists 1%Z. split; [reflexivity|].
    vm_compute in Hd. injection Hd as <-. lia.
Defined.

Lemma parse_price_reads_digits_witness :
  ZillowScraper._parse_price (lit "$1,250,000" ++ lit "+" ++ lit " est.")
  = ZillowScraper._parse_price (lit "$1,250,000").
Proof.
  apply (@parse_price_reads_digits (lit "$1,250,000") (lit " est.")).
  repeat constructor; discriminate.
Defined.

Lemma parse_address_parts_witness :
  CompassScraper._parse_address
    (lit "123 Main St" ++ lit "," ++ lit " Brooklyn" ++ lit "," ++ lit " NY 11201")
  = Some (Address.mk (lit "123 Main St") (lit "Brooklyn") (lit "NY")
            (Some (lit "11201")) (Some (lit "Brooklyn"))).
Proof.
  rewrite (@parse_address_parts (lit "123 Main St") (lit " Brooklyn")
             (lit " NY 11201")).
  - vm_compute. reflexivity.
  - repeat constructor; discriminate.
  - repeat constructor; discriminate.
Defined.

Lemma parse_address_fallback_witness :
  CompassScraper._parse_address (lit "123 Main St, Brooklyn")
  = Some (raw_address (lit "123 Main St, Brooklyn")).
Proof.
  apply parse_address_fallback. vm_compute. lia.
Defined.

End FurtherExamples.
